(** * Item-nonresponse demo: missingness generators and single-value imputation

    A shallow embedding of the functions of [item-nonresponse-demo.ipynb]:

    - [create_mcar_column], [create_mar_column], [create_nmar_column]
      (notebook cell 5), which draw row labels from the process-wide NumPy
      generator until enough distinct ones are found;
    - [impute_mean], [impute_median], [impute_mode] (cells 19, 25, 29);
    - [regression_imputation] (cell 33).

    A cell of a table is a finite number, given by its exact value, or
    NaN.  The arithmetic the notebook does itself, [p_missing * df.shape[0]]
    and [round], is the interpreter's: binary64 multiplication and rounding
    half to even of the double product.  What the libraries compute is not
    re-implemented: NumPy's generator, pandas' treatment of sampling weights
    and of [** 2], the statistics of NumPy and SciPy and scikit-learn's
    estimators enter as the interfaces [RandomState], [Pandas],
    [Statistics] and [Estimator], with the few laws the proofs use; exact
    rational instances of them are given to run the definitions.  The
    [while] loop of the generators is run with a fuel bound; running out of
    fuel is the outcome [Timeout]. *)

From Stdlib Require Import List String ZArith QArith Qround Lia Lqa Bool Arith.
From Stdlib Require Import Permutation SpecFloat.
Import ListNotations.

Local Open Scope string_scope.
Local Open Scope list_scope.
Local Open Scope nat_scope.

(** ** Values, exceptions and outcomes *)

(** A cell of a table: a number, or the "not a number" marker. *)
Inductive cell : Type :=
| Num (q : Q)
| NaN.

(** The Python exceptions the modelled code can raise.  [NameError] also
    stands for its subclass [UnboundLocalError]. *)
Inductive exn : Type :=
| KeyError (key : string)
| ValueError (msg : string)
| NameError (var : string)
| IndexError (msg : string)
| OverflowError (msg : string).

Inductive outcome (A : Type) : Type :=
| Ret (a : A)
| Raise (e : exn)
| Timeout.

Arguments Ret {A} a.
Arguments Raise {A} e.
Arguments Timeout {A}.

Definition bind {A B : Type} (c : outcome A) (k : A -> outcome B) : outcome B :=
  match c with
  | Ret a => k a
  | Raise e => Raise e
  | Timeout => Timeout
  end.

Declare Scope py_scope.
Delimit Scope py_scope with py.
Notation "x <- c ;; k" := (bind c (fun x => k))
  (at level 61, c at next level, right associativity) : py_scope.

(** [[f(i) for i in l]] where [f] may raise: elements are evaluated from
    left to right and the first exception aborts the comprehension. *)
Fixpoint comprehension {A B : Type} (f : A -> outcome B) (l : list A)
  : outcome (list B) :=
  match l with
  | [] => Ret []
  | a :: l' =>
      (b <- f a ;;
       bs <- comprehension f l' ;;
       Ret (b :: bs))%py
  end.

(** [range(k)] for a Python integer [k]: empty when [k <= 0]. *)
Definition range (k : Z) : list nat := seq 0 (Z.to_nat k).

(** ** Numbers *)

Definition Qltb (a b : Q) : bool := negb (Qle_bool b a).

(** A Python [float] is an IEEE 754 binary64 number: 53 bits of precision,
    infinities at exponent 1024. *)
Definition float : Type := spec_float.

(** [float(z)]: the conversion of an integer, correctly rounded. *)
Definition float_of_Z (z : Z) : float := binary_normalize 53 1024 z 0 false.

(** [x * y] and [x / y] on floats. *)
Definition float_mul (x y : float) : float := SFmul 53 1024 x y.

Definition float_div (x y : float) : float := SFdiv 53 1024 x y.

(** The float a decimal literal denotes: [decimal 3 1] is [0.3],
    [decimal 545 3] is [0.545].  For [m] and [10 ^ d] below [2 ^ 53] the
    correctly rounded quotient is the double nearest to the decimal. *)
Definition decimal (m : Z) (d : nat) : float :=
  float_div (float_of_Z m) (float_of_Z (10 ^ Z.of_nat d)).

(** The numbers a caller can pass for [p_missing]: an [int] or a [float]. *)
Inductive number : Type :=
| PyInt (z : Z)
| PyFloat (f : float).

(** [x * n] for an integer [n]: exact on an [int], the double product on a
    [float]. *)
Definition py_mul_int (x : number) (n : Z) : number :=
  match x with
  | PyInt z => PyInt (z * n)
  | PyFloat f => PyFloat (float_mul f (float_of_Z n))
  end.

(** The integer nearest to [m * 2 ^ e], ties to the even one. *)
Definition round_half_even (m : positive) (e : Z) : Z :=
  match e with
  | Zneg d =>
      let q := (Zpos m / 2 ^ Zpos d)%Z in
      let r := (Zpos m mod 2 ^ Zpos d)%Z in
      match (2 * r ?= 2 ^ Zpos d)%Z with
      | Lt => q
      | Gt => (q + 1)%Z
      | Eq => if Z.even q then q else (q + 1)%Z
      end
  | _ => (Zpos m * 2 ^ e)%Z
  end.

(** Python's built-in [round] with one argument: an [int] is returned as it
    is; a [float] goes to the nearest integer, ties to the even one, and
    NaN and the infinities raise. *)
Definition py_round (x : number) : outcome Z :=
  match x with
  | PyInt z => Ret z
  | PyFloat (S754_zero _) => Ret 0%Z
  | PyFloat (S754_finite s m e) =>
      Ret (if s then (- round_half_even m e)%Z else round_half_even m e)
  | PyFloat S754_nan => Raise (ValueError "cannot convert float NaN to integer")
  | PyFloat (S754_infinity _) =>
      Raise (OverflowError "cannot convert float infinity to integer")
  end.

(** [v == 0] on a cell; a comparison with NaN is false. *)
Definition cell_eq0 (v : cell) : bool :=
  match v with
  | Num q => Qeq_bool q 0
  | NaN => false
  end.

Definition is_nan (v : cell) : bool :=
  match v with
  | Num _ => false
  | NaN => true
  end.

(** ** Tables *)

(** A pandas DataFrame whose index is [RangeIndex(shape0)]: the row labels
    are the positions [0 .. shape0 - 1]. *)
Record DataFrame : Type := mkDataFrame {
  shape0 : nat;
  columns : list (string * list cell)
}.

Definition wf_df (df : DataFrame) : Prop :=
  Forall (fun c => List.length (snd c) = shape0 df) (columns df).

Definition find_column (df : DataFrame) (name : string) : option (list cell) :=
  match find (fun c => String.eqb (fst c) name) (columns df) with
  | Some c => Some (snd c)
  | None => None
  end.

(** [df[name]] *)
Definition get_column (df : DataFrame) (name : string) : outcome (list cell) :=
  match find_column df name with
  | Some c => Ret c
  | None => Raise (KeyError name)
  end.

(** [df.loc[i, name]] *)
Definition loc (df : DataFrame) (i : nat) (name : string) : outcome cell :=
  (col <- get_column df name ;;
   match nth_error col i with
   | Some v => Ret v
   | None => Raise (KeyError "row label")
   end)%py.

(** [df[names]]: the listed columns, in the order asked for. *)
Definition get_columns (df : DataFrame) (names : list string)
  : outcome (list (list cell)) :=
  comprehension (get_column df) names.

(** [df.loc[i, names]]: one row restricted to the listed columns. *)
Definition loc_row (df : DataFrame) (i : nat) (names : list string)
  : outcome (list cell) :=
  comprehension (loc df i) names.

(** The rows of a frame given by its columns. *)
Definition rows_of (n : nat) (cols : list (list cell)) : list (list cell) :=
  map (fun i => map (fun c => nth i c NaN) cols) (seq 0 n).

(** ** The process-wide NumPy generator *)

(** [np.random] as the notebook uses it: [seed_state s] is the state after
    [np.random.seed(s)], and [choice n p g] is the one position returned by
    [RandomState.choice(n, size=1, replace=False, p=p)] from state [g],
    with the state it leaves behind.  The position is always in range. *)
Record RandomState : Type := mkRandomState {
  rng : Type;
  seed_state : Z -> rng;
  choice : nat -> option (list Q) -> rng -> nat * rng;
  choice_lt : forall n p g, 0 < n -> fst (choice n p g) < n
}.

(** Weights handed to [DataFrame.sample]: none, a column name, or a series. *)
Inductive weights_arg : Type :=
| WNone
| WName (name : string)
| WSeries (w : list cell).

Definition weight_of (v : cell) : Q :=
  match v with
  | Num q => q
  | NaN => 0%Q
  end.

Definition is_negative (v : cell) : bool :=
  match v with
  | Num q => Qltb q 0
  | NaN => false
  end.

Definition Qsum (l : list Q) : Q := fold_right Qplus 0%Q l.

(** A weight column with a negative entry; one that is zero throughout (a
    NaN weight counts as 0, as in [sample]). *)
Definition has_negative (col : list cell) : bool := existsb is_negative col.

Definition all_zero (col : list cell) : bool :=
  forallb (fun v => Qeq_bool (weight_of v) 0) col.

(** What the notebook uses of pandas beyond looking columns up.

    [pow2 col] is [col ** 2], which NumPy computes in the dtype of the
    column: it wraps around in int64 and rounds or overflows in float64.

    [check_weights n w] is what [DataFrame.sample] does with a weight series
    on a frame of [n] rows before a position is drawn: it raises for a
    series that pandas or the generator's own validation of [p] rejects,
    and otherwise returns the probabilities, normalised in double
    arithmetic, that the draw is made with.

    Two facts about them are used.  The square of a column that is zero
    throughout is zero throughout.  [sample] raises [ValueError] for a
    series with a negative entry ("weight vector many not include negative
    values") and for one that is zero throughout ("Invalid weights: weights
    sum to zero"). *)
Record Pandas : Type := mkPandas {
  pow2 : list cell -> list cell;
  check_weights : nat -> list cell -> outcome (list Q);
  pow2_zero : forall col, all_zero col = true -> all_zero (pow2 col) = true;
  check_weights_degenerate :
    forall n col,
      has_negative col = true \/ all_zero col = true ->
      exists msg, check_weights n col = Raise (ValueError msg)
}.

Definition resolve_weights (P : Pandas) (df : DataFrame) (weights : weights_arg)
  : outcome (option (list Q)) :=
  match weights with
  | WNone => Ret None
  | WName name =>
      match find_column df name with
      | Some col => (p <- check_weights P (shape0 df) col ;; Ret (Some p))%py
      | None => Raise (KeyError "String passed to weights not a valid column")
      end
  | WSeries col => (p <- check_weights P (shape0 df) col ;; Ret (Some p))%py
  end.

(** The seeds [np.random.seed] accepts. *)
Definition valid_seed (random_state : Z) : bool :=
  ((0 <=? random_state) && (random_state <? 2 ^ 32))%Z.

Section Generators.

Variable R : RandomState.
Variable P : Pandas.

(** Code that reads and advances the generator: a state monad over
    [outcome]. *)
Definition M (A : Type) : Type := rng R -> outcome (A * rng R).

Definition ret {A : Type} (a : A) : M A := fun g => Ret (a, g).

Definition lift {A : Type} (c : outcome A) : M A :=
  fun g => match c with
           | Ret a => Ret (a, g)
           | Raise e => Raise e
           | Timeout => Timeout
           end.

Definition bindM {A B : Type} (c : M A) (k : A -> M B) : M B :=
  fun g => match c g with
           | Ret (a, g') => k a g'
           | Raise e => Raise e
           | Timeout => Timeout
           end.

Declare Scope rng_scope.
Delimit Scope rng_scope with rng.
Notation "x <~ c ;; k" := (bindM c (fun x => k))
  (at level 61, c at next level, right associativity) : rng_scope.
Notation "c ;;; k" := (bindM c (fun _ => k))
  (at level 61, right associativity) : rng_scope.

(** [np.random.seed(random_state)]: replaces the state, whatever it was. *)
Definition np_random_seed (random_state : Z) : M unit :=
  fun _ =>
    if valid_seed random_state
    then Ret (tt, seed_state R random_state)
    else Raise (ValueError "Seed must be between 0 and 2**32 - 1").

(** [df.sample(n = 1, weights = weights).index[0]] *)
Definition df_sample (df : DataFrame) (weights : weights_arg) : M nat :=
  fun g =>
    (p <- resolve_weights P df weights ;;
     if shape0 df =? 0 then Raise (ValueError "a must be greater than 0")
     else Ret (choice R (shape0 df) p g))%py.

(** [[draw for i in l]] with [draw] advancing the generator. *)
Fixpoint comprehensionM {A B : Type} (f : A -> M B) (l : list A) : M (list B) :=
  match l with
  | [] => ret []
  | a :: l' =>
      (b <~ f a ;;
       bs <~ comprehensionM f l' ;;
       ret (b :: bs))%rng
  end.

(** [len(set(indices))] *)
Definition len_set (indices : list nat) : nat :=
  List.length (nodup Nat.eq_dec indices).

(** [while len(set(indices)) < k: indices.append(draw)] *)
Fixpoint while_append (fuel : nat) (k : Z) (draw : M nat) (indices : list nat)
  : M (list nat) :=
  fun g =>
    if (Z.of_nat (len_set indices) <? k)%Z then
      match fuel with
      | O => Timeout
      | S fuel' =>
          match draw g with
          | Ret (i, g') => while_append fuel' k draw (indices ++ [i]) g'
          | Raise e => Raise e
          | Timeout => Timeout
          end
      end
    else Ret (indices, g).

(** [i in indices] *)
Definition py_in (i : nat) (indices : list nat) : bool :=
  existsb (Nat.eqb i) indices.

(** [1 if i in indices else 0] *)
Definition flag (indices : list nat) (i : nat) : Z :=
  if py_in i indices then 1%Z else 0%Z.

(** [p_missing * df.shape[0]] *)
Definition requested (p_missing : number) (df : DataFrame) : number :=
  py_mul_int p_missing (Z.of_nat (shape0 df)).

(** [round(p_missing * df.shape[0])] is evaluated for the comprehension and
    again at every test of the loop, with the same result each time: it is
    bound once, to [k]. *)
Definition create_mcar_column (fuel : nat) (df : DataFrame)
    (missing_column : string) (p_missing : number) (random_state : Z)
  : M (list Z) :=
  (np_random_seed random_state ;;;
   k <~ lift (py_round (requested p_missing df)) ;;
   mcar_indices <~ comprehensionM (fun _ => df_sample df WNone) (range k) ;;
   mcar_indices <~ while_append fuel k (df_sample df WNone) mcar_indices ;;
   ret (map (flag mcar_indices) (range (Z.of_nat (shape0 df)))))%rng.

(** The last line of the weighted generators reads a local that is bound
    only in the two [method] branches: [None] is the unbound local. *)
Definition read_local (var : string) (indices : option (list nat)) (i : nat)
  : outcome Z :=
  match indices with
  | Some l => Ret (flag l i)
  | None => Raise (NameError var)
  end.

Definition create_mar_column (fuel : nat) (df : DataFrame)
    (missing_column depends_on method : string) (p_missing : number)
    (random_state : Z) : M (list Z) :=
  (np_random_seed random_state ;;;
   mar_indices <~
     (if (method =? "linear")%string then
        k <~ lift (py_round (requested p_missing df)) ;;
        mar_indices <~
          comprehensionM (fun _ => df_sample df (WName depends_on)) (range k) ;;
        mar_indices <~
          while_append fuel k (df_sample df (WName depends_on)) mar_indices ;;
        ret (Some mar_indices)
      else if (method =? "quadratic")%string then
        let draw :=
          (col <~ lift (get_column df depends_on) ;;
           df_sample df (WSeries (pow2 P col)))%rng in
        k <~ lift (py_round (requested p_missing df)) ;;
        mar_indices <~ comprehensionM (fun _ => draw) (range k) ;;
        mar_indices <~ while_append fuel k draw mar_indices ;;
        ret (Some mar_indices)
      else ret None) ;;
   lift (comprehension (read_local "mar_indices" mar_indices)
                       (range (Z.of_nat (shape0 df)))))%rng.

Definition create_nmar_column (fuel : nat) (df : DataFrame)
    (missing_column method : string) (p_missing : number) (random_state : Z)
  : M (list Z) :=
  (np_random_seed random_state ;;;
   nmar_indices <~
     (if (method =? "linear")%string then
        k <~ lift (py_round (requested p_missing df)) ;;
        nmar_indices <~
          comprehensionM (fun _ => df_sample df (WName missing_column))
                         (range k) ;;
        nmar_indices <~
          while_append fuel k (df_sample df (WName missing_column))
                       nmar_indices ;;
        ret (Some nmar_indices)
      else if (method =? "quadratic")%string then
        let draw :=
          (col <~ lift (get_column df missing_column) ;;
           df_sample df (WSeries (pow2 P col)))%rng in
        k <~ lift (py_round (requested p_missing df)) ;;
        nmar_indices <~ comprehensionM (fun _ => draw) (range k) ;;
        nmar_indices <~ while_append fuel k draw nmar_indices ;;
        ret (Some nmar_indices)
      else ret None) ;;
   lift (comprehension (read_local "nmar_indices" nmar_indices)
                       (range (Z.of_nat (shape0 df)))))%rng.

End Generators.

(** ** Summary statistics (NumPy and SciPy) *)

(** [np.mean(col)], [np.median(col)] and [scipy.stats.mode(col)[0][0]] on
    a column of the table.  The libraries compute them in double arithmetic,
    in an order of operations of their own ([np.mean] of a pandas series is
    the series' own mean, which skips NaN); the notebook's functions pass
    the column in and the value on.  [stats_mode] can raise: the indexing
    fails on the empty result of an empty column. *)
Record Statistics : Type := mkStatistics {
  np_mean : list cell -> cell;
  np_median : list cell -> cell;
  stats_mode : list cell -> outcome cell
}.

(** ** Exact arithmetic on the values of a column *)

Definition Qmean (l : list Q) : Q :=
  (Qsum l / inject_Z (Z.of_nat (List.length l)))%Q.

Fixpoint insert_sorted (x : Q) (l : list Q) : list Q :=
  match l with
  | [] => [x]
  | y :: l' => if Qle_bool x y then x :: l else y :: insert_sorted x l'
  end.

Definition sort_q (l : list Q) : list Q := fold_right insert_sorted [] l.

Definition Qmedian (l : list Q) : Q :=
  let s := sort_q l in
  let n := List.length l in
  if Nat.even n
  then ((nth (n / 2 - 1) s 0 + nth (n / 2) s 0) / 2)%Q
  else nth (n / 2) s 0%Q.

(** The numbers of a column, NaN left out. *)
Definition numeric (col : list cell) : list Q :=
  flat_map (fun v => match v with Num q => [q] | NaN => [] end) col.

Definition count_eq (x : Q) (col : list cell) : nat :=
  List.length
    (filter (fun v => match v with Num q => Qeq_bool q x | NaN => false end) col).



(** ** Single-value imputation (cells 19, 25, 29) *)

Definition impute_mean (S : Statistics) (df : DataFrame)
    (impute_column missingness_column : string)
  : outcome (list cell) :=
  comprehension
    (fun i =>
       (m <- loc df i missingness_column ;;
        if cell_eq0 m then loc df i impute_column
        else (col <- get_column df impute_column ;; Ret (np_mean S col)))%py)
    (range (Z.of_nat (shape0 df))).

Definition impute_median (S : Statistics) (df : DataFrame)
    (impute_column missingness_column : string)
  : outcome (list cell) :=
  comprehension
    (fun i =>
       (m <- loc df i missingness_column ;;
        if cell_eq0 m then loc df i impute_column
        else (col <- get_column df impute_column ;; Ret (np_median S col)))%py)
    (range (Z.of_nat (shape0 df))).

Definition impute_mode (S : Statistics) (df : DataFrame)
    (impute_column missingness_column : string)
  : outcome (list cell) :=
  comprehension
    (fun i =>
       (m <- loc df i missingness_column ;;
        if cell_eq0 m then loc df i impute_column
        else (col <- get_column df impute_column ;; stats_mode S col))%py)
    (range (Z.of_nat (shape0 df))).

(** ** Regression imputation (cell 33) *)

(** A scikit-learn estimator: [fit X y] on the rows [X] and targets [y], and
    [predict m row] for [m.predict(one-row frame)[0]]. *)
Record Estimator : Type := mkEstimator {
  model : Type;
  fit : list (list cell) -> list cell -> outcome model;
  predict : model -> list cell -> outcome cell
}.

(** The two estimators the notebook imports from [sklearn.linear_model]. *)
Record sklearn : Type := mkSklearn {
  LinearRegression : Estimator;
  LogisticRegression : Estimator
}.

(** The local [model] is bound in the two [regression] branches only. *)
Definition select_model (sk : sklearn) (regression : string) : outcome Estimator :=
  if (regression =? "linear")%string then Ret (LinearRegression sk)
  else if (regression =? "logistic")%string then Ret (LogisticRegression sk)
  else Raise (NameError "model").

Definition regression_imputation (sk : sklearn) (df : DataFrame)
    (impute_column : string) (X_columns : list string)
    (missingness_column : string) (regression : string)
  : outcome (list cell) :=
  (est <- select_model sk regression ;;
   X <- get_columns df X_columns ;;
   y <- get_column df impute_column ;;
   m <- fit est (rows_of (shape0 df) X) y ;;
   comprehension
     (fun i =>
        flag <- loc df i "age_missingness" ;;
        if cell_eq0 flag then loc df i "age"
        else (row <- loc_row df i ["children"; "partnered"; "income"] ;;
              predict est m row))
     (range (Z.of_nat (shape0 df))))%py.

(** ** Supports, fairness, and instances used to run the definitions *)

(** The positions a draw can return: all of them without weights, those of
    positive probability with weights. *)
Definition support (n : nat) (p : option (list Q)) : list nat :=
  match p with
  | None => seq 0 n
  | Some w => filter (fun i => Qltb 0 (nth i w 0%Q)) (seq 0 n)
  end.

(** The state of the generator after [m] draws. *)
Fixpoint advance (R : RandomState) (n : nat) (p : option (list Q)) (m : nat)
    (g : rng R) : rng R :=
  match m with
  | O => g
  | S m' => advance R n p m' (snd (choice R n p g))
  end.

(** A generator is fair on [(n, p)] when, from every state, every position
    of the support is drawn after finitely many draws. *)
Definition fair (R : RandomState) (n : nat) (p : option (list Q)) : Prop :=
  forall g i, In i (support n p) ->
    exists m, fst (choice R n p (advance R n p m g)) = i.

(** A generator that walks round-robin through the support. *)
Definition cycle_choice (n : nat) (p : option (list Q)) (g : nat) : nat * nat :=
  let c := support n p in
  (nth (g mod List.length c) c 0, S g).

Lemma support_lt (n : nat) (p : option (list Q)) (i : nat) :
  In i (support n p) -> i < n.
Proof.
  destruct p as [w|]; simpl; intros H.
  - apply filter_In in H. destruct H as [H _]. apply in_seq in H. lia.
  - apply in_seq in H. lia.
Qed.

Lemma cycle_choice_lt (n : nat) (p : option (list Q)) (g : nat) :
  0 < n -> fst (cycle_choice n p g) < n.
Proof.
  intros Hn. unfold cycle_choice. simpl.
  destruct (support n p) as [|c0 cs] eqn:E.
  - destruct g; exact Hn.
  - apply (support_lt n p). rewrite E.
    apply nth_In. apply Nat.mod_upper_bound. simpl. lia.
Qed.

Definition cycle_rng : RandomState :=
  mkRandomState nat Z.to_nat cycle_choice cycle_choice_lt.

(** An estimator that validates its input the way scikit-learn does (at
    least one row, no NaN, a fixed number of features) and predicts the mean
    of the training targets. *)
Definition mean_fit (X : list (list cell)) (y : list cell) : outcome (nat * Q) :=
  match X with
  | [] => Raise (ValueError "Found array with 0 sample(s)")
  | row :: _ =>
      if existsb (existsb is_nan) X || existsb is_nan y
      then Raise (ValueError "Input contains NaN")
      else Ret (List.length row, Qmean (map weight_of y))
  end.

Definition mean_predict (m : nat * Q) (row : list cell) : outcome cell :=
  if negb (List.length row =? fst m)
  then Raise (ValueError "X has a different number of features")
  else if existsb is_nan row then Raise (ValueError "Input contains NaN")
  else Ret (Num (snd m)).

Definition mean_regressor : Estimator :=
  mkEstimator (nat * Q) mean_fit mean_predict.

Definition mean_sklearn : sklearn := mkSklearn mean_regressor mean_regressor.

(** pandas in exact arithmetic.  The square of each entry; and the checks
    of [sample] in their order (length, negative entries, NaN replaced by 0,
    sum zero) with the weights divided by their sum. *)
Definition exact_square (v : cell) : cell :=
  match v with
  | Num q => Num (q * q)
  | NaN => NaN
  end.

Definition exact_check_weights (n : nat) (w : list cell) : outcome (list Q) :=
  if negb (List.length w =? n) then
    Raise (ValueError "Weights and axis to be sampled must be of same length")
  else if existsb is_negative w then
    Raise (ValueError "weight vector many not include negative values")
  else
    let w0 := map weight_of w in
    let s := Qsum w0 in
    if Qeq_bool s 1 then Ret w0
    else if Qeq_bool s 0 then
      Raise (ValueError "Invalid weights: weights sum to zero")
    else Ret (map (fun q => q / s)%Q w0).

Lemma all_zero_sum (col : list cell) :
  all_zero col = true -> (Qsum (map weight_of col) == 0)%Q.
Proof.
  induction col as [|v col IH]; simpl; intros H.
  - reflexivity.
  - apply andb_true_iff in H. destruct H as [Hv Hc].
    apply Qeq_bool_iff in Hv. rewrite Hv, (IH Hc). reflexivity.
Qed.

Lemma all_zero_exact_square (col : list cell) :
  all_zero col = true -> all_zero (map exact_square col) = true.
Proof.
  induction col as [|v col IH]; simpl; intros H.
  - reflexivity.
  - apply andb_true_iff in H. destruct H as [Hv Hc].
    rewrite (IH Hc), andb_true_r. destruct v as [q|]; [|reflexivity].
    simpl in *. apply Qeq_bool_iff in Hv. apply Qeq_bool_iff.
    rewrite Hv. reflexivity.
Qed.

Lemma exact_check_weights_degenerate (n : nat) (col : list cell) :
  has_negative col = true \/ all_zero col = true ->
  exists msg, exact_check_weights n col = Raise (ValueError msg).
Proof.
  intros H. unfold exact_check_weights.
  destruct (negb (List.length col =? n)); [eexists; reflexivity|].
  fold (has_negative col).
  destruct (has_negative col) eqn:Hneg; [eexists; reflexivity|].
  destruct H as [H|H]; [discriminate|].
  apply all_zero_sum in H.
  destruct (Qeq_bool (Qsum (map weight_of col)) 1) eqn:E1.
  - apply Qeq_bool_iff in E1. rewrite H in E1. discriminate.
  - destruct (Qeq_bool (Qsum (map weight_of col)) 0) eqn:E0.
    + eexists; reflexivity.
    + apply Qeq_bool_neq in E0. contradiction.
Qed.

Definition exact_pandas : Pandas :=
  mkPandas (map exact_square) exact_check_weights
           all_zero_exact_square exact_check_weights_degenerate.

(** The statistics in exact arithmetic: the mean of the numbers of the
    column, NaN skipped; the median, NaN when the column holds one; the
    smallest of the most frequent values (the distinct values are visited
    in increasing order and a value replaces the current mode only when it
    occurs strictly more often; a NaN never counts). *)
Definition exact_mean (col : list cell) : cell :=
  match numeric col with
  | [] => NaN
  | l => Num (Qmean l)
  end.

Definition exact_median (col : list cell) : cell :=
  match col with
  | [] => NaN
  | _ => if existsb is_nan col then NaN else Num (Qmedian (map weight_of col))
  end.

Definition exact_mode (col : list cell) : outcome cell :=
  match col with
  | [] => Raise (IndexError "index 0 is out of bounds for axis 0 with size 0")
  | _ =>
      Ret (Num (fst (fold_left
                       (fun acc score =>
                          let c := count_eq score col in
                          if snd acc <? c then (score, c) else acc)
                       (sort_q (numeric col)) (0%Q, 0))))
  end.

Definition exact_statistics : Statistics :=
  mkStatistics exact_mean exact_median exact_mode.

(** ** Vocabulary of the claims *)

(** What the claims ask of a returned column: [n] entries, each 0 or 1,
    exactly [k] of them 1. *)
Definition indicator_of (n : nat) (k : Z) (col : list Z) : Prop :=
  List.length col = n
  /\ Z.of_nat (count_occ Z.eq_dec col 1%Z) = k
  /\ Forall (fun z => z = 0%Z \/ z = 1%Z) col.

(** The series a weighted generator hands to [sample]: the column itself
    in 'linear' mode, its squares in 'quadratic' mode. *)
Definition weights_series (P : Pandas) (method : string) (col : list cell)
  : list cell :=
  if (method =? "quadratic")%string then pow2 P col else col.

(** [v == 1] on a cell. *)
Definition cell_eq1 (v : cell) : bool :=
  match v with
  | Num q => Qeq_bool q 1
  | NaN => false
  end.

(** [out] keeps the stored value where the indicator is 0 and holds [stat]
    where it is 1 (or any other non-zero value). *)
Definition imputes (stat : cell) (col ind out : list cell) : Prop :=
  List.length out = List.length col
  /\ forall i x m,
       nth_error col i = Some x -> nth_error ind i = Some m ->
       (cell_eq0 m = true -> nth_error out i = Some x)
       /\ (cell_eq1 m = true -> nth_error out i = Some stat)
       /\ (cell_eq0 m = false -> nth_error out i = Some stat).

(** The column every imputation function builds. *)
Definition imputed_column (stat : cell) (col ind : list cell) (n : nat) : list cell :=
  map (fun i => if cell_eq0 (nth i ind NaN) then nth i col NaN else stat)
      (seq 0 n).

(** [df[impute_column][df[missingness_column] == 0]]: the observed rows, as
    [compare_histograms] selects them. *)
Fixpoint observed (col ind : list cell) : list cell :=
  match col, ind with
  | x :: col', m :: ind' =>
      if cell_eq0 m then x :: observed col' ind' else observed col' ind'
  | _, _ => []
  end.

(** Numerical equality of two cells. *)
Definition cell_equiv (a b : cell) : Prop :=
  match a, b with
  | Num x, Num y => (x == y)%Q
  | NaN, NaN => True
  | _, _ => False
  end.


(** An estimator rejects NaN when its [fit] raises on every training table
    with a NaN among the features, as scikit-learn's input validation
    does. *)
Definition rejects_nan (est : Estimator) : Prop :=
  forall X y, existsb (existsb is_nan) X = true -> exists e, fit est X y = Raise e.

(** ** Tables used in witnesses and counterexamples *)

(** A 100-row table, as in the notebook. *)
Definition hundred_rows : DataFrame :=
  mkDataFrame 100
    [("age", map (fun i => Num (inject_Z (20 + Z.of_nat i))) (seq 0 100));
     ("income", map (fun i => Num (inject_Z (15000 + 750 * Z.of_nat i))) (seq 0 100))].

(** Forty-five rows: with [p_missing = 0.7] the double product
    [0.7 * 45] is just below 31.5. *)
Definition forty_five_rows : DataFrame :=
  mkDataFrame 45
    [("age", map (fun i => Num (inject_Z (20 + Z.of_nat i))) (seq 0 45))].

(** Two rows whose [age] is zero throughout. *)
Definition zero_age : DataFrame :=
  mkDataFrame 2 [("age", [Num 0; Num 0]); ("income", [Num 10; Num 20])].

(** Two rows with a negative [age]. *)
Definition negative_age : DataFrame :=
  mkDataFrame 2 [("age", [Num (-1); Num 2]); ("income", [Num 10; Num 20])].

(** Six rows; the last three are flagged missing and hold the large values. *)
Definition skewed : DataFrame :=
  mkDataFrame 6
    [("age", [Num 1; Num 1; Num 2; Num 9; Num 9; Num 9]);
     ("age_missingness", [Num 0; Num 0; Num 0; Num 1; Num 1; Num 1])].


(** Three rows.  [income] is flagged missing on row 1, [age] on row 2. *)
Definition survey : DataFrame :=
  mkDataFrame 3
    [("age", [Num 10; Num 20; Num 90]);
     ("age_missingness", [Num 0; Num 0; Num 1]);
     ("income", [Num 100; Num 260; Num 300]);
     ("income_missingness", [Num 0; Num 1; Num 0]);
     ("children", [Num 1; Num 2; Num 3]);
     ("partnered", [Num 1; Num 0; Num 1])].

(** Two rows with a NaN among the features. *)
Definition holed : DataFrame :=
  mkDataFrame 2
    [("age", [Num 30; Num 40]);
     ("age_missingness", [Num 0; Num 1]);
     ("children", [Num 1; NaN]);
     ("partnered", [Num 1; Num 0]);
     ("income", [Num 100; Num 200])].

(** Two rows, both flagged missing: no observed training row. *)
Definition unobserved : DataFrame :=
  mkDataFrame 2
    [("age", [Num 30; Num 40]);
     ("age_missingness", [Num 1; Num 1]);
     ("children", [Num 1; Num 2]);
     ("partnered", [Num 1; Num 0]);
     ("income", [Num 100; Num 200])].

(** Two rows of which only the first has a positive [age]. *)
Definition lopsided : DataFrame :=
  mkDataFrame 2 [("age", [Num 5; Num 0]); ("income", [Num 10; Num 20])].

(** ** The rest of the notebook: stored columns, cells 3 and 10 *)

(** [df[name] = values] for a Python list [values].  The column replaces
    the one of that name or is appended; a list of the wrong length raises.
    A frame whose index is empty takes the length of the list instead, its
    other columns being filled with NaN. *)
Fixpoint assign (name : string) (values : list cell)
    (cols : list (string * list cell)) : list (string * list cell) :=
  match cols with
  | [] => [(name, values)]
  | c :: cols' =>
      if String.eqb (fst c) name then (name, values) :: cols'
      else c :: assign name values cols'
  end.

Definition set_column (df : DataFrame) (name : string) (values : list cell)
  : outcome DataFrame :=
  if shape0 df =? 0 then
    Ret (mkDataFrame (List.length values)
           (assign name values
              (map (fun c => (fst c, repeat NaN (List.length values)))
                   (columns df))))
  else if List.length values =? shape0 df then
    Ret (mkDataFrame (shape0 df) (assign name values (columns df)))
  else Raise (ValueError "Length of values does not match length of index").

(** A list of Python integers as a column. *)
Definition int_cells (l : list Z) : list cell := map (fun z => Num (inject_Z z)) l.

(** Row by row: the stored value where the indicator is 0, [s] elsewhere. *)
Fixpoint fill (s : cell) (col ind : list cell) : list cell :=
  match col, ind with
  | x :: col', m :: ind' => (if cell_eq0 m then x else s) :: fill s col' ind'
  | _, _ => []
  end.

(** [out] keeps the stored value where the integer indicator is 0 and
    holds [stat] where it is 1. *)
Definition imputed_by (stat : cell) (col : list cell) (ind : list Z)
    (out : list cell) : Prop :=
  List.length out = List.length col
  /\ forall i x z,
       nth_error col i = Some x -> nth_error ind i = Some z ->
       (z = 0%Z -> nth_error out i = Some x)
       /\ (z = 1%Z -> nth_error out i = Some stat).

(** A table of incomes with its own indicator, and no age. *)
Definition household : DataFrame :=
  mkDataFrame 3
    [("income", [Num 100; Num 260; Num 300]);
     ("income_missingness", [Num 0; Num 1; Num 0]);
     ("children", [Num 1; Num 2; Num 3]);
     ("partnered", [Num 1; Num 0; Num 1])].

(** [[df.loc[i, column] if df.loc[i, indicator] == 0 else np.nan
      for i in range(100)]]: the number of rows is written into the cell. *)
Definition masked_column (df : DataFrame) (column indicator : string)
  : outcome (list cell) :=
  comprehension
    (fun i =>
       (flag <- loc df i indicator ;;
        if cell_eq0 flag then loc df i column else Ret NaN)%py)
    (range 100).

(** [df_missing]: a frame of the [children] column, to which the three
    masked columns are added one after the other. *)
Definition df_missing (df : DataFrame) : outcome DataFrame :=
  (children <- get_column df "children" ;;
   age <- masked_column df "age" "age_missingness" ;;
   d <- set_column (mkDataFrame (shape0 df) [("children", children)]) "age" age ;;
   partnered <- masked_column df "partnered" "partnered_missingness" ;;
   d <- set_column d "partnered" partnered ;;
   income <- masked_column df "income" "income_missingness" ;;
   set_column d "income" income)%py.

(** A 100-row table with every column cell 10 reads: every third age,
    every fifth partnered and every fourth income is flagged. *)
Definition census : DataFrame :=
  mkDataFrame 100
    [("age", map (fun i => Num (inject_Z (20 + Z.of_nat i))) (seq 0 100));
     ("partnered", map (fun i => Num (inject_Z (Z.of_nat (i mod 2)))) (seq 0 100));
     ("children", map (fun i => Num (inject_Z (Z.of_nat (i mod 4)))) (seq 0 100));
     ("income", map (fun i => Num (inject_Z (15000 + 750 * Z.of_nat i))) (seq 0 100));
     ("age_missingness",
      map (fun i => Num (if i mod 3 =? 0 then 1 else 0)) (seq 0 100));
     ("partnered_missingness",
      map (fun i => Num (if i mod 5 =? 0 then 1 else 0)) (seq 0 100));
     ("income_missingness",
      map (fun i => Num (if i mod 4 =? 0 then 1 else 0)) (seq 0 100))].

(** [i >= 0] on a cell; a comparison with NaN is false. *)
Definition cell_geb0 (v : cell) : bool :=
  match v with
  | Num q => Qle_bool 0 q
  | NaN => false
  end.

(** [[i if i >= 0 else 0 for i in income]] *)
Definition nonnegative_income (income : list cell) : list cell :=
  map (fun i => if cell_geb0 i then i else Num 0) income.

Definition nonnegative (v : cell) : Prop :=
  match v with
  | Num q => (0 <= q)%Q
  | NaN => False
  end.

(** Whether a call came back with a value. *)
Definition returns {A : Type} (o : outcome A) : bool :=
  match o with
  | Ret _ => true
  | _ => false
  end.

(** * Properties *)

(** ** The definitions on small inputs *)

Example decimal_literals :
  decimal 3 1 = S754_finite false 5404319552844595 (-54)
  /\ decimal 5 1 = S754_finite false 4503599627370496 (-53)
  /\ decimal 1 0 = S754_finite false 4503599627370496 (-52).
Proof. repeat split; reflexivity. Qed.

Example py_round_ties_to_even :
  map (fun f => py_round (PyFloat f))
      [decimal 5 1; decimal 15 1; decimal 25 1; SFopp (decimal 5 1);
       SFopp (decimal 15 1); decimal 7 1; SFopp (decimal 7 1)]
  = map Ret [0; 2; 2; 0; -2; 1; -1]%Z.
Proof. reflexivity. Qed.

Example py_round_special :
  py_round (PyFloat S754_nan)
  = Raise (ValueError "cannot convert float NaN to integer")
  /\ py_round (PyFloat (S754_infinity false))
     = Raise (OverflowError "cannot convert float infinity to integer")
  /\ py_round (PyInt 7) = Ret 7%Z.
Proof. repeat split; reflexivity. Qed.

(** The product is rounded to a double before [round] sees it:
    [0.7 * 45] is the double just below 31.5, [0.545 * 100] the one just
    above 54.5, and [0.3 * 5] is 1.5 although the double [0.3] lies below
    three tenths. *)
Example py_round_notebook :
  py_round (py_mul_int (PyFloat (decimal 3 1)) 100) = Ret 30%Z
  /\ py_round (py_mul_int (PyFloat (decimal 2 1)) 100) = Ret 20%Z
  /\ py_round (py_mul_int (PyFloat (decimal 1 2)) 100) = Ret 1%Z
  /\ py_round (py_mul_int (PyFloat (decimal 7 1)) 45) = Ret 31%Z
  /\ py_round (py_mul_int (PyFloat (decimal 545 3)) 100) = Ret 55%Z
  /\ py_round (py_mul_int (PyFloat (decimal 3 1)) 5) = Ret 2%Z
  /\ py_round (py_mul_int (PyInt 1) 100) = Ret 100%Z.
Proof. repeat split; reflexivity. Qed.

Example exact_mean_skips_nan :
  exact_mean [Num 1; NaN; Num 4; Num 8] = Num (13 # 3)
  /\ exact_mean [NaN; NaN] = NaN
  /\ exact_mean [] = NaN.
Proof. repeat split; reflexivity. Qed.

Example exact_median_even_and_odd :
  exact_median [Num 3; Num 1; Num 2; Num 10] = Num (5 # 2)
  /\ exact_median [Num 3; Num 1; Num 2] = Num 2
  /\ exact_median [Num 3; NaN] = NaN.
Proof. repeat split; reflexivity. Qed.

Example exact_mode_smallest_of_ties :
  exact_mode [Num 3; Num 1; Num 3; Num 1; NaN] = Ret (Num 1)
  /\ exact_mode [Num 7; Num 7; Num 2] = Ret (Num 7).
Proof. repeat split; reflexivity. Qed.

Example exact_check_weights_normalises :
  exact_check_weights 2 [Num 1; Num 3] = Ret [1 # 4; 3 # 4]
  /\ exact_check_weights 2 [Num (1 # 4); Num (3 # 4)] = Ret [1 # 4; 3 # 4]
  /\ exact_check_weights 2 [NaN; Num 0]
     = Raise (ValueError "Invalid weights: weights sum to zero")
  /\ exact_check_weights 2 [Num (-1); Num 1]
     = Raise (ValueError "weight vector many not include negative values").
Proof. repeat split; reflexivity. Qed.

Example mcar_run :
  create_mcar_column cycle_rng exact_pandas 10 zero_age "age" (PyFloat (decimal 5 1)) 42 0
  = Ret ([1; 0]%Z, 43).
Proof. reflexivity. Qed.

(** ** Comprehensions and lookups *)

Lemma comprehension_ret {A B : Type} (f : A -> outcome B) (h : A -> B) (l : list A) :
  (forall a, In a l -> f a = Ret (h a)) -> comprehension f l = Ret (map h l).
Proof.
  induction l as [|a l IH]; intros Hf; simpl.
  - reflexivity.
  - rewrite (Hf a) by (left; reflexivity). simpl.
    rewrite IH by (intros b Hb; apply Hf; right; exact Hb).
    reflexivity.
Qed.

Lemma comprehension_not_timeout {A B : Type} (f : A -> outcome B) (l : list A) :
  (forall a, f a <> Timeout) -> comprehension f l <> Timeout.
Proof.
  intros Hf. induction l as [|a l IH]; simpl.
  - discriminate.
  - specialize (Hf a). destruct (f a); simpl; try congruence.
    destruct (comprehension f l); simpl; congruence.
Qed.

Lemma comprehension_In {A B : Type} (f : A -> outcome B) (l : list A) (bs : list B) (a : A) :
  comprehension f l = Ret bs -> In a l -> exists b, f a = Ret b /\ In b bs.
Proof.
  revert bs. induction l as [|a0 l IH]; intros bs Hc Ha; simpl in *.
  - contradiction.
  - destruct (f a0) as [b0| |] eqn:E0; simpl in Hc; try discriminate.
    destruct (comprehension f l) as [bs'| |] eqn:E; simpl in Hc; try discriminate.
    injection Hc as <-. destruct Ha as [->|Ha].
    + exists b0. split; [exact E0 | left; reflexivity].
    + destruct (IH bs' eq_refl Ha) as [b [Hb Hin]].
      exists b. split; [exact Hb | right; exact Hin].
Qed.

Lemma find_column_In (df : DataFrame) (name : string) (col : list cell) :
  find_column df name = Some col -> In (name, col) (columns df).
Proof.
  unfold find_column. destruct (find _ (columns df)) as [[c v]|] eqn:E; try discriminate.
  intros [= <-]. apply find_some in E. destruct E as [Hin Heq].
  simpl in Heq. apply String.eqb_eq in Heq. subst c. exact Hin.
Qed.

Lemma find_column_length (df : DataFrame) (name : string) (col : list cell) :
  wf_df df -> find_column df name = Some col -> List.length col = shape0 df.
Proof.
  intros Hwf Hf. apply find_column_In in Hf.
  unfold wf_df in Hwf. rewrite Forall_forall in Hwf.
  exact (Hwf _ Hf).
Qed.

Lemma loc_nth (df : DataFrame) (name : string) (col : list cell) (i : nat) :
  find_column df name = Some col -> i < List.length col ->
  loc df i name = Ret (nth i col NaN).
Proof.
  intros Hf Hi. unfold loc, get_column. rewrite Hf. simpl.
  rewrite (nth_error_nth' col NaN Hi). reflexivity.
Qed.

(** ** Counting distinct labels *)

Lemma same_elements_length (a b : list nat) :
  NoDup a -> NoDup b -> (forall x, In x a <-> In x b) ->
  List.length a = List.length b.
Proof.
  intros Ha Hb Hab. apply Permutation_length.
  apply NoDup_Permutation; assumption.
Qed.

Lemma len_set_app_in (i : nat) (idx : list nat) :
  In i idx -> len_set (idx ++ [i]) = len_set idx.
Proof.
  intros Hi. unfold len_set.
  apply same_elements_length; try apply NoDup_nodup.
  intros x. rewrite !nodup_In, in_app_iff. simpl.
  split; [intros [H|[H|[]]]; [exact H | subst; exact Hi] | intros H; left; exact H].
Qed.

Lemma len_set_app_notin (i : nat) (idx : list nat) :
  ~ In i idx -> len_set (idx ++ [i]) = S (len_set idx).
Proof.
  intros Hi. unfold len_set.
  change (S (List.length (nodup Nat.eq_dec idx)))
    with (List.length (i :: nodup Nat.eq_dec idx)).
  apply same_elements_length.
  - apply NoDup_nodup.
  - constructor; [rewrite nodup_In; exact Hi | apply NoDup_nodup].
  - intros x. rewrite nodup_In, in_app_iff. simpl. rewrite nodup_In.
    split; [intros [H|[H|[]]]; [right; exact H | left; exact H]
           | intros [H|H]; [right; left; exact H | left; exact H]].
Qed.

Lemma len_set_le_length (idx : list nat) : len_set idx <= List.length idx.
Proof.
  unfold len_set. apply NoDup_incl_length; [apply NoDup_nodup|].
  intros x Hx. apply nodup_In in Hx. exact Hx.
Qed.

Lemma py_in_In (i : nat) (idx : list nat) : py_in i idx = true <-> In i idx.
Proof.
  unfold py_in. rewrite existsb_exists. split.
  - intros [x [Hx Hix]]. apply Nat.eqb_eq in Hix. subst. exact Hx.
  - intros H. exists i. split; [exact H | apply Nat.eqb_refl].
Qed.

(** A pool of distinct labels larger than the set drawn so far holds a
    label that has not been drawn. *)
Lemma fresh_label (pool idx : list nat) :
  NoDup pool -> len_set idx < List.length pool ->
  exists i, In i pool /\ ~ In i idx.
Proof.
  intros Hnd Hlt.
  destruct (find (fun i => negb (py_in i idx)) pool) as [i|] eqn:E.
  - apply find_some in E. destruct E as [Hin Hb].
    exists i. split; [exact Hin|].
    intros Hi. apply py_in_In in Hi. rewrite Hi in Hb. discriminate.
  - exfalso.
    assert (Hincl : incl pool (nodup Nat.eq_dec idx)).
    { intros x Hx. apply nodup_In.
      pose proof (find_none _ _ E x Hx) as Hb.
      apply negb_false_iff in Hb. apply py_in_In. exact Hb. }
    apply (NoDup_incl_length Hnd) in Hincl. unfold len_set in Hlt. lia.
Qed.

(** The number of ones of the indicator is the number of distinct labels. *)
Lemma count_flags (idx : list nat) (n : nat) :
  Forall (fun i => i < n) idx ->
  count_occ Z.eq_dec (map (flag idx) (seq 0 n)) 1%Z = len_set idx.
Proof.
  intros Hall.
  assert (Hc : forall l, count_occ Z.eq_dec (map (flag idx) l) 1%Z
                         = List.length (filter (fun i => py_in i idx) l)).
  { induction l as [|x l IH]; [reflexivity|].
    cbn [map filter]. unfold flag at 1. destruct (py_in x idx).
    - rewrite count_occ_cons_eq by reflexivity. simpl. rewrite IH. reflexivity.
    - rewrite count_occ_cons_neq by discriminate. exact IH. }
  rewrite Hc. unfold len_set. apply same_elements_length.
  - apply NoDup_filter, seq_NoDup.
  - apply NoDup_nodup.
  - intros x. rewrite filter_In, nodup_In, in_seq, py_in_In.
    rewrite Forall_forall in Hall. split.
    + intros [_ H]. exact H.
    + intros H. split; [specialize (Hall x H); lia | exact H].
Qed.

Lemma flags_binary (idx : list nat) (l : list nat) :
  Forall (fun z => z = 0%Z \/ z = 1%Z) (map (flag idx) l).
Proof.
  apply Forall_forall. intros z Hz. apply in_map_iff in Hz.
  destruct Hz as [x [<- _]]. unfold flag. destruct (py_in x idx); auto.
Qed.

Lemma sum_binary (col : list Z) :
  Forall (fun z => z = 0%Z \/ z = 1%Z) col ->
  fold_right Z.add 0%Z col = Z.of_nat (count_occ Z.eq_dec col 1%Z).
Proof.
  induction 1 as [|z col [Hz|Hz] _ IH]; [reflexivity| |]; subst z.
  - rewrite count_occ_cons_neq by discriminate. cbn [fold_right]. rewrite IH. lia.
  - rewrite count_occ_cons_eq by reflexivity. cbn [fold_right]. rewrite IH. lia.
Qed.

Lemma support_NoDup (n : nat) (p : option (list Q)) : NoDup (support n p).
Proof.
  destruct p as [w|]; simpl; [apply NoDup_filter|]; apply seq_NoDup.
Qed.

(** ** The draw-until-distinct loop *)

Lemma while_append_done (R : RandomState) (draw : M R nat) (fuel : nat)
    (k : Z) (idx : list nat) (g : rng R) :
  (k <= Z.of_nat (len_set idx))%Z ->
  while_append R fuel k draw idx g = Ret (idx, g).
Proof.
  intros Hk. destruct fuel; simpl;
    destruct (Z.ltb_spec (Z.of_nat (len_set idx)) k); try lia; reflexivity.
Qed.

Section Loop.

Variable R : RandomState.
Variable n : nat.
Variable p : option (list Q).
Variable draw : M R nat.
Hypothesis n_pos : 0 < n.
Hypothesis draw_choice : forall g, draw g = Ret (choice R n p g).

Lemma while_append_step (fuel : nat) (k : Z) (idx : list nat) (g : rng R) :
  (Z.of_nat (len_set idx) < k)%Z ->
  while_append R (S fuel) k draw idx g
  = while_append R fuel k draw (idx ++ [fst (choice R n p g)])
                 (snd (choice R n p g)).
Proof.
  intros Hk. simpl.
  destruct (Z.ltb_spec (Z.of_nat (len_set idx)) k); try lia.
  rewrite draw_choice. destruct (choice R n p g). reflexivity.
Qed.

Lemma Forall_lt_snoc (idx : list nat) (g : rng R) :
  Forall (fun i => i < n) idx ->
  Forall (fun i => i < n) (idx ++ [fst (choice R n p g)]).
Proof.
  intros H. apply Forall_app. split; [exact H|].
  constructor; [apply choice_lt; exact n_pos | constructor].
Qed.

(** If some later draw is new, the loop reaches a state with one more
    distinct label. *)
Lemma draw_progress (k : Z) (m : nat) :
  forall (idx : list nat) (g : rng R),
    (Z.of_nat (len_set idx) < k)%Z ->
    Forall (fun i => i < n) idx ->
    ~ In (fst (choice R n p (advance R n p m g))) idx ->
    exists j idx' g',
      (forall fuel, while_append R (j + fuel) k draw idx g
                    = while_append R fuel k draw idx' g')
      /\ len_set idx' = S (len_set idx)
      /\ Forall (fun i => i < n) idx'.
Proof.
  induction m as [|m IH]; intros idx g Hk Hall Hnew.
  - simpl in Hnew.
    exists 1, (idx ++ [fst (choice R n p g)]), (snd (choice R n p g)).
    split; [|split].
    + intros fuel. apply while_append_step. exact Hk.
    + apply len_set_app_notin. exact Hnew.
    + apply Forall_lt_snoc. exact Hall.
  - destruct (in_dec Nat.eq_dec (fst (choice R n p g)) idx) as [Hin|Hnin].
    + simpl in Hnew.
      destruct (IH (idx ++ [fst (choice R n p g)]) (snd (choice R n p g)))
        as [j [idx' [g' [Hrun [Hlen Hlt]]]]].
      * rewrite len_set_app_in by exact Hin. exact Hk.
      * apply Forall_lt_snoc. exact Hall.
      * intros H. apply in_app_or in H. destruct H as [H|[H|[]]].
        -- exact (Hnew H).
        -- apply Hnew. rewrite <- H. exact Hin.
      * exists (S j), idx', g'. split; [|split].
        -- intros fuel. cbn [Nat.add].
           rewrite while_append_step by exact Hk. apply Hrun.
        -- rewrite Hlen. rewrite len_set_app_in by exact Hin. reflexivity.
        -- exact Hlt.
    + exists 1, (idx ++ [fst (choice R n p g)]), (snd (choice R n p g)).
      split; [|split].
      * intros fuel. apply while_append_step. exact Hk.
      * apply len_set_app_notin. exact Hnin.
      * apply Forall_lt_snoc. exact Hall.
Qed.

(** With a fair generator and enough labels in the support, the loop ends,
    with exactly [k] distinct labels. *)
Lemma while_append_terminates (k : nat) :
  k <= List.length (support n p) -> fair R n p ->
  forall (d : nat) (idx : list nat) (g : rng R),
    len_set idx + d = k ->
    Forall (fun i => i < n) idx ->
    exists fuel idx' g',
      while_append R fuel (Z.of_nat k) draw idx g = Ret (idx', g')
      /\ len_set idx' = k
      /\ Forall (fun i => i < n) idx'.
Proof.
  intros Hk Hfair. induction d as [|d IH]; intros idx g Hd Hall.
  - exists 0, idx, g. split; [|split].
    + apply while_append_done. lia.
    + lia.
    + exact Hall.
  - destruct (fresh_label (support n p) idx) as [i [Hi Hnew]].
    + apply support_NoDup.
    + lia.
    + destruct (Hfair g i Hi) as [m Hm].
      destruct (draw_progress (Z.of_nat k) m idx g) as [j [idx1 [g1 [Hrun [Hlen Hlt]]]]].
      * lia.
      * exact Hall.
      * rewrite Hm. exact Hnew.
      * destruct (IH idx1 g1) as [fuel [idx' [g' [Hret [Hlen' Hlt']]]]].
        -- lia.
        -- exact Hlt.
        -- exists (j + fuel), idx', g'. rewrite Hrun. auto.
Qed.

(** When one label is asked for, the first draw settles it. *)
Lemma one_label (fuel : nat) (g : rng R) :
  bindM R (comprehensionM R (fun _ => draw) (range 1))
        (while_append R fuel 1 draw) g
  = Ret ([fst (choice R n p g)], snd (choice R n p g)).
Proof.
  unfold range. simpl. unfold bindM, ret. rewrite draw_choice.
  destruct (choice R n p g) as [i g']. simpl.
  apply while_append_done. simpl. lia.
Qed.

(** The first comprehension: one draw per element, no failure. *)
Lemma draws_ret {A : Type} (l : list A) :
  forall g, exists idx g',
    comprehensionM R (fun _ => draw) l g = Ret (idx, g')
    /\ List.length idx = List.length l
    /\ Forall (fun i => i < n) idx.
Proof.
  induction l as [|a l IH]; intros g.
  - exists [], g. simpl. auto.
  - destruct (IH (snd (choice R n p g))) as [idx [g' [Hc [Hlen Hlt]]]].
    exists (fst (choice R n p g) :: idx), g'. split; [|split].
    + simpl. unfold bindM. rewrite draw_choice.
      destruct (choice R n p g) as [i g1]. simpl in Hc. rewrite Hc. reflexivity.
    + simpl. rewrite Hlen. reflexivity.
    + constructor; [apply choice_lt; exact n_pos | exact Hlt].
Qed.

Lemma sample_distinct_terminates (k : nat) (g : rng R) :
  k <= List.length (support n p) -> fair R n p ->
  exists fuel idx g',
    bindM R (comprehensionM R (fun _ => draw) (range (Z.of_nat k)))
          (while_append R fuel (Z.of_nat k) draw) g
    = Ret (idx, g')
    /\ len_set idx = k
    /\ Forall (fun i => i < n) idx.
Proof.
  intros Hk Hfair.
  destruct (draws_ret (range (Z.of_nat k)) g) as [idx0 [g0 [Hc [Hlen Hlt]]]].
  assert (Hle : len_set idx0 <= k).
  { pose proof (len_set_le_length idx0) as H. rewrite Hlen in H.
    unfold range in H. rewrite length_seq, Nat2Z.id in H. exact H. }
  destruct (while_append_terminates k Hk Hfair (k - len_set idx0) idx0 g0)
    as [fuel [idx [g' [Hw [Hl Ha]]]]]; [lia | exact Hlt |].
  exists fuel, idx, g'. unfold bindM. rewrite Hc. auto.
Qed.

(** If every draw lands in a pool of fewer than [k] labels, the loop never
    ends. *)
Lemma while_append_starved (pool : list nat) (k : Z) (fuel : nat) :
  (forall g, In (fst (choice R n p g)) pool) ->
  (Z.of_nat (List.length pool) < k)%Z ->
  forall (idx : list nat) (g : rng R),
    incl idx pool ->
    while_append R fuel k draw idx g = Timeout.
Proof.
  intros Hpool Hk. induction fuel as [|fuel IH]; intros idx g Hincl;
    assert (Hlt : (Z.of_nat (len_set idx) < k)%Z)
      by (assert (len_set idx <= List.length pool); [|lia];
          unfold len_set; apply NoDup_incl_length; [apply NoDup_nodup|];
          intros x Hx; apply nodup_In in Hx; apply Hincl; exact Hx).
  - simpl. destruct (Z.ltb_spec (Z.of_nat (len_set idx)) k); [reflexivity | lia].
  - rewrite while_append_step by exact Hlt. apply IH.
    intros x Hx. apply in_app_or in Hx. destruct Hx as [Hx|[<-|[]]].
    + apply Hincl. exact Hx.
    + apply Hpool.
Qed.

(** In particular when more distinct labels are asked for than there are
    rows. *)
Lemma while_append_diverges (k : Z) (fuel : nat) :
  (Z.of_nat n < k)%Z ->
  forall (idx : list nat) (g : rng R),
    Forall (fun i => i < n) idx ->
    while_append R fuel k draw idx g = Timeout.
Proof.
  intros Hk idx g Hall. apply (while_append_starved (seq 0 n)).
  - intros g0. apply in_seq. pose proof (choice_lt R n p g0 n_pos). lia.
  - rewrite length_seq. exact Hk.
  - intros x Hx. apply in_seq. rewrite Forall_forall in Hall.
    specialize (Hall x Hx). lia.
Qed.

End Loop.

(** ** The generators *)

(** On a table without rows the product is zero, or NaN for a [p_missing]
    that is NaN or infinite: [round] returns 0 or raises. *)
Lemma requested_empty (p_missing : number) (df : DataFrame) (k : Z) :
  shape0 df = 0 -> py_round (requested p_missing df) = Ret k -> k = 0%Z.
Proof.
  intros H. unfold requested, py_mul_int. rewrite H.
  destruct p_missing as [z|f].
  - simpl. rewrite Z.mul_0_r. intros [= <-]. reflexivity.
  - change (float_of_Z (Z.of_nat 0)) with (S754_zero false).
    destruct f; simpl; intros E; try discriminate;
      injection E as <-; reflexivity.
Qed.

Lemma requested_pos_rows (p_missing : number) (df : DataFrame) (k : Z) :
  py_round (requested p_missing df) = Ret k -> (0 < k)%Z -> 0 < shape0 df.
Proof.
  intros Hk H. destruct (shape0 df) eqn:E; [|lia].
  rewrite (requested_empty p_missing df k E Hk) in H. lia.
Qed.

Lemma flags_none (l : list nat) : map (flag []) l = repeat 0%Z (List.length l).
Proof.
  induction l as [|x l IH]; simpl; [reflexivity|]. rewrite IH. reflexivity.
Qed.

Lemma range_length (n : nat) : List.length (range (Z.of_nat n)) = n.
Proof. unfold range. rewrite length_seq, Nat2Z.id. reflexivity. Qed.

Lemma read_local_bound (var : string) (idx : list nat) (l : list nat) :
  comprehension (read_local var (Some idx)) l = Ret (map (flag idx) l).
Proof. apply comprehension_ret. intros a _. reflexivity. Qed.

Section GeneratorFacts.

Variable R : RandomState.
Variable P : Pandas.

Lemma seed_ok (random_state : Z) (g : rng R) :
  valid_seed random_state = true ->
  np_random_seed R random_state g = Ret (tt, seed_state R random_state).
Proof. intros H. unfold np_random_seed. rewrite H. reflexivity. Qed.

Lemma seed_bad (random_state : Z) (g : rng R) :
  valid_seed random_state = false ->
  np_random_seed R random_state g
  = Raise (ValueError "Seed must be between 0 and 2**32 - 1").
Proof. intros H. unfold np_random_seed. rewrite H. reflexivity. Qed.

Lemma df_sample_uniform (df : DataFrame) (g : rng R) :
  0 < shape0 df ->
  df_sample R P df WNone g = Ret (choice R (shape0 df) None g).
Proof.
  intros H. unfold df_sample. simpl.
  destruct (Nat.eqb_spec (shape0 df) 0); [lia | reflexivity].
Qed.

Lemma df_sample_named (df : DataFrame) (name : string) (col : list cell)
    (w : list Q) (g : rng R) :
  0 < shape0 df ->
  find_column df name = Some col ->
  check_weights P (shape0 df) col = Ret w ->
  df_sample R P df (WName name) g = Ret (choice R (shape0 df) (Some w) g).
Proof.
  intros H Hf Hw. unfold df_sample. simpl. rewrite Hf, Hw. simpl.
  destruct (Nat.eqb_spec (shape0 df) 0); [lia | reflexivity].
Qed.

Lemma df_sample_squared (df : DataFrame) (name : string) (col : list cell)
    (w : list Q) (g : rng R) :
  0 < shape0 df ->
  find_column df name = Some col ->
  check_weights P (shape0 df) (pow2 P col) = Ret w ->
  bindM R (lift R (get_column df name))
        (fun c => df_sample R P df (WSeries (pow2 P c))) g
  = Ret (choice R (shape0 df) (Some w) g).
Proof.
  intros H Hf Hw. unfold bindM, lift, get_column, df_sample. rewrite Hf.
  simpl. rewrite Hw. simpl.
  destruct (Nat.eqb_spec (shape0 df) 0); [lia | reflexivity].
Qed.

(** No label is asked for: no draw is made, whatever the draw would do. *)
Lemma no_draws (fuel : nat) (k : Z) (draw : M R nat) (g : rng R) :
  (k <= 0)%Z ->
  bindM R (comprehensionM R (fun _ => draw) (range k))
        (while_append R fuel k draw) g
  = Ret ([], g).
Proof.
  intros Hk. unfold range. replace (Z.to_nat k) with 0 by lia.
  unfold bindM. simpl. apply while_append_done. simpl. lia.
Qed.

Lemma indicator_of_flags (n : nat) (idx : list nat) :
  Forall (fun i => i < n) idx ->
  indicator_of n (Z.of_nat (len_set idx)) (map (flag idx) (range (Z.of_nat n))).
Proof.
  intros Hall. unfold indicator_of. split; [|split].
  - rewrite length_map. apply range_length.
  - unfold range. rewrite Nat2Z.id. rewrite count_flags by exact Hall. reflexivity.
  - apply flags_binary.
Qed.

(** When the draw itself raises, so does the first comprehension as soon as
    one label is asked for. *)
Lemma first_draw_raises (k : Z) {A : Type} (draw : M R nat) (e : exn)
    (rest : list nat -> M R A) (g : rng R) :
  (0 < k)%Z -> draw g = Raise e ->
  bindM R (comprehensionM R (fun _ => draw) (range k)) rest g = Raise e.
Proof.
  intros Hk Hd. unfold range.
  destruct (Z.to_nat k) as [|k'] eqn:E; [lia|].
  simpl. unfold bindM. rewrite Hd. reflexivity.
Qed.

End GeneratorFacts.

Section GeneratorResults.

Variable R : RandomState.
Variable P : Pandas.

Lemma bindM_assoc {A B C : Type} (c : M R A) (f : A -> M R B) (k : B -> M R C)
    (g : rng R) :
  bindM R c (fun a => bindM R (f a) k) g = bindM R (bindM R c f) k g.
Proof.
  unfold bindM. destruct (c g) as [[a g']| |]; reflexivity.
Qed.

Lemma seeded {A : Type} (random_state : Z) (body : M R A) (g : rng R) :
  valid_seed random_state = true ->
  bindM R (np_random_seed R random_state) (fun _ => body) g
  = body (seed_state R random_state).
Proof.
  intros H. unfold bindM. rewrite seed_ok by exact H. reflexivity.
Qed.

Lemma seed_rejected {A : Type} (random_state : Z) (body : M R A) (g : rng R) :
  valid_seed random_state = false ->
  bindM R (np_random_seed R random_state) (fun _ => body) g
  = Raise (ValueError "Seed must be between 0 and 2**32 - 1").
Proof.
  intros H. unfold bindM. rewrite seed_bad by exact H. reflexivity.
Qed.

Lemma rounded {A : Type} (x : number) (k : Z) (body : Z -> M R A) (g : rng R) :
  py_round x = Ret k ->
  bindM R (lift R (py_round x)) body g = body k g.
Proof.
  intros H. unfold bindM, lift. rewrite H. reflexivity.
Qed.

Variable df : DataFrame.
Variable p_missing : number.
Variable random_state : Z.
Variable k : Z.
Hypothesis seed_valid : valid_seed random_state = true.
Hypothesis round_k : py_round (requested p_missing df) = Ret k.

Let n := shape0 df.

(** *** No label requested *)

Lemma mcar_zero (fuel : nat) (missing_column : string) (g : rng R) :
  (k <= 0)%Z ->
  create_mcar_column R P fuel df missing_column p_missing random_state g
  = Ret (repeat 0%Z n, seed_state R random_state).
Proof.
  intros Hk. unfold create_mcar_column. rewrite seeded by exact seed_valid.
  rewrite (rounded _ _ _ _ round_k).
  rewrite bindM_assoc. unfold bindM at 1.
  rewrite no_draws by exact Hk. unfold ret.
  rewrite flags_none, range_length. reflexivity.
Qed.

Lemma mar_zero (fuel : nat) (missing_column depends_on method : string)
    (g : rng R) :
  (k <= 0)%Z -> method = "linear" \/ method = "quadratic" ->
  create_mar_column R P fuel df missing_column depends_on method p_missing
                    random_state g
  = Ret (repeat 0%Z n, seed_state R random_state).
Proof.
  intros Hk Hm. unfold create_mar_column. rewrite seeded by exact seed_valid.
  destruct Hm as [-> | ->]; cbv zeta; simpl String.eqb; cbv iota;
    unfold bindM at 1; rewrite (rounded _ _ _ _ round_k);
    rewrite bindM_assoc; unfold bindM at 1;
    rewrite no_draws by exact Hk; unfold ret, lift;
    rewrite read_local_bound, flags_none, range_length; reflexivity.
Qed.

Lemma nmar_zero (fuel : nat) (missing_column method : string) (g : rng R) :
  (k <= 0)%Z -> method = "linear" \/ method = "quadratic" ->
  create_nmar_column R P fuel df missing_column method p_missing random_state g
  = Ret (repeat 0%Z n, seed_state R random_state).
Proof.
  intros Hk Hm. unfold create_nmar_column. rewrite seeded by exact seed_valid.
  destruct Hm as [-> | ->]; cbv zeta; simpl String.eqb; cbv iota;
    unfold bindM at 1; rewrite (rounded _ _ _ _ round_k);
    rewrite bindM_assoc; unfold bindM at 1;
    rewrite no_draws by exact Hk; unfold ret, lift;
    rewrite read_local_bound, flags_none, range_length; reflexivity.
Qed.

(** *** Enough labels in the support and a fair generator *)

Lemma indicator_of_zeros : indicator_of n 0 (repeat 0%Z n).
Proof.
  pose proof (indicator_of_flags n [] (Forall_nil _)) as H.
  rewrite flags_none, range_length in H. exact H.
Qed.

Lemma mcar_returns (missing_column : string) (g : rng R) :
  (0 <= k <= Z.of_nat n)%Z -> fair R n None ->
  exists fuel out g',
    create_mcar_column R P fuel df missing_column p_missing random_state g
    = Ret (out, g')
    /\ indicator_of n k out.
Proof.
  intros Hk Hfair. destruct (Z.eq_dec k 0) as [H0|H0].
  - exists 0, (repeat 0%Z n), (seed_state R random_state). split.
    + apply mcar_zero. lia.
    + rewrite H0. apply indicator_of_zeros.
  - assert (Hn : 0 < n) by (apply (requested_pos_rows p_missing df k round_k); lia).
    destruct (sample_distinct_terminates R n None (df_sample R P df WNone) Hn
                (fun g0 => df_sample_uniform R P df g0 Hn)
                (Z.to_nat k) (seed_state R random_state))
      as [fuel [idx [g' [Hrun [Hlen Hall]]]]].
    + simpl. rewrite length_seq. lia.
    + exact Hfair.
    + rewrite Z2Nat.id in Hrun by lia.
      exists fuel, (map (flag idx) (range (Z.of_nat n))), g'. split.
      * unfold create_mcar_column. rewrite seeded by exact seed_valid.
        rewrite (rounded _ _ _ _ round_k).
        rewrite bindM_assoc. unfold bindM at 1. fold n.
        rewrite Hrun. reflexivity.
      * replace k with (Z.of_nat (len_set idx)) by lia.
        apply indicator_of_flags. exact Hall.
Qed.

Lemma mar_returns (missing_column depends_on method : string)
    (col : list cell) (w : list Q) (g : rng R) :
  method = "linear" \/ method = "quadratic" ->
  find_column df depends_on = Some col ->
  check_weights P n (weights_series P method col) = Ret w ->
  (0 <= k)%Z -> Z.to_nat k <= List.length (support n (Some w)) ->
  fair R n (Some w) ->
  exists fuel out g',
    create_mar_column R P fuel df missing_column depends_on method p_missing
                      random_state g
    = Ret (out, g')
    /\ indicator_of n k out.
Proof.
  intros Hm Hcol Hw Hk Hsup Hfair. destruct (Z.eq_dec k 0) as [H0|H0].
  - exists 0, (repeat 0%Z n), (seed_state R random_state). split.
    + apply mar_zero; [lia | exact Hm].
    + rewrite H0. apply indicator_of_zeros.
  - assert (Hn : 0 < n) by (apply (requested_pos_rows p_missing df k round_k); lia).
    destruct Hm as [-> | ->]; unfold weights_series in Hw; simpl String.eqb in Hw;
      cbv iota in Hw.
    + destruct (sample_distinct_terminates R n (Some w)
                  (df_sample R P df (WName depends_on)) Hn
                  (fun g0 => df_sample_named R P df depends_on col w g0 Hn Hcol Hw)
                  (Z.to_nat k) (seed_state R random_state) Hsup Hfair)
        as [fuel [idx [g' [Hrun [Hlen Hall]]]]].
      rewrite Z2Nat.id in Hrun by lia.
      exists fuel, (map (flag idx) (range (Z.of_nat n))), g'. split.
      * unfold create_mar_column. rewrite seeded by exact seed_valid.
        simpl String.eqb. cbv iota. unfold bindM at 1.
        rewrite (rounded _ _ _ _ round_k). rewrite bindM_assoc.
        unfold bindM at 1. fold n. rewrite Hrun. unfold ret, lift.
        rewrite read_local_bound. reflexivity.
      * replace k with (Z.of_nat (len_set idx)) by lia.
        apply indicator_of_flags. exact Hall.
    + destruct (sample_distinct_terminates R n (Some w)
                  (bindM R (lift R (get_column df depends_on))
                     (fun c => df_sample R P df (WSeries (pow2 P c))))
                  Hn
                  (fun g0 => df_sample_squared R P df depends_on col w g0 Hn Hcol Hw)
                  (Z.to_nat k) (seed_state R random_state) Hsup Hfair)
        as [fuel [idx [g' [Hrun [Hlen Hall]]]]].
      rewrite Z2Nat.id in Hrun by lia.
      exists fuel, (map (flag idx) (range (Z.of_nat n))), g'. split.
      * unfold create_mar_column. rewrite seeded by exact seed_valid.
        simpl String.eqb. cbv iota. cbv zeta. unfold bindM at 1.
        rewrite (rounded _ _ _ _ round_k).
        rewrite bindM_assoc. unfold bindM at 1. fold n.
        rewrite Hrun. unfold ret, lift.
        rewrite read_local_bound. reflexivity.
      * replace k with (Z.of_nat (len_set idx)) by lia.
        apply indicator_of_flags. exact Hall.
Qed.

Lemma nmar_returns (missing_column method : string)
    (col : list cell) (w : list Q) (g : rng R) :
  method = "linear" \/ method = "quadratic" ->
  find_column df missing_column = Some col ->
  check_weights P n (weights_series P method col) = Ret w ->
  (0 <= k)%Z -> Z.to_nat k <= List.length (support n (Some w)) ->
  fair R n (Some w) ->
  exists fuel out g',
    create_nmar_column R P fuel df missing_column method p_missing
                       random_state g
    = Ret (out, g')
    /\ indicator_of n k out.
Proof.
  intros Hm Hcol Hw Hk Hsup Hfair. destruct (Z.eq_dec k 0) as [H0|H0].
  - exists 0, (repeat 0%Z n), (seed_state R random_state). split.
    + apply nmar_zero; [lia | exact Hm].
    + rewrite H0. apply indicator_of_zeros.
  - assert (Hn : 0 < n) by (apply (requested_pos_rows p_missing df k round_k); lia).
    destruct Hm as [-> | ->]; unfold weights_series in Hw; simpl String.eqb in Hw;
      cbv iota in Hw.
    + destruct (sample_distinct_terminates R n (Some w)
                  (df_sample R P df (WName missing_column)) Hn
                  (fun g0 => df_sample_named R P df missing_column col w g0 Hn Hcol Hw)
                  (Z.to_nat k) (seed_state R random_state) Hsup Hfair)
        as [fuel [idx [g' [Hrun [Hlen Hall]]]]].
      rewrite Z2Nat.id in Hrun by lia.
      exists fuel, (map (flag idx) (range (Z.of_nat n))), g'. split.
      * unfold create_nmar_column. rewrite seeded by exact seed_valid.
        simpl String.eqb. cbv iota. unfold bindM at 1.
        rewrite (rounded _ _ _ _ round_k). rewrite bindM_assoc.
        unfold bindM at 1. fold n. rewrite Hrun. unfold ret, lift.
        rewrite read_local_bound. reflexivity.
      * replace k with (Z.of_nat (len_set idx)) by lia.
        apply indicator_of_flags. exact Hall.
    + destruct (sample_distinct_terminates R n (Some w)
                  (bindM R (lift R (get_column df missing_column))
                     (fun c => df_sample R P df (WSeries (pow2 P c))))
                  Hn
                  (fun g0 => df_sample_squared R P df missing_column col w g0 Hn Hcol Hw)
                  (Z.to_nat k) (seed_state R random_state) Hsup Hfair)
        as [fuel [idx [g' [Hrun [Hlen Hall]]]]].
      rewrite Z2Nat.id in Hrun by lia.
      exists fuel, (map (flag idx) (range (Z.of_nat n))), g'. split.
      * unfold create_nmar_column. rewrite seeded by exact seed_valid.
        simpl String.eqb. cbv iota. cbv zeta. unfold bindM at 1.
        rewrite (rounded _ _ _ _ round_k).
        rewrite bindM_assoc. unfold bindM at 1. fold n.
        rewrite Hrun. unfold ret, lift.
        rewrite read_local_bound. reflexivity.
      * replace k with (Z.of_nat (len_set idx)) by lia.
        apply indicator_of_flags. exact Hall.
Qed.

End GeneratorResults.

(** *** Failures and divergence of the generators *)

Section GeneratorFailures.

Variable R : RandomState.
Variable P : Pandas.
Variable df : DataFrame.
Variable p_missing : number.
Variable random_state : Z.
Variable k : Z.
Hypothesis round_k : py_round (requested p_missing df) = Ret k.

Let n := shape0 df.

Lemma mcar_diverges (fuel : nat) (missing_column : string) (g : rng R) :
  valid_seed random_state = true -> (Z.of_nat n < k)%Z ->
  create_mcar_column R P fuel df missing_column p_missing random_state g = Timeout.
Proof.
  intros Hs Hk.
  assert (Hn : 0 < n) by (apply (requested_pos_rows p_missing df k round_k); lia).
  unfold create_mcar_column. rewrite seeded by exact Hs.
  rewrite (rounded _ _ _ _ _ round_k).
  rewrite bindM_assoc. unfold bindM at 1. unfold bindM at 1.
  destruct (draws_ret R n None (df_sample R P df WNone) Hn
              (fun g0 => df_sample_uniform R P df g0 Hn) (range k)
              (seed_state R random_state))
    as [idx0 [g0 [Hc [_ Hall]]]].
  rewrite Hc.
  rewrite (while_append_diverges R n None (df_sample R P df WNone) Hn
             (fun g1 => df_sample_uniform R P df g1 Hn) k fuel Hk idx0 g0 Hall).
  reflexivity.
Qed.

(** The last line of a weighted generator, with the local never bound. *)
Lemma unbound_local_raises (var : string) :
  (0 < k)%Z ->
  comprehension (read_local var None) (range (Z.of_nat n))
  = Raise (NameError var).
Proof.
  intros Hk.
  assert (Hn : 0 < n) by (apply (requested_pos_rows p_missing df k round_k); lia).
  unfold range. rewrite Nat2Z.id. destruct n; [lia | reflexivity].
Qed.

End GeneratorFailures.

(** *** The round-robin generator is fair *)

Lemma cycle_advance (n : nat) (p : option (list Q)) (m : nat) :
  forall g : nat, advance cycle_rng n p m g = g + m.
Proof.
  induction m as [|m IH]; intros g; simpl.
  - lia.
  - rewrite IH. lia.
Qed.

Lemma cycle_fair (n : nat) (p : option (list Q)) : fair cycle_rng n p.
Proof.
  intros g i Hi. destruct (In_nth _ _ 0 Hi) as [j [Hj Hnth]].
  set (L := List.length (support n p)) in *.
  exists ((L - g mod L) + j). rewrite cycle_advance. simpl.
  unfold cycle_choice. simpl. fold L.
  replace ((g + (L - g mod L + j)) mod L) with j; [exact Hnth|].
  apply Nat.mod_unique with (q := g / L + 1); [exact Hj|].
  pose proof (Nat.div_mod_eq g L) as Hdm.
  pose proof (Nat.mod_upper_bound g L ltac:(lia)) as Hub.
  nia.
Qed.

(** *** Fuel and seeding *)

Section FuelMonotone.

Variable R : RandomState.
Variable P : Pandas.

Lemma while_append_fuel_mono (draw : M R nat) (k : Z) (fuel extra : nat) :
  forall (idx : list nat) (g : rng R) (r : list nat * rng R),
    while_append R fuel k draw idx g = Ret r ->
    while_append R (fuel + extra) k draw idx g = Ret r.
Proof.
  induction fuel as [|fuel IH]; intros idx g r H.
  - simpl in H.
    destruct (Z.ltb_spec (Z.of_nat (len_set idx)) k); [discriminate|].
    rewrite while_append_done by lia. exact H.
  - simpl in *. destruct (Z.of_nat (len_set idx) <? k)%Z; [|exact H].
    destruct (draw g) as [[i g']| |]; try discriminate.
    apply IH. exact H.
Qed.

Lemma bindM_mono {A B : Type} (c : M R A) (f1 f2 : A -> M R B) (g : rng R)
    (r : B * rng R) :
  (forall a g0, f1 a g0 = Ret r -> f2 a g0 = Ret r) ->
  bindM R c f1 g = Ret r -> bindM R c f2 g = Ret r.
Proof.
  intros Hf. unfold bindM. destruct (c g) as [[a g']| |]; try discriminate.
  apply Hf.
Qed.

Lemma bindM_mono_left {A B : Type} (c1 c2 : M R A) (f : A -> M R B) (g : rng R)
    (r : B * rng R) :
  (forall g0 r0, c1 g0 = Ret r0 -> c2 g0 = Ret r0) ->
  bindM R c1 f g = Ret r -> bindM R c2 f g = Ret r.
Proof.
  intros Hc. unfold bindM. destruct (c1 g) as [[a g']| |] eqn:E; try discriminate.
  rewrite (Hc _ _ E). auto.
Qed.

Lemma sampling_fuel_mono {B : Type} (draw : M R nat) (k : Z) (l : list nat)
    (rest : list nat -> M R B) (fuel extra : nat) (g : rng R) (r : B * rng R) :
  bindM R (comprehensionM R (fun _ => draw) l)
        (fun idx0 => bindM R (while_append R fuel k draw idx0) rest) g = Ret r ->
  bindM R (comprehensionM R (fun _ => draw) l)
        (fun idx0 => bindM R (while_append R (fuel + extra) k draw idx0) rest) g
  = Ret r.
Proof.
  apply bindM_mono. intros idx0 g0. unfold bindM.
  destruct (while_append R fuel k draw idx0 g0) as [[idx g1]| |] eqn:E;
    try discriminate.
  rewrite (while_append_fuel_mono draw k fuel extra idx0 g0 _ E). auto.
Qed.

Lemma mcar_fuel_mono (fuel extra : nat) (df : DataFrame) (missing_column : string)
    (p_missing : number) (random_state : Z) (g : rng R) (r : list Z * rng R) :
  create_mcar_column R P fuel df missing_column p_missing random_state g = Ret r ->
  create_mcar_column R P (fuel + extra) df missing_column p_missing random_state g
  = Ret r.
Proof.
  unfold create_mcar_column. apply bindM_mono. intros _ g0.
  apply bindM_mono. intros k g1. apply sampling_fuel_mono.
Qed.

Lemma mar_fuel_mono (fuel extra : nat) (df : DataFrame)
    (missing_column depends_on method : string)
    (p_missing : number) (random_state : Z) (g : rng R) (r : list Z * rng R) :
  create_mar_column R P fuel df missing_column depends_on method p_missing
                    random_state g = Ret r ->
  create_mar_column R P (fuel + extra) df missing_column depends_on method
                    p_missing random_state g = Ret r.
Proof.
  unfold create_mar_column. apply bindM_mono. intros _ g0.
  apply bindM_mono_left. intros g1 r1.
  destruct (method =? "linear")%string;
    [|destruct (method =? "quadratic")%string; [|exact (fun H => H)]];
    cbv zeta; apply bindM_mono; intros k g2; apply sampling_fuel_mono.
Qed.

Lemma nmar_fuel_mono (fuel extra : nat) (df : DataFrame)
    (missing_column method : string)
    (p_missing : number) (random_state : Z) (g : rng R) (r : list Z * rng R) :
  create_nmar_column R P fuel df missing_column method p_missing
                     random_state g = Ret r ->
  create_nmar_column R P (fuel + extra) df missing_column method
                     p_missing random_state g = Ret r.
Proof.
  unfold create_nmar_column. apply bindM_mono. intros _ g0.
  apply bindM_mono_left. intros g1 r1.
  destruct (method =? "linear")%string;
    [|destruct (method =? "quadratic")%string; [|exact (fun H => H)]];
    cbv zeta; apply bindM_mono; intros k g2; apply sampling_fuel_mono.
Qed.

(** Every generator seeds first: what the process-wide generator held
    before the call plays no part. *)
Lemma mcar_reseeds (fuel : nat) (df : DataFrame) (missing_column : string)
    (p_missing : number) (random_state : Z) (g1 g2 : rng R) :
  create_mcar_column R P fuel df missing_column p_missing random_state g1
  = create_mcar_column R P fuel df missing_column p_missing random_state g2.
Proof.
  unfold create_mcar_column. destruct (valid_seed random_state) eqn:Hs.
  - rewrite !(seeded R) by exact Hs. reflexivity.
  - rewrite !(seed_rejected R) by exact Hs. reflexivity.
Qed.

Lemma mar_reseeds (fuel : nat) (df : DataFrame)
    (missing_column depends_on method : string)
    (p_missing : number) (random_state : Z) (g1 g2 : rng R) :
  create_mar_column R P fuel df missing_column depends_on method p_missing
                    random_state g1
  = create_mar_column R P fuel df missing_column depends_on method p_missing
                      random_state g2.
Proof.
  unfold create_mar_column. destruct (valid_seed random_state) eqn:Hs.
  - rewrite !(seeded R) by exact Hs. reflexivity.
  - rewrite !(seed_rejected R) by exact Hs. reflexivity.
Qed.

Lemma nmar_reseeds (fuel : nat) (df : DataFrame)
    (missing_column method : string)
    (p_missing : number) (random_state : Z) (g1 g2 : rng R) :
  create_nmar_column R P fuel df missing_column method p_missing
                     random_state g1
  = create_nmar_column R P fuel df missing_column method p_missing
                       random_state g2.
Proof.
  unfold create_nmar_column. destruct (valid_seed random_state) eqn:Hs.
  - rewrite !(seeded R) by exact Hs. reflexivity.
  - rewrite !(seed_rejected R) by exact Hs. reflexivity.
Qed.

(** Two finished runs of one call agree, whatever fuel each was given. *)
Lemma finished_runs_agree {A : Type} (run : nat -> outcome A) :
  (forall fuel extra r, run fuel = Ret r -> run (fuel + extra) = Ret r) ->
  forall fuel1 fuel2 r1 r2,
    run fuel1 = Ret r1 -> run fuel2 = Ret r2 -> r1 = r2.
Proof.
  intros Hmono fuel1 fuel2 r1 r2 H1 H2.
  apply (Hmono fuel1 fuel2) in H1. apply (Hmono fuel2 fuel1) in H2.
  rewrite Nat.add_comm in H2. rewrite H1 in H2. injection H2 as H. exact H.
Qed.

End FuelMonotone.

(** *** Draws that fail *)

Section DegenerateWeights.

Variable R : RandomState.
Variable P : Pandas.
Variable df : DataFrame.

Lemma named_draw_fails (name : string) (col : list cell) (e : exn) (g : rng R) :
  find_column df name = Some col ->
  check_weights P (shape0 df) col = Raise e ->
  df_sample R P df (WName name) g = Raise e.
Proof.
  intros Hf Hw. unfold df_sample. simpl. rewrite Hf, Hw. reflexivity.
Qed.

Lemma squared_draw_fails (name : string) (col : list cell) (e : exn) (g : rng R) :
  find_column df name = Some col ->
  check_weights P (shape0 df) (pow2 P col) = Raise e ->
  bindM R (lift R (get_column df name))
        (fun c => df_sample R P df (WSeries (pow2 P c))) g
  = Raise e.
Proof.
  intros Hf Hw. unfold bindM, lift, get_column, df_sample. rewrite Hf.
  simpl. rewrite Hw. reflexivity.
Qed.

Lemma mar_draw_fails (fuel : nat) (missing_column depends_on method : string)
    (col : list cell) (msg : string) (p_missing : number) (random_state : Z)
    (k : Z) (g : rng R) :
  py_round (requested p_missing df) = Ret k -> (1 <= k)%Z ->
  method = "linear" \/ method = "quadratic" ->
  find_column df depends_on = Some col ->
  check_weights P (shape0 df) (weights_series P method col)
  = Raise (ValueError msg) ->
  exists msg',
    create_mar_column R P fuel df missing_column depends_on method p_missing
                      random_state g
    = Raise (ValueError msg').
Proof.
  intros Hr Hk Hm Hf Hw. unfold create_mar_column.
  destruct (valid_seed random_state) eqn:Hs.
  - exists msg. rewrite seeded by exact Hs.
    destruct Hm as [-> | ->]; unfold weights_series in Hw;
      simpl String.eqb in *; cbv iota in *; cbv zeta;
      unfold bindM at 1; rewrite (rounded R _ _ _ _ Hr);
      rewrite bindM_assoc; unfold bindM at 1.
    + rewrite (first_draw_raises R k _ (ValueError msg));
        [reflexivity | lia | apply (named_draw_fails _ col); assumption].
    + rewrite (first_draw_raises R k _ (ValueError msg));
        [reflexivity | lia | apply (squared_draw_fails _ col); assumption].
  - eexists. rewrite seed_rejected by exact Hs. reflexivity.
Qed.

Lemma nmar_draw_fails (fuel : nat) (missing_column method : string)
    (col : list cell) (msg : string) (p_missing : number) (random_state : Z)
    (k : Z) (g : rng R) :
  py_round (requested p_missing df) = Ret k -> (1 <= k)%Z ->
  method = "linear" \/ method = "quadratic" ->
  find_column df missing_column = Some col ->
  check_weights P (shape0 df) (weights_series P method col)
  = Raise (ValueError msg) ->
  exists msg',
    create_nmar_column R P fuel df missing_column method p_missing
                       random_state g
    = Raise (ValueError msg').
Proof.
  intros Hr Hk Hm Hf Hw. unfold create_nmar_column.
  destruct (valid_seed random_state) eqn:Hs.
  - exists msg. rewrite seeded by exact Hs.
    destruct Hm as [-> | ->]; unfold weights_series in Hw;
      simpl String.eqb in *; cbv iota in *; cbv zeta;
      unfold bindM at 1; rewrite (rounded R _ _ _ _ Hr);
      rewrite bindM_assoc; unfold bindM at 1.
    + rewrite (first_draw_raises R k _ (ValueError msg));
        [reflexivity | lia | apply (named_draw_fails _ col); assumption].
    + rewrite (first_draw_raises R k _ (ValueError msg));
        [reflexivity | lia | apply (squared_draw_fails _ col); assumption].
  - eexists. rewrite seed_rejected by exact Hs. reflexivity.
Qed.

(** [round] raises before any draw; an unknown [method] never reaches it. *)
Lemma mcar_round_raises (fuel : nat) (missing_column : string)
    (p_missing : number) (random_state : Z) (e : exn) (g : rng R) :
  valid_seed random_state = true ->
  py_round (requested p_missing df) = Raise e ->
  create_mcar_column R P fuel df missing_column p_missing random_state g
  = Raise e.
Proof.
  intros Hs Hr. unfold create_mcar_column. rewrite seeded by exact Hs.
  unfold bindM, lift. rewrite Hr. reflexivity.
Qed.

End DegenerateWeights.

(** * The claims *)

(** ** C1 *)

(** C1, as amended.  Let [k] be the integer [round(p_missing * n)], the
    product being the interpreter's (the double product for a float
    [p_missing]), with [0 <= k], and let the seed be one NumPy accepts.
    - [create_mcar_column]: if [k <= n] and the generator is fair, the call
      returns (with every fuel bound from some bound on) a list of [n]
      entries, each 0 or 1, exactly [k] of them 1.
    - [create_mar_column] and [create_nmar_column], [method] 'linear' or
      'quadratic': the same, if the weight column exists, [sample] accepts
      the weight series (the column, or its squares as pandas computes
      them), at least [k] rows have a positive probability, and the
      generator is fair on those probabilities.
    - If [k = 0], the three calls (the weighted ones with [method]
      'linear' or 'quadratic') return the all-zero list for every fuel and
      leave the generator in its freshly seeded state: no draw is made.
    - On a 100-row table with [p_missing = 0.3], the MCAR indicator sums to
      30. *)
Theorem missingness_indicator_count
    (R : RandomState) (P : Pandas) (df : DataFrame) (p_missing : number)
    (random_state : Z) (missing_column depends_on method : string)
    (g : rng R) (k : Z) :
  let n := shape0 df in
  valid_seed random_state = true ->
  py_round (requested p_missing df) = Ret k ->
  (0 <= k)%Z ->
  ((k <= Z.of_nat n)%Z -> fair R n None ->
   exists fuel out g',
     (forall extra,
        create_mcar_column R P (fuel + extra) df missing_column p_missing
                           random_state g
        = Ret (out, g'))
     /\ indicator_of n k out)
  /\ (forall col w,
        method = "linear" \/ method = "quadratic" ->
        find_column df depends_on = Some col ->
        check_weights P n (weights_series P method col) = Ret w ->
        Z.to_nat k <= List.length (support n (Some w)) ->
        fair R n (Some w) ->
        exists fuel out g',
          (forall extra,
             create_mar_column R P (fuel + extra) df missing_column depends_on
                               method p_missing random_state g
             = Ret (out, g'))
          /\ indicator_of n k out)
  /\ (forall col w,
        method = "linear" \/ method = "quadratic" ->
        find_column df missing_column = Some col ->
        check_weights P n (weights_series P method col) = Ret w ->
        Z.to_nat k <= List.length (support n (Some w)) ->
        fair R n (Some w) ->
        exists fuel out g',
          (forall extra,
             create_nmar_column R P (fuel + extra) df missing_column method
                                p_missing random_state g
             = Ret (out, g'))
          /\ indicator_of n k out)
  /\ (k = 0%Z ->
      forall fuel,
        create_mcar_column R P fuel df missing_column p_missing random_state g
        = Ret (repeat 0%Z n, seed_state R random_state)
        /\ (method = "linear" \/ method = "quadratic" ->
            create_mar_column R P fuel df missing_column depends_on method
                              p_missing random_state g
            = Ret (repeat 0%Z n, seed_state R random_state)
            /\ create_nmar_column R P fuel df missing_column method
                                  p_missing random_state g
               = Ret (repeat 0%Z n, seed_state R random_state)))
  /\ (n = 100 -> p_missing = PyFloat (decimal 3 1) -> fair R 100 None ->
      exists fuel out g',
        (forall extra,
           create_mcar_column R P (fuel + extra) df missing_column p_missing
                              random_state g
           = Ret (out, g'))
        /\ fold_right Z.add 0%Z out = 30%Z).
Proof.
  intros n Hseed Hr Hk. split; [|split; [|split; [|split]]].
  - intros Hle Hfair.
    destruct (mcar_returns R P df p_missing random_state k Hseed Hr
                missing_column g)
      as [fuel [out [g' [Hrun Hind]]]];
      [fold n; lia | exact Hfair |].
    exists fuel, out, g'. split; [|exact Hind].
    intros extra. apply mcar_fuel_mono. exact Hrun.
  - intros col w Hm Hcol Hw Hsup Hfair.
    destruct (mar_returns R P df p_missing random_state k Hseed Hr
                missing_column depends_on method col w g Hm Hcol Hw Hk Hsup
                Hfair)
      as [fuel [out [g' [Hrun Hind]]]].
    exists fuel, out, g'. split; [|exact Hind].
    intros extra. apply mar_fuel_mono. exact Hrun.
  - intros col w Hm Hcol Hw Hsup Hfair.
    destruct (nmar_returns R P df p_missing random_state k Hseed Hr
                missing_column method col w g Hm Hcol Hw Hk Hsup Hfair)
      as [fuel [out [g' [Hrun Hind]]]].
    exists fuel, out, g'. split; [|exact Hind].
    intros extra. apply nmar_fuel_mono. exact Hrun.
  - intros H0 fuel. split; [|intros Hm; split].
    + apply (mcar_zero R P df p_missing random_state k Hseed Hr). lia.
    + apply (mar_zero R P df p_missing random_state k Hseed Hr); [lia | exact Hm].
    + apply (nmar_zero R P df p_missing random_state k Hseed Hr); [lia | exact Hm].
  - intros Hn Hp Hfair.
    assert (Hk30 : k = 30%Z).
    { unfold requested in Hr. fold n in Hr. rewrite Hn, Hp in Hr.
      vm_compute in Hr. injection Hr as <-. reflexivity. }
    destruct (mcar_returns R P df p_missing random_state k Hseed Hr
                missing_column g)
      as [fuel [out [g' [Hrun [Hlen [Hcount Hbin]]]]]].
    + fold n. rewrite Hk30, Hn. lia.
    + fold n. rewrite Hn. exact Hfair.
    + exists fuel, out, g'. split.
      * intros extra. apply mcar_fuel_mono. exact Hrun.
      * rewrite (sum_binary out Hbin). rewrite Hcount.
        exact Hk30.
Qed.

(** The theorem at work: the 100-row table with [p_missing = 0.3] under the
    round-robin generator and exact weights, and the same table with
    [p_missing = 0.001], which asks for no label. *)
Lemma missingness_indicator_count_witness :
  ((exists fuel out g',
      (forall extra,
         create_mcar_column cycle_rng exact_pandas (fuel + extra) hundred_rows
                            "age" (PyFloat (decimal 3 1)) 42 0
         = Ret (out, g'))
      /\ indicator_of 100 30 out)
   /\ (exists fuel out g',
         (forall extra,
            create_mar_column cycle_rng exact_pandas (fuel + extra)
                              hundred_rows "age" "income" "quadratic"
                              (PyFloat (decimal 3 1)) 42 0
            = Ret (out, g'))
         /\ indicator_of 100 30 out)
   /\ (exists fuel out g',
         (forall extra,
            create_nmar_column cycle_rng exact_pandas (fuel + extra)
                               hundred_rows "age" "quadratic"
                               (PyFloat (decimal 3 1)) 42 0
            = Ret (out, g'))
         /\ indicator_of 100 30 out)
   /\ (exists fuel out g',
         (forall extra,
            create_mcar_column cycle_rng exact_pandas (fuel + extra)
                               hundred_rows "age" (PyFloat (decimal 3 1)) 42 0
            = Ret (out, g'))
         /\ fold_right Z.add 0%Z out = 30%Z))
  /\ (forall fuel,
        create_mcar_column cycle_rng exact_pandas fuel hundred_rows "age"
                           (PyFloat (decimal 1 3)) 42 0
        = Ret (repeat 0%Z 100, 42)
        /\ create_mar_column cycle_rng exact_pandas fuel hundred_rows "age"
                             "income" "quadratic" (PyFloat (decimal 1 3)) 42 0
           = Ret (repeat 0%Z 100, 42)
        /\ create_nmar_column cycle_rng exact_pandas fuel hundred_rows "age"
                              "quadratic" (PyFloat (decimal 1 3)) 42 0
           = Ret (repeat 0%Z 100, 42)).
Proof.
  split.
  - destruct (missingness_indicator_count cycle_rng exact_pandas hundred_rows
                (PyFloat (decimal 3 1)) 42 "age" "income" "quadratic" 0 30%Z
                eq_refl eq_refl)
      as [Hmcar [Hmar [Hnmar [_ Hnb]]]].
    + vm_compute. discriminate.
    + split; [|split; [|split]].
      * apply Hmcar; [vm_compute; discriminate | apply cycle_fair].
      * eapply Hmar.
        -- right. reflexivity.
        -- reflexivity.
        -- vm_compute. reflexivity.
        -- vm_compute. lia.
        -- apply cycle_fair.
      * eapply Hnmar.
        -- right. reflexivity.
        -- reflexivity.
        -- vm_compute. reflexivity.
        -- vm_compute. lia.
        -- apply cycle_fair.
      * apply Hnb; [reflexivity | reflexivity | apply cycle_fair].
  - intros fuel.
    destruct (missingness_indicator_count cycle_rng exact_pandas hundred_rows
                (PyFloat (decimal 1 3)) 42 "age" "income" "quadratic" 0 0%Z
                eq_refl eq_refl)
      as [_ [_ [_ [Hzero _]]]].
    + vm_compute. discriminate.
    + destruct (Hzero eq_refl fuel) as [H1 H2].
      destruct (H2 (or_intror eq_refl)) as [H3 H4].
      split; [exact H1 | split; [exact H3 | exact H4]].
Defined.

Lemma cycle_choice_in_support (n : nat) (p : option (list Q)) (g : nat) :
  support n p <> [] -> In (fst (cycle_choice n p g)) (support n p).
Proof.
  intros Hne. unfold cycle_choice. simpl. apply nth_In.
  apply Nat.mod_upper_bound. destruct (support n p); [congruence | discriminate].
Qed.

(** C1 fails as stated, whatever the generator and whatever pandas
    computes: with an all-zero weight column the MAR generator raises
    instead of returning a column; with [p_missing = 1.5] the MCAR generator
    never returns; with [p_missing = -0.5] it returns the all-zero column
    although [round(p_missing * n) = -1]; with a [p_missing] that is NaN,
    [round] raises.  Under the round-robin generator, which like NumPy's
    never draws a row of probability zero, [p_missing = 1] with one row of
    positive weight out of two makes the MAR generator run forever.  A seed
    NumPy rejects and an unknown [method] raise as well. *)
Lemma missingness_indicator_count_counterexample :
  (forall (R : RandomState) (P : Pandas) (fuel : nat) (g : rng R),
     exists msg,
       create_mar_column R P fuel zero_age "income" "age" "linear"
                         (PyFloat (decimal 5 1)) 42 g
       = Raise (ValueError msg))
  /\ (forall (R : RandomState) (P : Pandas) (fuel : nat) (g : rng R),
        create_mcar_column R P fuel zero_age "age" (PyFloat (decimal 15 1)) 42 g
        = Timeout)
  /\ ((forall (R : RandomState) (P : Pandas) (fuel : nat) (g : rng R),
         create_mcar_column R P fuel zero_age "age"
                            (PyFloat (SFopp (decimal 5 1))) 42 g
         = Ret ([0%Z; 0%Z], seed_state R 42))
      /\ py_round (requested (PyFloat (SFopp (decimal 5 1))) zero_age)
         = Ret (-1)%Z)
  /\ (forall (R : RandomState) (P : Pandas) (fuel : nat) (g : rng R),
        create_mcar_column R P fuel zero_age "age" (PyFloat S754_nan) 42 g
        = Raise (ValueError "cannot convert float NaN to integer"))
  /\ (forall fuel,
        create_mar_column cycle_rng exact_pandas fuel lopsided "income" "age"
                          "linear" (PyInt 1) 42 0
        = Timeout)
  /\ create_mcar_column cycle_rng exact_pandas 0 zero_age "age"
                        (PyFloat (decimal 5 1)) (-1) 0
     = Raise (ValueError "Seed must be between 0 and 2**32 - 1")
  /\ create_nmar_column cycle_rng exact_pandas 0 zero_age "income" "cubic"
                        (PyFloat (decimal 5 1)) 42 0
     = Raise (NameError "nmar_indices").
Proof.
  split; [|split; [|split; [split|split; [|split; [|split]]]]].
  - intros R P fuel g.
    destruct (check_weights_degenerate P 2 [Num 0; Num 0] (or_intror eq_refl))
      as [msg Hmsg].
    apply (mar_draw_fails R P zero_age fuel "income" "age" "linear"
             [Num 0; Num 0] msg (PyFloat (decimal 5 1)) 42 1%Z g);
      [reflexivity | lia | left; reflexivity | reflexivity | exact Hmsg].
  - intros R P fuel g.
    apply (mcar_diverges R P zero_age (PyFloat (decimal 15 1)) 42 3%Z);
      reflexivity.
  - intros R P fuel g.
    apply (mcar_zero R P zero_age (PyFloat (SFopp (decimal 5 1))) 42 (-1)%Z
             eq_refl eq_refl fuel "age" g).
    lia.
  - reflexivity.
  - intros R P fuel g. apply mcar_round_raises; reflexivity.
  - intros fuel. unfold create_mar_column. rewrite seeded by reflexivity.
    simpl String.eqb. cbv iota. unfold bindM at 1.
    rewrite (rounded cycle_rng (requested (PyInt 1) lopsided) 2%Z _ _ eq_refl).
    rewrite bindM_assoc.
    unfold bindM at 1. unfold bindM at 1.
    set (c := comprehensionM _ _ _ _). vm_compute in c. subst c. cbv iota beta.
    rewrite (while_append_starved cycle_rng 2 (Some [5 # 5; 0 # 5])
               (df_sample cycle_rng exact_pandas lopsided (WName "age"))
               ltac:(lia)
               (fun g0 => df_sample_named cycle_rng exact_pandas lopsided "age"
                            [Num 5; Num 0] [5 # 5; 0 # 5] g0
                            ltac:(simpl; lia) eq_refl eq_refl)
               [0]).
    + reflexivity.
    + intros g. apply (cycle_choice_in_support 2 (Some [5 # 5; 0 # 5]) g).
      discriminate.
    + reflexivity.
    + intros x [<-|[<-|[]]]; left; reflexivity.
  - reflexivity.
  - reflexivity.
Qed.

(** ** C2 *)

(** C2.  A call to a generator gives the same outcome whatever the
    process-wide generator held before it, because each generator seeds
    first; and two finished runs with the same [random_state] and inputs
    return the same column (and leave the same state), whatever fuel bound
    each run was given. *)
Theorem generators_deterministic
    (R : RandomState) (P : Pandas) (df : DataFrame)
    (missing_column depends_on method : string)
    (p_missing : number) (random_state : Z) :
  (forall fuel g1 g2,
     create_mcar_column R P fuel df missing_column p_missing random_state g1
     = create_mcar_column R P fuel df missing_column p_missing random_state g2
     /\ create_mar_column R P fuel df missing_column depends_on method
                          p_missing random_state g1
        = create_mar_column R P fuel df missing_column depends_on method
                            p_missing random_state g2
     /\ create_nmar_column R P fuel df missing_column method
                           p_missing random_state g1
        = create_nmar_column R P fuel df missing_column method
                             p_missing random_state g2)
  /\ (forall fuel1 fuel2 g1 g2 r1 r2,
        (create_mcar_column R P fuel1 df missing_column p_missing random_state g1
         = Ret r1 ->
         create_mcar_column R P fuel2 df missing_column p_missing random_state g2
         = Ret r2 ->
         r1 = r2)
        /\ (create_mar_column R P fuel1 df missing_column depends_on method
                              p_missing random_state g1 = Ret r1 ->
            create_mar_column R P fuel2 df missing_column depends_on method
                              p_missing random_state g2 = Ret r2 ->
            r1 = r2)
        /\ (create_nmar_column R P fuel1 df missing_column method
                               p_missing random_state g1 = Ret r1 ->
            create_nmar_column R P fuel2 df missing_column method
                               p_missing random_state g2 = Ret r2 ->
            r1 = r2)).
Proof.
  split.
  - intros fuel g1 g2. split; [|split].
    + apply mcar_reseeds.
    + apply mar_reseeds.
    + apply nmar_reseeds.
  - intros fuel1 fuel2 g1 g2 r1 r2. split; [|split]; intros H1 H2.
    + rewrite (mcar_reseeds R P fuel2 df missing_column p_missing random_state
                 g2 g1) in H2.
      refine (finished_runs_agree
                (fun fuel => create_mcar_column R P fuel df missing_column
                               p_missing random_state g1)
                _ fuel1 fuel2 r1 r2 H1 H2).
      intros fuel extra r. apply mcar_fuel_mono.
    + rewrite (mar_reseeds R P fuel2 df missing_column depends_on method
                 p_missing random_state g2 g1) in H2.
      refine (finished_runs_agree
                (fun fuel => create_mar_column R P fuel df missing_column
                               depends_on method p_missing random_state g1)
                _ fuel1 fuel2 r1 r2 H1 H2).
      intros fuel extra r. apply mar_fuel_mono.
    + rewrite (nmar_reseeds R P fuel2 df missing_column method
                 p_missing random_state g2 g1) in H2.
      refine (finished_runs_agree
                (fun fuel => create_nmar_column R P fuel df missing_column
                               method p_missing random_state g1)
                _ fuel1 fuel2 r1 r2 H1 H2).
      intros fuel extra r. apply nmar_fuel_mono.
Qed.

(** ** C8 *)

(** C8.  [create_mcar_column] never reads [missing_column]: two calls that
    differ only in it have the same outcome.  Nor does it read any cell:
    the outcome is the same on every table with as many rows. *)
Theorem mcar_ignores_missing_column
    (R : RandomState) (P : Pandas) (fuel : nat) (df : DataFrame)
    (missing_column1 missing_column2 : string)
    (other_columns : list (string * list cell))
    (p_missing : number) (random_state : Z) (g : rng R) :
  create_mcar_column R P fuel df missing_column1 p_missing random_state g
  = create_mcar_column R P fuel df missing_column2 p_missing random_state g
  /\ create_mcar_column R P fuel df missing_column1 p_missing random_state g
     = create_mcar_column R P fuel (mkDataFrame (shape0 df) other_columns)
                          missing_column2 p_missing random_state g.
Proof.
  split; reflexivity.
Qed.

(** ** C10 *)

(** C10.  With a [method] other than 'linear' and 'quadratic' and at least
    one label requested, [create_mar_column] and [create_nmar_column]
    raise: the index list is read while still unbound (or, with a seed
    NumPy rejects, the seeding raises first).  No column is returned. *)
Theorem unknown_method_raises
    (R : RandomState) (P : Pandas) (fuel : nat) (df : DataFrame)
    (missing_column depends_on method : string)
    (p_missing : number) (random_state : Z) (g : rng R) (k : Z) :
  method <> "linear" -> method <> "quadratic" ->
  py_round (requested p_missing df) = Ret k ->
  (0 < k)%Z ->
  create_mar_column R P fuel df missing_column depends_on method p_missing
                    random_state g
  = Raise (if valid_seed random_state then NameError "mar_indices"
           else ValueError "Seed must be between 0 and 2**32 - 1")
  /\ create_nmar_column R P fuel df missing_column method p_missing
                        random_state g
     = Raise (if valid_seed random_state then NameError "nmar_indices"
              else ValueError "Seed must be between 0 and 2**32 - 1").
Proof.
  intros Hl Hq Hr Hk.
  apply String.eqb_neq in Hl. apply String.eqb_neq in Hq.
  unfold create_mar_column, create_nmar_column.
  destruct (valid_seed random_state) eqn:Hs.
  - rewrite !seeded by exact Hs. rewrite Hl, Hq.
    unfold bindM, ret, lift.
    rewrite !(unbound_local_raises df p_missing k Hr) by exact Hk.
    split; reflexivity.
  - rewrite !seed_rejected by exact Hs. split; reflexivity.
Qed.

Lemma unknown_method_raises_witness :
  create_mar_column cycle_rng exact_pandas 10 zero_age "income" "age" "cubic"
                    (PyFloat (decimal 5 1)) 42 0
  = Raise (NameError "mar_indices")
  /\ create_nmar_column cycle_rng exact_pandas 10 zero_age "income" "cubic"
                        (PyFloat (decimal 5 1)) 42 0
     = Raise (NameError "nmar_indices").
Proof.
  apply (unknown_method_raises cycle_rng exact_pandas 10 zero_age "income"
           "age" "cubic" (PyFloat (decimal 5 1)) 42 0 1%Z).
  - discriminate.
  - discriminate.
  - reflexivity.
  - lia.
Defined.

(** ** C5 *)

(** C5, as amended.  Let [k] be the integer [round(p_missing * n)].
    - When [k >= 1]: in 'linear' mode, a weight column that holds a
      negative entry or is zero throughout makes [create_mar_column] and
      [create_nmar_column] raise a [ValueError]; in 'quadratic' mode the
      weights are the squares, and a column that is zero throughout makes
      them raise a [ValueError].  ([create_mar_column] takes the column
      named by [depends_on], [create_nmar_column] the one named by
      [missing_column].)
    - When [k <= 0] and the seed is one NumPy accepts, no draw is made and
      both calls return the all-zero indicator, whatever the weight column
      holds and whether it exists or not. *)
Theorem degenerate_weights_raise
    (R : RandomState) (P : Pandas) (fuel : nat) (df : DataFrame)
    (missing_column depends_on : string)
    (p_missing : number) (random_state : Z) (g : rng R) (k : Z) :
  py_round (requested p_missing df) = Ret k ->
  ((1 <= k)%Z ->
   (forall depends_col,
      find_column df depends_on = Some depends_col ->
      (has_negative depends_col = true \/ all_zero depends_col = true ->
       exists msg,
         create_mar_column R P fuel df missing_column depends_on "linear"
                           p_missing random_state g
         = Raise (ValueError msg))
      /\ (all_zero depends_col = true ->
          exists msg,
            create_mar_column R P fuel df missing_column depends_on
                              "quadratic" p_missing random_state g
            = Raise (ValueError msg)))
   /\ (forall missing_col,
         find_column df missing_column = Some missing_col ->
         (has_negative missing_col = true \/ all_zero missing_col = true ->
          exists msg,
            create_nmar_column R P fuel df missing_column "linear"
                               p_missing random_state g
            = Raise (ValueError msg))
         /\ (all_zero missing_col = true ->
             exists msg,
               create_nmar_column R P fuel df missing_column "quadratic"
                                  p_missing random_state g
               = Raise (ValueError msg))))
  /\ ((k <= 0)%Z -> valid_seed random_state = true ->
      forall method, method = "linear" \/ method = "quadratic" ->
        create_mar_column R P fuel df missing_column depends_on method
                          p_missing random_state g
        = Ret (repeat 0%Z (shape0 df), seed_state R random_state)
        /\ create_nmar_column R P fuel df missing_column method
                              p_missing random_state g
           = Ret (repeat 0%Z (shape0 df), seed_state R random_state)).
Proof.
  intros Hr. split.
  - intros Hk. split.
    + intros depends_col Hd. split.
      * intros Hdeg.
        destruct (check_weights_degenerate P (shape0 df) depends_col Hdeg)
          as [msg Hw].
        apply (mar_draw_fails R P df fuel missing_column depends_on "linear"
                 depends_col msg p_missing random_state k); auto.
      * intros Hz.
        destruct (check_weights_degenerate P (shape0 df) (pow2 P depends_col)
                    (or_intror (pow2_zero P _ Hz))) as [msg Hw].
        apply (mar_draw_fails R P df fuel missing_column depends_on
                 "quadratic" depends_col msg p_missing random_state k); auto.
    + intros missing_col Hm. split.
      * intros Hdeg.
        destruct (check_weights_degenerate P (shape0 df) missing_col Hdeg)
          as [msg Hw].
        apply (nmar_draw_fails R P df fuel missing_column "linear"
                 missing_col msg p_missing random_state k); auto.
      * intros Hz.
        destruct (check_weights_degenerate P (shape0 df) (pow2 P missing_col)
                    (or_intror (pow2_zero P _ Hz))) as [msg Hw].
        apply (nmar_draw_fails R P df fuel missing_column "quadratic"
                 missing_col msg p_missing random_state k); auto.
  - intros Hk Hs method Hm. split.
    + apply (mar_zero R P df p_missing random_state k Hs Hr); assumption.
    + apply (nmar_zero R P df p_missing random_state k Hs Hr); assumption.
Qed.

Lemma degenerate_weights_raise_witness :
  (exists msg,
     create_mar_column cycle_rng exact_pandas 10 zero_age "age" "age" "linear"
                       (PyFloat (decimal 5 1)) 42 0
     = Raise (ValueError msg))
  /\ (exists msg,
        create_mar_column cycle_rng exact_pandas 10 zero_age "age" "age"
                          "quadratic" (PyFloat (decimal 5 1)) 42 0
        = Raise (ValueError msg))
  /\ (exists msg,
        create_nmar_column cycle_rng exact_pandas 10 zero_age "age" "linear"
                           (PyFloat (decimal 5 1)) 42 0
        = Raise (ValueError msg))
  /\ (exists msg,
        create_nmar_column cycle_rng exact_pandas 10 zero_age "age"
                           "quadratic" (PyFloat (decimal 5 1)) 42 0
        = Raise (ValueError msg)).
Proof.
  destruct (degenerate_weights_raise cycle_rng exact_pandas 10 zero_age "age"
              "age" (PyFloat (decimal 5 1)) 42 0 1%Z eq_refl)
    as [Hraise _].
  destruct (Hraise ltac:(lia)) as [Hmar Hnmar].
  destruct (Hmar [Num 0; Num 0] eq_refl) as [H1 H2].
  destruct (Hnmar [Num 0; Num 0] eq_refl) as [H3 H4].
  split; [|split; [|split]].
  - apply H1. right. reflexivity.
  - apply H2. reflexivity.
  - apply H3. right. reflexivity.
  - apply H4. reflexivity.
Defined.

(** C5 fails as stated, whatever the generator and whatever pandas
    computes.  With the default [p_missing = 0.01] on two rows no label is
    requested, and an all-zero weight column gives the all-zero indicator,
    not an error.  And in 'quadratic' mode a column with a negative entry
    is squared before it reaches [sample]: whenever [sample] accepts the
    squares (as it does the exact squares 1 and 4 of -1 and 2), the call
    returns an indicator. *)
Lemma degenerate_weights_raise_counterexample :
  all_zero [Num 0; Num 0] = true
  /\ (forall (R : RandomState) (P : Pandas) (fuel : nat) (g : rng R),
        create_mar_column R P fuel zero_age "income" "age" "linear"
                          (PyFloat (decimal 1 2)) 42 g
        = Ret ([0%Z; 0%Z], seed_state R 42)
        /\ create_nmar_column R P fuel zero_age "age" "linear"
                              (PyFloat (decimal 1 2)) 42 g
           = Ret ([0%Z; 0%Z], seed_state R 42))
  /\ has_negative [Num (-1); Num 2] = true
  /\ check_weights exact_pandas 2 (pow2 exact_pandas [Num (-1); Num 2])
     = Ret [1 # 5; 4 # 5]
  /\ (forall (R : RandomState) (P : Pandas) (fuel : nat) (g : rng R)
             (w : list Q),
        check_weights P 2 (pow2 P [Num (-1); Num 2]) = Ret w ->
        (exists out g',
            create_mar_column R P fuel negative_age "income" "age" "quadratic"
                              (PyFloat (decimal 5 1)) 42 g
            = Ret (out, g')
            /\ indicator_of 2 1 out)
        /\ (exists out g',
               create_nmar_column R P fuel negative_age "age" "quadratic"
                                  (PyFloat (decimal 5 1)) 42 g
               = Ret (out, g')
               /\ indicator_of 2 1 out)).
Proof.
  split; [reflexivity | split; [|split; [reflexivity | split; [reflexivity|]]]].
  - intros R P fuel g. split.
    + apply (mar_zero R P zero_age (PyFloat (decimal 1 2)) 42 0%Z eq_refl
               eq_refl fuel "income" "age" "linear" g);
        [lia | left; reflexivity].
    + apply (nmar_zero R P zero_age (PyFloat (decimal 1 2)) 42 0%Z eq_refl
               eq_refl fuel "age" "linear" g);
        [lia | left; reflexivity].
  - intros R P fuel g w Hw.
    assert (Hdraw : forall g0,
               bindM R (lift R (get_column negative_age "age"))
                     (fun c => df_sample R P negative_age
                                 (WSeries (pow2 P c))) g0
               = Ret (choice R 2 (Some w) g0)).
    { intros g0.
      apply (df_sample_squared R P negative_age "age" [Num (-1); Num 2]);
        [simpl; lia | reflexivity | exact Hw]. }
    assert (Hind : forall i, i < 2 ->
               indicator_of 2 1 (map (flag [i]) (range (Z.of_nat 2)))).
    { intros i Hi. apply (indicator_of_flags 2 [i]).
      constructor; [exact Hi | constructor]. }
    pose proof (choice_lt R 2 (Some w) (seed_state R 42)
                  ltac:(lia)) as Hlt.
    split.
    + unfold create_mar_column. rewrite seeded by reflexivity.
      simpl String.eqb. cbv iota zeta. unfold bindM at 1.
      rewrite (rounded R (requested (PyFloat (decimal 5 1)) negative_age) 1%Z
                 _ _ eq_refl).
      rewrite bindM_assoc.
      unfold bindM at 1.
      rewrite (one_label R 2 (Some w) _ ltac:(lia) Hdraw fuel).
      unfold ret, lift. rewrite read_local_bound.
      eexists. eexists. split; [reflexivity|]. apply Hind. exact Hlt.
    + unfold create_nmar_column. rewrite seeded by reflexivity.
      simpl String.eqb. cbv iota zeta. unfold bindM at 1.
      rewrite (rounded R (requested (PyFloat (decimal 5 1)) negative_age) 1%Z
                 _ _ eq_refl).
      rewrite bindM_assoc.
      unfold bindM at 1.
      rewrite (one_label R 2 (Some w) _ ltac:(lia) Hdraw fuel).
      unfold ret, lift. rewrite read_local_bound.
      eexists. eexists. split; [reflexivity|]. apply Hind. exact Hlt.
Qed.

(** ** C3 and C9: single-value imputation *)

Lemma cell_eq1_not0 (m : cell) : cell_eq1 m = true -> cell_eq0 m = false.
Proof.
  destruct m as [q|]; simpl; [|discriminate].
  intros H. apply Qeq_bool_iff in H.
  destruct (Qeq_bool q 0) eqn:E; [|reflexivity].
  apply Qeq_bool_iff in E. rewrite H in E. discriminate.
Qed.

Lemma nth_error_map_seq {A : Type} (f : nat -> A) (n i : nat) :
  i < n -> nth_error (map f (seq 0 n)) i = Some (f i).
Proof.
  intros Hi. rewrite nth_error_map, nth_error_seq.
  destruct (Nat.ltb_spec i n); [reflexivity | lia].
Qed.

Lemma imputed_column_imputes (stat : cell) (col ind : list cell) :
  imputes stat col ind (imputed_column stat col ind (List.length col)).
Proof.
  unfold imputes, imputed_column. split.
  - rewrite length_map, length_seq. reflexivity.
  - intros i x m Hx Hm.
    assert (Hi : i < List.length col) by (apply nth_error_Some; congruence).
    rewrite nth_error_map_seq by exact Hi.
    rewrite (nth_error_nth _ _ NaN Hx), (nth_error_nth _ _ NaN Hm).
    split; [|split]; intros H.
    + rewrite H. reflexivity.
    + rewrite (cell_eq1_not0 m H). reflexivity.
    + rewrite H. reflexivity.
Qed.

(** All three functions are the same comprehension around a statistic. *)
Lemma imputation_result (stat_of : list cell -> outcome cell) (stat : cell)
    (df : DataFrame) (impute_column missingness_column : string)
    (col ind : list cell) :
  wf_df df ->
  find_column df impute_column = Some col ->
  find_column df missingness_column = Some ind ->
  (0 < shape0 df -> stat_of col = Ret stat) ->
  comprehension
    (fun i =>
       (m <- loc df i missingness_column ;;
        if cell_eq0 m then loc df i impute_column
        else (c <- get_column df impute_column ;; stat_of c))%py)
    (range (Z.of_nat (shape0 df)))
  = Ret (imputed_column stat col ind (shape0 df)).
Proof.
  intros Hwf Hc Hi Hstat.
  pose proof (find_column_length df _ _ Hwf Hc) as Hlc.
  pose proof (find_column_length df _ _ Hwf Hi) as Hli.
  unfold range, imputed_column. rewrite Nat2Z.id.
  apply comprehension_ret. intros i Hin. apply in_seq in Hin.
  rewrite (loc_nth df _ ind) by (assumption || lia). simpl.
  destruct (cell_eq0 (nth i ind NaN)).
  - apply (loc_nth df _ col); [assumption | lia].
  - unfold get_column. rewrite Hc. simpl. apply Hstat. lia.
Qed.

(** C3.  On a table that holds the two columns, [impute_mean],
    [impute_median] and [impute_mode] each return a list of [df.shape[0]]
    entries in which a row whose indicator is 0 keeps its stored value and a
    row whose indicator is 1 (or any other non-zero value) holds what
    [np.mean], [np.median] or [stats.mode] returned for the stored column:
    one value for all imputed rows of a call.  This holds whatever the
    libraries compute; for [impute_mode], provided [stats.mode(...)[0][0]]
    returns a value for the column. *)
Theorem imputation_keeps_observed
    (S : Statistics) (df : DataFrame)
    (impute_column missingness_column : string) (col ind : list cell) :
  wf_df df ->
  find_column df impute_column = Some col ->
  find_column df missingness_column = Some ind ->
  (exists out,
     impute_mean S df impute_column missingness_column = Ret out
     /\ List.length out = shape0 df
     /\ imputes (np_mean S col) col ind out)
  /\ (exists out,
        impute_median S df impute_column missingness_column = Ret out
        /\ List.length out = shape0 df
        /\ imputes (np_median S col) col ind out)
  /\ (forall mode,
        stats_mode S col = Ret mode ->
        exists out,
          impute_mode S df impute_column missingness_column = Ret out
          /\ List.length out = shape0 df
          /\ imputes mode col ind out).
Proof.
  intros Hwf Hc Hi.
  pose proof (find_column_length df _ _ Hwf Hc) as Hlc.
  split; [|split].
  - exists (imputed_column (np_mean S col) col ind (shape0 df)). split; [|split].
    + apply (imputation_result (fun c => Ret (np_mean S c))); auto.
    + unfold imputed_column. rewrite length_map, length_seq. reflexivity.
    + rewrite <- Hlc. apply imputed_column_imputes.
  - exists (imputed_column (np_median S col) col ind (shape0 df)).
    split; [|split].
    + apply (imputation_result (fun c => Ret (np_median S c))); auto.
    + unfold imputed_column. rewrite length_map, length_seq. reflexivity.
    + rewrite <- Hlc. apply imputed_column_imputes.
  - intros mode Hmode.
    exists (imputed_column mode col ind (shape0 df)).
    split; [|split].
    + apply (imputation_result (stats_mode S)); auto.
    + unfold imputed_column. rewrite length_map, length_seq. reflexivity.
    + rewrite <- Hlc. apply imputed_column_imputes.
Qed.

Lemma skewed_wf : wf_df skewed.
Proof. repeat constructor. Qed.

(** With the exact statistics: the mean 31/6, the median 11/2 and the mode
    9 of the six stored ages. *)
Lemma imputation_keeps_observed_witness :
  (exists out,
     impute_mean exact_statistics skewed "age" "age_missingness" = Ret out
     /\ List.length out = 6
     /\ imputes (Num (31 # 6))
                [Num 1; Num 1; Num 2; Num 9; Num 9; Num 9]
                [Num 0; Num 0; Num 0; Num 1; Num 1; Num 1] out)
  /\ (exists out,
        impute_median exact_statistics skewed "age" "age_missingness" = Ret out
        /\ List.length out = 6
        /\ imputes (Num (11 # 2))
                   [Num 1; Num 1; Num 2; Num 9; Num 9; Num 9]
                   [Num 0; Num 0; Num 0; Num 1; Num 1; Num 1] out)
  /\ (exists out,
        impute_mode exact_statistics skewed "age" "age_missingness" = Ret out
        /\ List.length out = 6
        /\ imputes (Num 9)
                   [Num 1; Num 1; Num 2; Num 9; Num 9; Num 9]
                   [Num 0; Num 0; Num 0; Num 1; Num 1; Num 1] out).
Proof.
  destruct (imputation_keeps_observed exact_statistics skewed "age"
              "age_missingness"
              [Num 1; Num 1; Num 2; Num 9; Num 9; Num 9]
              [Num 0; Num 0; Num 0; Num 1; Num 1; Num 1]
              skewed_wf eq_refl eq_refl)
    as [Hmean [Hmedian Hmode]].
  split; [exact Hmean | split; [exact Hmedian|]].
  apply Hmode. reflexivity.
Defined.

(** C9.  In [impute_mean], [impute_median] and [impute_mode] the value
    written into a flagged row is what the library returns for the whole
    stored column [df[impute_column]], flagged rows included; so whenever
    that differs from what it returns for the observed rows alone, the
    imputed value differs from the observed-rows statistic. *)
Theorem statistic_over_whole_column
    (S : Statistics) (df : DataFrame)
    (impute_column missingness_column : string)
    (col ind : list cell) (i : nat) :
  wf_df df ->
  find_column df impute_column = Some col ->
  find_column df missingness_column = Some ind ->
  i < shape0 df ->
  cell_eq0 (nth i ind NaN) = false ->
  (exists out,
     impute_mean S df impute_column missingness_column = Ret out
     /\ nth_error out i = Some (np_mean S col)
     /\ (~ cell_equiv (np_mean S col) (np_mean S (observed col ind)) ->
         ~ cell_equiv (nth i out NaN) (np_mean S (observed col ind))))
  /\ (exists out,
        impute_median S df impute_column missingness_column = Ret out
        /\ nth_error out i = Some (np_median S col)
        /\ (~ cell_equiv (np_median S col) (np_median S (observed col ind)) ->
            ~ cell_equiv (nth i out NaN) (np_median S (observed col ind))))
  /\ (forall mode,
        stats_mode S col = Ret mode ->
        exists out,
          impute_mode S df impute_column missingness_column = Ret out
          /\ nth_error out i = Some mode
          /\ (forall mode_obs,
                stats_mode S (observed col ind) = Ret mode_obs ->
                ~ cell_equiv mode mode_obs ->
                ~ cell_equiv (nth i out NaN) mode_obs)).
Proof.
  intros Hwf Hc Hi Hlt Hflag.
  assert (Hat : forall stat,
             nth_error (imputed_column stat col ind (shape0 df)) i = Some stat).
  { intros stat. unfold imputed_column.
    rewrite nth_error_map_seq by exact Hlt. rewrite Hflag. reflexivity. }
  split; [|split].
  - exists (imputed_column (np_mean S col) col ind (shape0 df)). split; [|split].
    + apply (imputation_result (fun c => Ret (np_mean S c))); auto.
    + apply Hat.
    + rewrite (nth_error_nth _ _ NaN (Hat _)). auto.
  - exists (imputed_column (np_median S col) col ind (shape0 df)).
    split; [|split].
    + apply (imputation_result (fun c => Ret (np_median S c))); auto.
    + apply Hat.
    + rewrite (nth_error_nth _ _ NaN (Hat _)). auto.
  - intros mode Hmode.
    exists (imputed_column mode col ind (shape0 df)).
    split; [|split].
    + apply (imputation_result (stats_mode S)); auto.
    + apply Hat.
    + intros mode_obs _. rewrite (nth_error_nth _ _ NaN (Hat _)). auto.
Qed.

(** On [skewed], with the exact statistics, those of the whole column
    (31/6, 11/2, 9) all differ from those of the observed rows (4/3, 1, 1),
    and the flagged row 3 receives the former. *)
Lemma statistic_over_whole_column_witness :
  (exists out,
     impute_mean exact_statistics skewed "age" "age_missingness" = Ret out
     /\ nth_error out 3 = Some (Num (31 # 6))
     /\ exact_mean [Num 1; Num 1; Num 2] = Num (4 # 3)
     /\ ~ cell_equiv (nth 3 out NaN) (Num (4 # 3)))
  /\ (exists out,
        impute_median exact_statistics skewed "age" "age_missingness" = Ret out
        /\ nth_error out 3 = Some (Num (11 # 2))
        /\ exact_median [Num 1; Num 1; Num 2] = Num 1
        /\ ~ cell_equiv (nth 3 out NaN) (Num 1))
  /\ (exists out,
        impute_mode exact_statistics skewed "age" "age_missingness" = Ret out
        /\ nth_error out 3 = Some (Num 9)
        /\ exact_mode [Num 1; Num 1; Num 2] = Ret (Num 1)
        /\ ~ cell_equiv (nth 3 out NaN) (Num 1)).
Proof.
  destruct (statistic_over_whole_column exact_statistics skewed "age"
              "age_missingness"
              [Num 1; Num 1; Num 2; Num 9; Num 9; Num 9]
              [Num 0; Num 0; Num 0; Num 1; Num 1; Num 1] 3
              skewed_wf eq_refl eq_refl)
    as [[o1 [R1 [N1 D1]]] [[o2 [R2 [N2 D2]]] Hmode]].
  - vm_compute. lia.
  - reflexivity.
  - destruct (Hmode (Num 9) eq_refl) as [o3 [R3 [N3 D3]]].
    split; [|split].
    + exists o1. split; [exact R1 | split; [exact N1 | split; [reflexivity|]]].
      apply D1. vm_compute. discriminate.
    + exists o2. split; [exact R2 | split; [exact N2 | split; [reflexivity|]]].
      apply D2. vm_compute. discriminate.
    + exists o3. split; [exact R3 | split; [exact N3 | split; [reflexivity|]]].
      apply (D3 (Num 1)); [reflexivity | vm_compute; discriminate].
Defined.

(** ** C7: the spread of an imputed column *)

















(** ** C4 and C6: regression imputation *)

(** C4 does not hold of the code.  Asked to impute [income] from
    [children], [partnered] and [age] with the indicator
    [income_missingness], [regression_imputation] returns [age] on the rows
    where [age_missingness] is 0 and, on the row where it is 1, a prediction
    from that row's [children], [partnered] and [income]; the model was
    fitted on all three rows (the mean of all incomes is 660/3 = 220, that
    of the observed ones 400/2 = 200).  In general the outcome does not
    depend on [missingness_column] at all. *)
Theorem regression_imputation_hard_coded :
  regression_imputation mean_sklearn survey "income"
                        ["children"; "partnered"; "age"]
                        "income_missingness" "linear"
  = Ret [Num 10; Num 20; Num (660 # 3)]
  /\ (660 # 3 == 220)%Q
  /\ np_mean exact_statistics
             (observed [Num 100; Num 260; Num 300] [Num 0; Num 1; Num 0])
     = Num (400 # 2)
  /\ forall (sk : sklearn) (df : DataFrame) (impute_column : string)
            (X_columns : list string)
            (missingness_column1 missingness_column2 regression : string),
       regression_imputation sk df impute_column X_columns
                             missingness_column1 regression
       = regression_imputation sk df impute_column X_columns
                               missingness_column2 regression.
Proof.
  split; [reflexivity | split; [reflexivity | split; [reflexivity|]]].
  intros. reflexivity.
Qed.

Lemma mean_regressor_rejects_nan : rejects_nan mean_regressor.
Proof.
  intros X y H. simpl. unfold mean_fit.
  destruct X as [|row X']; [eexists; reflexivity|].
  rewrite H. simpl. eexists. reflexivity.
Qed.

Lemma get_column_not_timeout (df : DataFrame) (name : string) :
  get_column df name <> Timeout.
Proof.
  unfold get_column. destruct (find_column df name); discriminate.
Qed.

Lemma nan_position (col : list cell) :
  existsb is_nan col = true ->
  exists i, i < List.length col /\ is_nan (nth i col NaN) = true.
Proof.
  intros H. apply existsb_exists in H. destruct H as [v [Hin Hv]].
  destruct (In_nth _ _ NaN Hin) as [i [Hi Hnth]].
  exists i. split; [exact Hi | rewrite Hnth; exact Hv].
Qed.

Lemma rows_of_nan (n : nat) (cols : list (list cell)) (col : list cell) :
  In col cols -> List.length col = n -> existsb is_nan col = true ->
  existsb (existsb is_nan) (rows_of n cols) = true.
Proof.
  intros Hin Hlen Hnan. destruct (nan_position col Hnan) as [i [Hi Hv]].
  apply existsb_exists.
  exists (map (fun c => nth i c NaN) cols). split.
  - unfold rows_of. apply (in_map (fun j => map (fun c => nth j c NaN) cols)).
    apply in_seq. lia.
  - apply existsb_exists. exists (nth i col NaN). split; [|exact Hv].
    apply (in_map (fun c => nth i c NaN)). exact Hin.
Qed.

(** C6, as amended.  [regression_imputation] makes no check of its own on
    the training rows.  It raises [NameError] when [regression] is neither
    'linear' nor 'logistic'; and, with estimators that reject NaN, it
    raises whenever one of the columns named in [X_columns] holds a NaN. *)
Theorem regression_fails_explicitly
    (sk : sklearn) (df : DataFrame) (impute_column : string)
    (X_columns : list string) (missingness_column regression : string) :
  (regression <> "linear" -> regression <> "logistic" ->
   regression_imputation sk df impute_column X_columns missingness_column
                         regression
   = Raise (NameError "model"))
  /\ (wf_df df ->
      rejects_nan (LinearRegression sk) ->
      rejects_nan (LogisticRegression sk) ->
      (exists name col,
          In name X_columns
          /\ find_column df name = Some col
          /\ existsb is_nan col = true) ->
      exists e,
        regression_imputation sk df impute_column X_columns
                              missingness_column regression
        = Raise e).
Proof.
  split.
  - intros Hl Hg. apply String.eqb_neq in Hl. apply String.eqb_neq in Hg.
    unfold regression_imputation, select_model. rewrite Hl, Hg. reflexivity.
  - intros Hwf Hlin Hlog [name [col [Hin [Hf Hnan]]]].
    unfold regression_imputation.
    assert (Hest : forall est, rejects_nan est ->
              exists e,
                (X <- get_columns df X_columns ;;
                 y <- get_column df impute_column ;;
                 m <- fit est (rows_of (shape0 df) X) y ;;
                 comprehension
                   (fun i =>
                      flag <- loc df i "age_missingness" ;;
                      if cell_eq0 flag then loc df i "age"
                      else (row <- loc_row df i ["children"; "partnered"; "income"] ;;
                            predict est m row))
                   (range (Z.of_nat (shape0 df))))%py = Raise e).
    { intros est Hrej.
      destruct (get_columns df X_columns) as [cols|e|] eqn:Ecols.
      - simpl. destruct (get_column df impute_column) as [y|e|] eqn:Ey.
        + simpl.
          destruct (comprehension_In _ _ _ name Ecols Hin) as [c [Hc Hcin]].
          unfold get_column in Hc. rewrite Hf in Hc. injection Hc as <-.
          destruct (Hrej (rows_of (shape0 df) cols) y) as [e He].
          { apply (rows_of_nan _ _ col); auto.
            apply (find_column_length df name); assumption. }
          rewrite He. exists e. reflexivity.
        + exists e. reflexivity.
        + exfalso. exact (get_column_not_timeout _ _ Ey).
      - exists e. reflexivity.
      - exfalso. unfold get_columns in Ecols.
        exact (comprehension_not_timeout _ _ (get_column_not_timeout df) Ecols). }
    unfold select_model.
    destruct (regression =? "linear")%string.
    + simpl. apply Hest. exact Hlin.
    + destruct (regression =? "logistic")%string.
      * simpl. apply Hest. exact Hlog.
      * eexists. reflexivity.
Qed.

Lemma regression_fails_explicitly_witness :
  regression_imputation mean_sklearn holed "age"
                        ["children"; "partnered"; "income"]
                        "age_missingness" "ridge"
  = Raise (NameError "model")
  /\ exists e,
       regression_imputation mean_sklearn holed "age"
                             ["children"; "partnered"; "income"]
                             "age_missingness" "linear"
       = Raise e.
Proof.
  split.
  - apply (regression_fails_explicitly mean_sklearn holed "age"
             ["children"; "partnered"; "income"] "age_missingness" "ridge");
      discriminate.
  - apply (regression_fails_explicitly mean_sklearn holed "age"
             ["children"; "partnered"; "income"] "age_missingness" "linear").
    + repeat constructor.
    + apply mean_regressor_rejects_nan.
    + apply mean_regressor_rejects_nan.
    + exists "children", [Num 1; NaN]. split; [|split]; [|reflexivity|reflexivity].
      left. reflexivity.
Defined.

(** C6 fails as stated: with no observed row at all the call returns
    predictions.  It does so with the stand-in estimator, and with every
    estimator whose [fit] accepts the two-row table and whose [predict]
    answers on its rows. *)
Lemma regression_fails_explicitly_counterexample :
  List.length (observed [Num 30; Num 40] [Num 1; Num 1]) = 0
  /\ regression_imputation mean_sklearn unobserved "age"
                           ["children"; "partnered"; "income"]
                           "age_missingness" "linear"
     = Ret [Num (70 # 2); Num (70 # 2)]
  /\ forall (sk : sklearn) (m : model (LinearRegression sk)) (v0 v1 : cell),
       fit (LinearRegression sk)
           [[Num 1; Num 1; Num 100]; [Num 2; Num 0; Num 200]]
           [Num 30; Num 40] = Ret m ->
       predict (LinearRegression sk) m [Num 1; Num 1; Num 100] = Ret v0 ->
       predict (LinearRegression sk) m [Num 2; Num 0; Num 200] = Ret v1 ->
       regression_imputation sk unobserved "age"
                             ["children"; "partnered"; "income"]
                             "age_missingness" "linear"
       = Ret [v0; v1].
Proof.
  split; [reflexivity | split; [reflexivity|]].
  intros sk m v0 v1 Hfit H0 H1.
  unfold regression_imputation. simpl.
  unfold rows_of. simpl. rewrite Hfit. simpl. rewrite H0. simpl. rewrite H1.
  reflexivity.
Qed.

(** * Further properties of the notebook's code *)

(** ** Whatever a generator returns is an indicator with the requested count *)

Section LoopInvariant.

Variable R : RandomState.
Variable n : nat.
Variable draw : M R nat.
Hypothesis draw_lt : forall g i g1, draw g = Ret (i, g1) -> i < n.

Lemma while_append_inv (k : Z) (fuel : nat) :
  forall (idx : list nat) (g : rng R) (idx' : list nat) (g' : rng R),
    while_append R fuel k draw idx g = Ret (idx', g') ->
    Forall (fun i => i < n) idx ->
    Forall (fun i => i < n) idx'
    /\ Z.of_nat (len_set idx') = Z.max (Z.of_nat (len_set idx)) k.
Proof.
  induction fuel as [|fuel IH]; intros idx g idx' g' H Hall; simpl in H;
    destruct (Z.ltb_spec (Z.of_nat (len_set idx)) k) as [Hlt|Hge];
    try discriminate;
    try (injection H as <- <-; split; [exact Hall | lia]).
  destruct (draw g) as [[i g1]| |] eqn:Ed; try discriminate.
  destruct (IH _ _ _ _ H) as [Hall' Hlen].
  - apply Forall_app. split; [exact Hall|].
    constructor; [exact (draw_lt _ _ _ Ed) | constructor].
  - split; [exact Hall'|]. rewrite Hlen.
    destruct (in_dec Nat.eq_dec i idx) as [Hin|Hnin].
    + rewrite len_set_app_in by exact Hin. lia.
    + rewrite len_set_app_notin by exact Hnin. lia.
Qed.

Lemma comprehensionM_inv {A : Type} (l : list A) :
  forall (g : rng R) (idx : list nat) (g' : rng R),
    comprehensionM R (fun _ => draw) l g = Ret (idx, g') ->
    List.length idx = List.length l /\ Forall (fun i => i < n) idx.
Proof.
  induction l as [|a l IH]; intros g idx g' H; simpl in H.
  - unfold ret in H. injection H as <- <-. split; [reflexivity | constructor].
  - unfold bindM in H. destruct (draw g) as [[i g1]| |] eqn:Ed; try discriminate.
    destruct (comprehensionM R (fun _ => draw) l g1) as [[idx1 g2]| |] eqn:Ec;
      try discriminate.
    unfold ret in H. injection H as <- <-.
    destruct (IH _ _ _ Ec) as [Hlen Hall]. split.
    + simpl. rewrite Hlen. reflexivity.
    + constructor; [exact (draw_lt _ _ _ Ed) | exact Hall].
Qed.

Lemma sampling_inv (k : Z) (fuel : nat) (g : rng R) (idx : list nat) (g' : rng R) :
  bindM R (comprehensionM R (fun _ => draw) (range k))
        (while_append R fuel k draw) g = Ret (idx, g') ->
  Forall (fun i => i < n) idx /\ Z.of_nat (len_set idx) = Z.max 0 k.
Proof.
  unfold bindM. intros H.
  destruct (comprehensionM R (fun _ => draw) (range k) g) as [[idx0 g0]| |] eqn:Ec;
    try discriminate.
  destruct (comprehensionM_inv _ _ _ _ Ec) as [Hlen Hall].
  destruct (while_append_inv _ _ _ _ _ _ H Hall) as [Hall' Hlen'].
  split; [exact Hall'|]. rewrite Hlen'.
  pose proof (len_set_le_length idx0) as Hle. rewrite Hlen in Hle.
  unfold range in Hle. rewrite length_seq in Hle. lia.
Qed.

End LoopInvariant.

Lemma df_sample_lt (R : RandomState) (P : Pandas) (df : DataFrame)
    (weights : weights_arg) (g : rng R) (i : nat) (g1 : rng R) :
  df_sample R P df weights g = Ret (i, g1) -> i < shape0 df.
Proof.
  unfold df_sample. destruct (resolve_weights P df weights) as [p| |]; simpl;
    try discriminate.
  destruct (Nat.eqb_spec (shape0 df) 0) as [|Hn]; [discriminate|].
  intros H. injection H as Hc.
  pose proof (choice_lt R (shape0 df) p g ltac:(lia)) as Hlt.
  rewrite Hc in Hlt. exact Hlt.
Qed.

Lemma squared_sample_lt (R : RandomState) (P : Pandas) (df : DataFrame)
    (name : string) (g : rng R) (i : nat) (g1 : rng R) :
  bindM R (lift R (get_column df name))
        (fun c => df_sample R P df (WSeries (pow2 P c))) g
  = Ret (i, g1) ->
  i < shape0 df.
Proof.
  unfold bindM, lift. destruct (get_column df name); try discriminate.
  apply df_sample_lt.
Qed.

Lemma indicator_of_drawn (n : nat) (k : Z) (idx : list nat) :
  Forall (fun i => i < n) idx /\ Z.of_nat (len_set idx) = Z.max 0 k ->
  indicator_of n (Z.max 0 k) (map (flag idx) (range (Z.of_nat n))).
Proof.
  intros [Hall Hlen]. rewrite <- Hlen. apply indicator_of_flags. exact Hall.
Qed.

Section ReturnedColumns.

Variable R : RandomState.
Variable P : Pandas.
Variable df : DataFrame.
Variable p_missing : number.
Variable random_state : Z.

Let n := shape0 df.

(** A computation that starts with [round] returns only if [round] did. *)
Lemma round_returned {A : Type} (body : Z -> M R A) (g : rng R)
    (r : A * rng R) :
  bindM R (lift R (py_round (requested p_missing df))) body g = Ret r ->
  exists k, py_round (requested p_missing df) = Ret k /\ body k g = Ret r.
Proof.
  unfold bindM, lift.
  destruct (py_round (requested p_missing df)) as [k| |]; try discriminate.
  intros H. exists k. split; [reflexivity | exact H].
Qed.

Lemma mcar_returned (fuel : nat) (missing_column : string) (g : rng R)
    (out : list Z) (g' : rng R) :
  create_mcar_column R P fuel df missing_column p_missing random_state g
  = Ret (out, g') ->
  exists k,
    py_round (requested p_missing df) = Ret k
    /\ indicator_of n (Z.max 0 k) out.
Proof.
  unfold create_mcar_column. intros H.
  destruct (valid_seed random_state) eqn:Hs;
    [|rewrite seed_rejected in H by exact Hs; discriminate].
  rewrite seeded in H by exact Hs.
  apply round_returned in H. destruct H as [k [Hr H]].
  exists k. split; [exact Hr|].
  rewrite bindM_assoc in H. unfold bindM at 1 in H.
  destruct (bindM R _ _ (seed_state R random_state)) as [[idx g1]| |] eqn:E;
    try discriminate.
  unfold ret in H. injection H as <- <-.
  apply indicator_of_drawn.
  apply (sampling_inv R n (df_sample R P df WNone)
           (fun g0 i g2 => df_sample_lt R P df WNone g0 i g2) k fuel _ _ _ E).
Qed.

Lemma weighted_returned (var : string) (draw_linear draw_quadratic : M R nat)
    (method : string) (fuel : nat) (g : rng R) (out : list Z) (g' : rng R) :
  (forall g0 i g1, draw_linear g0 = Ret (i, g1) -> i < n) ->
  (forall g0 i g1, draw_quadratic g0 = Ret (i, g1) -> i < n) ->
  bindM R
    (if (method =? "linear")%string then
       bindM R (lift R (py_round (requested p_missing df)))
         (fun k =>
            bindM R (comprehensionM R (fun _ => draw_linear) (range k))
              (fun idx0 => bindM R (while_append R fuel k draw_linear idx0)
                             (fun idx => ret R (Some idx))))
     else if (method =? "quadratic")%string then
       bindM R (lift R (py_round (requested p_missing df)))
         (fun k =>
            bindM R (comprehensionM R (fun _ => draw_quadratic) (range k))
              (fun idx0 => bindM R (while_append R fuel k draw_quadratic idx0)
                             (fun idx => ret R (Some idx))))
     else ret R None)
    (fun idx => lift R (comprehension (read_local var idx)
                                      (range (Z.of_nat n)))) g
  = Ret (out, g') ->
  List.length out = n
  /\ Forall (fun z => z = 0%Z \/ z = 1%Z) out
  /\ forall k, py_round (requested p_missing df) = Ret k ->
               indicator_of n (Z.max 0 k) out.
Proof.
  intros Hl Hq H.
  assert (Hall : forall k, py_round (requested p_missing df) = Ret k ->
                           indicator_of n (Z.max 0 k) out).
  { intros k Hr. unfold bindM at 1 in H.
    assert (Hbranch : forall draw : M R nat,
               (forall g0 i g1, draw g0 = Ret (i, g1) -> i < n) ->
               match
                 bindM R (lift R (py_round (requested p_missing df)))
                   (fun k =>
                      bindM R (comprehensionM R (fun _ => draw) (range k))
                        (fun idx0 => bindM R (while_append R fuel k draw idx0)
                                       (fun idx => ret R (Some idx)))) g
               with
               | Ret (a, g1) =>
                   lift R (comprehension (read_local var a)
                                         (range (Z.of_nat n))) g1
               | Raise e => Raise e
               | Timeout => Timeout
               end = Ret (out, g') ->
               indicator_of n (Z.max 0 k) out).
    { intros draw Hd Hb. rewrite (rounded R _ k _ _ Hr) in Hb.
      rewrite bindM_assoc in Hb. unfold bindM at 1 in Hb.
      destruct (bindM R _ _ g) as [[idx g1]| |] eqn:E; try discriminate.
      unfold ret, lift in Hb. rewrite read_local_bound in Hb.
      injection Hb as <- <-. apply indicator_of_drawn.
      apply (sampling_inv R n draw Hd k fuel _ _ _ E). }
    destruct (method =? "linear")%string; [exact (Hbranch _ Hl H)|].
    destruct (method =? "quadratic")%string; [exact (Hbranch _ Hq H)|].
    unfold ret, lift in H.
    destruct n as [|n'] eqn:En.
    - simpl in H. injection H as <- <-.
      rewrite (requested_empty p_missing df k En Hr).
      apply (indicator_of_flags 0 []). constructor.
    - unfold range in H. rewrite Nat2Z.id in H. simpl in H. discriminate. }
  assert (Hshape : List.length out = n
                   /\ Forall (fun z => z = 0%Z \/ z = 1%Z) out).
  { unfold bindM at 1 in H.
    match type of H with
    | match ?c with _ => _ end = _ => destruct c as [[[idx|] g1]| |]
    end; try discriminate; unfold lift in H.
    - rewrite read_local_bound in H. injection H as <- <-.
      split; [rewrite length_map; apply range_length | apply flags_binary].
    - destruct n as [|n'] eqn:En.
      + simpl in H. injection H as <- <-. split; [reflexivity | constructor].
      + unfold range in H. rewrite Nat2Z.id in H. simpl in H. discriminate. }
  destruct Hshape as [Hlen Hbin]. split; [exact Hlen | split; [exact Hbin | exact Hall]].
Qed.

(** On a table with rows a weighted generator that returns has called
    [round], and [round] has returned. *)
Lemma weighted_rounded (var : string) (draw_linear draw_quadratic : M R nat)
    (method : string) (fuel : nat) (g : rng R) (out : list Z) (g' : rng R) :
  0 < n ->
  bindM R
    (if (method =? "linear")%string then
       bindM R (lift R (py_round (requested p_missing df)))
         (fun k =>
            bindM R (comprehensionM R (fun _ => draw_linear) (range k))
              (fun idx0 => bindM R (while_append R fuel k draw_linear idx0)
                             (fun idx => ret R (Some idx))))
     else if (method =? "quadratic")%string then
       bindM R (lift R (py_round (requested p_missing df)))
         (fun k =>
            bindM R (comprehensionM R (fun _ => draw_quadratic) (range k))
              (fun idx0 => bindM R (while_append R fuel k draw_quadratic idx0)
                             (fun idx => ret R (Some idx))))
     else ret R None)
    (fun idx => lift R (comprehension (read_local var idx)
                                      (range (Z.of_nat n)))) g
  = Ret (out, g') ->
  exists k, py_round (requested p_missing df) = Ret k.
Proof.
  intros Hn H. unfold bindM at 1 in H.
  destruct (method =? "linear")%string.
  - destruct (bindM R _ _ g) as [[a g1]| |] eqn:E; try discriminate.
    apply round_returned in E. destruct E as [k [Hr _]]. exists k. exact Hr.
  - destruct (method =? "quadratic")%string.
    + destruct (bindM R _ _ g) as [[a g1]| |] eqn:E; try discriminate.
      apply round_returned in E. destruct E as [k [Hr _]]. exists k. exact Hr.
    + unfold ret, lift in H. destruct n as [|n']; [lia|].
      unfold range in H. rewrite Nat2Z.id in H. simpl in H. discriminate.
Qed.

Lemma mar_rounded (fuel : nat) (missing_column depends_on method : string)
    (g : rng R) (out : list Z) (g' : rng R) :
  0 < n ->
  create_mar_column R P fuel df missing_column depends_on method p_missing
                    random_state g
  = Ret (out, g') ->
  exists k, py_round (requested p_missing df) = Ret k.
Proof.
  unfold create_mar_column. intros Hn H.
  destruct (valid_seed random_state) eqn:Hs;
    [|rewrite seed_rejected in H by exact Hs; discriminate].
  rewrite seeded in H by exact Hs. cbv zeta in H.
  exact (weighted_rounded "mar_indices" _ _ method fuel _ out g' Hn H).
Qed.

Lemma nmar_rounded (fuel : nat) (missing_column method : string)
    (g : rng R) (out : list Z) (g' : rng R) :
  0 < n ->
  create_nmar_column R P fuel df missing_column method p_missing
                     random_state g
  = Ret (out, g') ->
  exists k, py_round (requested p_missing df) = Ret k.
Proof.
  unfold create_nmar_column. intros Hn H.
  destruct (valid_seed random_state) eqn:Hs;
    [|rewrite seed_rejected in H by exact Hs; discriminate].
  rewrite seeded in H by exact Hs. cbv zeta in H.
  exact (weighted_rounded "nmar_indices" _ _ method fuel _ out g' Hn H).
Qed.

Lemma mar_returned (fuel : nat) (missing_column depends_on method : string)
    (g : rng R) (out : list Z) (g' : rng R) :
  create_mar_column R P fuel df missing_column depends_on method p_missing
                    random_state g
  = Ret (out, g') ->
  List.length out = n
  /\ Forall (fun z => z = 0%Z \/ z = 1%Z) out
  /\ forall k, py_round (requested p_missing df) = Ret k ->
               indicator_of n (Z.max 0 k) out.
Proof.
  unfold create_mar_column. intros H.
  destruct (valid_seed random_state) eqn:Hs;
    [|rewrite seed_rejected in H by exact Hs; discriminate].
  rewrite seeded in H by exact Hs. cbv zeta in H.
  apply (weighted_returned "mar_indices"
           (df_sample R P df (WName depends_on))
           (bindM R (lift R (get_column df depends_on))
              (fun c => df_sample R P df (WSeries (pow2 P c))))
           method fuel (seed_state R random_state) out g').
  - intros g0 i g1. apply df_sample_lt.
  - intros g0 i g1. apply squared_sample_lt.
  - exact H.
Qed.

Lemma nmar_returned (fuel : nat) (missing_column method : string)
    (g : rng R) (out : list Z) (g' : rng R) :
  create_nmar_column R P fuel df missing_column method p_missing
                     random_state g
  = Ret (out, g') ->
  List.length out = n
  /\ Forall (fun z => z = 0%Z \/ z = 1%Z) out
  /\ forall k, py_round (requested p_missing df) = Ret k ->
               indicator_of n (Z.max 0 k) out.
Proof.
  unfold create_nmar_column. intros H.
  destruct (valid_seed random_state) eqn:Hs;
    [|rewrite seed_rejected in H by exact Hs; discriminate].
  rewrite seeded in H by exact Hs. cbv zeta in H.
  apply (weighted_returned "nmar_indices"
           (df_sample R P df (WName missing_column))
           (bindM R (lift R (get_column df missing_column))
              (fun c => df_sample R P df (WSeries (pow2 P c))))
           method fuel (seed_state R random_state) out g').
  - intros g0 i g1. apply df_sample_lt.
  - intros g0 i g1. apply squared_sample_lt.
  - exact H.
Qed.

End ReturnedColumns.

(** X1.  Whatever fuel it was given, whatever the generator does and
    whatever pandas computes, a column returned by [create_mcar_column],
    [create_mar_column] or [create_nmar_column] has [df.shape[0]] entries,
    each 0 or 1, of which exactly [max(0, k)] are 1, for [k] the integer
    [round] returns for the double product [p_missing * df.shape[0]].
    ([create_mcar_column] returns only if [round] did; a weighted generator
    with an unknown [method] never calls it.) *)
Theorem returned_column_is_indicator
    (R : RandomState) (P : Pandas) (fuel : nat) (df : DataFrame)
    (missing_column depends_on method : string)
    (p_missing : number) (random_state : Z) (g : rng R)
    (out : list Z) (g' : rng R) :
  (create_mcar_column R P fuel df missing_column p_missing random_state g
   = Ret (out, g') ->
   exists k,
     py_round (requested p_missing df) = Ret k
     /\ indicator_of (shape0 df) (Z.max 0 k) out)
  /\ (create_mar_column R P fuel df missing_column depends_on method p_missing
                        random_state g
      = Ret (out, g') ->
      List.length out = shape0 df
      /\ Forall (fun z => z = 0%Z \/ z = 1%Z) out
      /\ forall k, py_round (requested p_missing df) = Ret k ->
                   indicator_of (shape0 df) (Z.max 0 k) out)
  /\ (create_nmar_column R P fuel df missing_column method p_missing
                         random_state g
      = Ret (out, g') ->
      List.length out = shape0 df
      /\ Forall (fun z => z = 0%Z \/ z = 1%Z) out
      /\ forall k, py_round (requested p_missing df) = Ret k ->
                   indicator_of (shape0 df) (Z.max 0 k) out).
Proof.
  split; [|split].
  - apply mcar_returned.
  - apply mar_returned.
  - apply nmar_returned.
Qed.

(** On 45 rows with [p_missing = 0.7] the double product is just below
    31.5: the column holds 31 ones, not the 32 of the exact product. *)
Lemma returned_column_is_indicator_witness :
  (exists out,
     create_mcar_column cycle_rng exact_pandas 40 forty_five_rows "age"
                        (PyFloat (decimal 7 1)) 42 0
     = Ret (out, 73)
     /\ indicator_of 45 31 out)
  /\ create_nmar_column cycle_rng exact_pandas 10 negative_age "age"
                        "quadratic" (PyInt 1) 42 0
     = Ret ([1; 1]%Z, 44)
  /\ indicator_of 2 2 [1; 1]%Z.
Proof.
  split; [|split; [reflexivity|]].
  - eexists. split; [vm_compute; reflexivity|].
    destruct (proj1 (returned_column_is_indicator cycle_rng exact_pandas 40
                       forty_five_rows "age" "age" "quadratic"
                       (PyFloat (decimal 7 1)) 42 0 _ 73)
                    ltac:(vm_compute; reflexivity))
      as [k [Hk Hind]].
    vm_compute in Hk. injection Hk as <-. exact Hind.
  - destruct (proj2 (proj2 (returned_column_is_indicator cycle_rng exact_pandas
                              10 negative_age "age" "age" "quadratic"
                              (PyInt 1) 42 0 [1; 1]%Z 44))
                    eq_refl)
      as [_ [_ Hind]].
    exact (Hind 2%Z eq_refl).
Defined.

Lemma Qltb_lt (a b : Q) : Qltb a b = true <-> (a < b)%Q.
Proof.
  unfold Qltb. rewrite negb_true_iff. split.
  - intros H. apply Qnot_le_lt. intros Hle. apply Qle_bool_iff in Hle. congruence.
  - intros H. destruct (Qle_bool b a) eqn:E; [|reflexivity].
    apply Qle_bool_iff in E. exfalso. exact (Qlt_not_le _ _ H E).
Qed.

(** ** Missing columns *)

(** X4.  When at least one label is requested and the weight column does not
    exist, the weighted generators raise [KeyError] on their first draw:
    in 'linear' mode from [sample], which is handed the name, in
    'quadratic' mode from the lookup [df[name]] itself. *)
Theorem missing_weight_column_raises
    (R : RandomState) (P : Pandas) (fuel : nat) (df : DataFrame)
    (missing_column depends_on : string)
    (p_missing : number) (random_state : Z) (g : rng R) (k : Z) :
  valid_seed random_state = true ->
  py_round (requested p_missing df) = Ret k ->
  (1 <= k)%Z ->
  (find_column df depends_on = None ->
   create_mar_column R P fuel df missing_column depends_on "linear" p_missing
                     random_state g
   = Raise (KeyError "String passed to weights not a valid column")
   /\ create_mar_column R P fuel df missing_column depends_on "quadratic"
                        p_missing random_state g
      = Raise (KeyError depends_on))
  /\ (find_column df missing_column = None ->
      create_nmar_column R P fuel df missing_column "linear" p_missing
                         random_state g
      = Raise (KeyError "String passed to weights not a valid column")
      /\ create_nmar_column R P fuel df missing_column "quadratic"
                            p_missing random_state g
         = Raise (KeyError missing_column)).
Proof.
  intros Hs Hr Hk.
  assert (Hlin : forall name g0, find_column df name = None ->
             df_sample R P df (WName name) g0
             = Raise (KeyError "String passed to weights not a valid column")).
  { intros name g0 Hf. unfold df_sample. simpl. rewrite Hf. reflexivity. }
  assert (Hquad : forall name g0, find_column df name = None ->
             bindM R (lift R (get_column df name))
                   (fun c => df_sample R P df (WSeries (pow2 P c))) g0
             = Raise (KeyError name)).
  { intros name g0 Hf. unfold bindM, lift, get_column. rewrite Hf. reflexivity. }
  split; intros Hf; split.
  - unfold create_mar_column. rewrite seeded by exact Hs.
    simpl String.eqb. cbv iota. unfold bindM at 1.
    rewrite (rounded R _ _ _ _ Hr). rewrite bindM_assoc.
    unfold bindM at 1.
    rewrite (first_draw_raises R k _ _ _ _ ltac:(lia) (Hlin _ _ Hf)).
    reflexivity.
  - unfold create_mar_column. rewrite seeded by exact Hs.
    simpl String.eqb. cbv iota zeta. unfold bindM at 1.
    rewrite (rounded R _ _ _ _ Hr). rewrite bindM_assoc.
    unfold bindM at 1.
    rewrite (first_draw_raises R k _ _ _ _ ltac:(lia) (Hquad _ _ Hf)).
    reflexivity.
  - unfold create_nmar_column. rewrite seeded by exact Hs.
    simpl String.eqb. cbv iota. unfold bindM at 1.
    rewrite (rounded R _ _ _ _ Hr). rewrite bindM_assoc.
    unfold bindM at 1.
    rewrite (first_draw_raises R k _ _ _ _ ltac:(lia) (Hlin _ _ Hf)).
    reflexivity.
  - unfold create_nmar_column. rewrite seeded by exact Hs.
    simpl String.eqb. cbv iota zeta. unfold bindM at 1.
    rewrite (rounded R _ _ _ _ Hr). rewrite bindM_assoc.
    unfold bindM at 1.
    rewrite (first_draw_raises R k _ _ _ _ ltac:(lia) (Hquad _ _ Hf)).
    reflexivity.
Qed.

Lemma missing_weight_column_raises_witness :
  (create_mar_column cycle_rng exact_pandas 10 zero_age "income" "weight" "linear" (PyFloat (decimal 5 1))
                     42 0
   = Raise (KeyError "String passed to weights not a valid column")
   /\ create_mar_column cycle_rng exact_pandas 10 zero_age "income" "weight" "quadratic"
                        (PyFloat (decimal 5 1)) 42 0
      = Raise (KeyError "weight"))
  /\ (create_nmar_column cycle_rng exact_pandas 10 zero_age "salary" "linear" (PyFloat (decimal 5 1)) 42 0
      = Raise (KeyError "String passed to weights not a valid column")
      /\ create_nmar_column cycle_rng exact_pandas 10 zero_age "salary" "quadratic"
                            (PyFloat (decimal 5 1)) 42 0
         = Raise (KeyError "salary")).
Proof.
  split.
  - apply (proj1 (missing_weight_column_raises cycle_rng exact_pandas 10
                    zero_age "income" "weight" (PyFloat (decimal 5 1)) 42 0
                    1%Z eq_refl eq_refl ltac:(lia))).
    reflexivity.
  - apply (proj2 (missing_weight_column_raises cycle_rng exact_pandas 10
                    zero_age "salary" "age" (PyFloat (decimal 5 1)) 42 0
                    1%Z eq_refl eq_refl ltac:(lia))).
    reflexivity.
Defined.

Lemma imputation_empty (stat_of : list cell -> outcome cell) (df : DataFrame)
    (impute_column missingness_column : string) :
  shape0 df = 0 ->
  comprehension
    (fun i =>
       (m <- loc df i missingness_column ;;
        if cell_eq0 m then loc df i impute_column
        else (c <- get_column df impute_column ;; stat_of c))%py)
    (range (Z.of_nat (shape0 df)))
  = Ret [].
Proof. intros H. rewrite H. reflexivity. Qed.

Lemma imputation_no_indicator (stat_of : list cell -> outcome cell)
    (df : DataFrame) (impute_column missingness_column : string) :
  0 < shape0 df ->
  find_column df missingness_column = None ->
  comprehension
    (fun i =>
       (m <- loc df i missingness_column ;;
        if cell_eq0 m then loc df i impute_column
        else (c <- get_column df impute_column ;; stat_of c))%py)
    (range (Z.of_nat (shape0 df)))
  = Raise (KeyError missingness_column).
Proof.
  intros Hn Hf. unfold range. rewrite Nat2Z.id.
  destruct (shape0 df) as [|n']; [lia|]. simpl.
  unfold loc, get_column. rewrite Hf. reflexivity.
Qed.

Lemma imputation_no_column (stat_of : list cell -> outcome cell)
    (df : DataFrame) (impute_column missingness_column : string)
    (ind : list cell) :
  0 < shape0 df -> wf_df df ->
  find_column df missingness_column = Some ind ->
  find_column df impute_column = None ->
  comprehension
    (fun i =>
       (m <- loc df i missingness_column ;;
        if cell_eq0 m then loc df i impute_column
        else (c <- get_column df impute_column ;; stat_of c))%py)
    (range (Z.of_nat (shape0 df)))
  = Raise (KeyError impute_column).
Proof.
  intros Hn Hwf Hi Hf. pose proof (find_column_length df _ _ Hwf Hi) as Hlen.
  unfold range. rewrite Nat2Z.id.
  destruct (shape0 df) as [|n'] eqn:E; [lia|]. cbn [seq comprehension].
  rewrite (loc_nth df _ ind) by (assumption || lia). simpl.
  destruct (cell_eq0 (nth 0 ind NaN)); unfold loc, get_column; rewrite Hf;
    reflexivity.
Qed.

(** X5.  [impute_mean], [impute_median] and [impute_mode] look the columns up
    row by row.  On an empty table they return the empty list whatever the
    column names; on a table with rows they raise [KeyError] for a missing
    indicator column, and for a missing [impute_column] when the indicator
    column is there. *)
Theorem imputation_missing_columns
    (S : Statistics) (df : DataFrame)
    (impute_column missingness_column : string) :
  (shape0 df = 0 ->
   impute_mean S df impute_column missingness_column = Ret []
   /\ impute_median S df impute_column missingness_column = Ret []
   /\ impute_mode S df impute_column missingness_column = Ret [])
  /\ (0 < shape0 df -> find_column df missingness_column = None ->
      impute_mean S df impute_column missingness_column
      = Raise (KeyError missingness_column)
      /\ impute_median S df impute_column missingness_column
         = Raise (KeyError missingness_column)
      /\ impute_mode S df impute_column missingness_column
         = Raise (KeyError missingness_column))
  /\ (0 < shape0 df -> wf_df df ->
      (exists ind, find_column df missingness_column = Some ind) ->
      find_column df impute_column = None ->
      impute_mean S df impute_column missingness_column
      = Raise (KeyError impute_column)
      /\ impute_median S df impute_column missingness_column
         = Raise (KeyError impute_column)
      /\ impute_mode S df impute_column missingness_column
         = Raise (KeyError impute_column)).
Proof.
  split; [|split].
  - intros H. split; [|split].
    + apply (imputation_empty (fun c => Ret (np_mean S c))). exact H.
    + apply (imputation_empty (fun c => Ret (np_median S c))). exact H.
    + apply (imputation_empty (stats_mode S)). exact H.
  - intros Hn Hf. split; [|split].
    + apply (imputation_no_indicator (fun c => Ret (np_mean S c))); assumption.
    + apply (imputation_no_indicator (fun c => Ret (np_median S c))); assumption.
    + apply (imputation_no_indicator (stats_mode S)); assumption.
  - intros Hn Hwf [ind Hi] Hf. split; [|split].
    + apply (imputation_no_column (fun c => Ret (np_mean S c)) _ _ _ ind); assumption.
    + apply (imputation_no_column (fun c => Ret (np_median S c)) _ _ _ ind); assumption.
    + apply (imputation_no_column (stats_mode S) _ _ _ ind); assumption.
Qed.

Lemma imputation_missing_columns_witness :
  impute_mode exact_statistics (mkDataFrame 0 []) "age" "age_missingness"
  = Ret []
  /\ impute_mean exact_statistics skewed "age" "flag"
     = Raise (KeyError "flag")
  /\ impute_median exact_statistics skewed "height" "age_missingness"
     = Raise (KeyError "height").
Proof.
  split; [|split].
  - apply (proj1 (imputation_missing_columns exact_statistics (mkDataFrame 0 []) "age"
                    "age_missingness")).
    reflexivity.
  - apply (proj1 (proj2 (imputation_missing_columns exact_statistics skewed "age" "flag")));
      [vm_compute; lia | reflexivity].
  - apply (proj2 (proj2 (imputation_missing_columns exact_statistics skewed "height"
                           "age_missingness")));
      [vm_compute; lia | exact skewed_wf | eexists; reflexivity | reflexivity].
Defined.

(** ** Storing a generated indicator and imputing with it (cells 7 and 20) *)

Lemma find_assign_same (name : string) (values : list cell)
    (cols : list (string * list cell)) :
  find (fun c => String.eqb (fst c) name) (assign name values cols)
  = Some (name, values).
Proof.
  induction cols as [|c cols IH]; simpl.
  - rewrite String.eqb_refl. reflexivity.
  - destruct (String.eqb (fst c) name) eqn:E; simpl.
    + rewrite String.eqb_refl. reflexivity.
    + rewrite E. exact IH.
Qed.

Lemma find_assign_other (name other : string) (values : list cell)
    (cols : list (string * list cell)) :
  other <> name ->
  find (fun c => String.eqb (fst c) other) (assign name values cols)
  = find (fun c => String.eqb (fst c) other) cols.
Proof.
  intros Hne. induction cols as [|c cols IH]; simpl.
  - destruct (String.eqb_spec name other); [congruence | reflexivity].
  - destruct (String.eqb (fst c) name) eqn:E; simpl.
    + apply String.eqb_eq in E. rewrite E.
      destruct (String.eqb_spec name other); [congruence | reflexivity].
    + destruct (String.eqb (fst c) other); [reflexivity | exact IH].
Qed.

Lemma assign_wf (n : nat) (name : string) (values : list cell)
    (cols : list (string * list cell)) :
  List.length values = n ->
  Forall (fun c => List.length (snd c) = n) cols ->
  Forall (fun c => List.length (snd c) = n) (assign name values cols).
Proof.
  intros Hv. induction 1 as [|c cols Hc Hall IH]; simpl.
  - constructor; [exact Hv | constructor].
  - destruct (String.eqb (fst c) name).
    + constructor; [exact Hv | exact Hall].
    + constructor; [exact Hc | exact IH].
Qed.

(** Storing a column of the right length on a table with rows: the column
    can be read back, the others are untouched, the table stays
    well formed. *)
Lemma set_column_ok (df : DataFrame) (name : string) (values : list cell) :
  0 < shape0 df -> wf_df df -> List.length values = shape0 df ->
  exists df',
    set_column df name values = Ret df'
    /\ shape0 df' = shape0 df
    /\ wf_df df'
    /\ find_column df' name = Some values
    /\ forall other, other <> name -> find_column df' other = find_column df other.
Proof.
  intros Hn Hwf Hlen. unfold set_column.
  destruct (Nat.eqb_spec (shape0 df) 0); [lia|].
  rewrite Hlen, Nat.eqb_refl. eexists. split; [reflexivity|].
  split; [reflexivity | split; [|split]].
  - unfold wf_df. simpl. apply assign_wf; assumption.
  - unfold find_column. simpl. rewrite find_assign_same. reflexivity.
  - intros other Hne. unfold find_column. simpl.
    rewrite find_assign_other by exact Hne. reflexivity.
Qed.

Lemma int_cells_flags (ind : list Z) (i : nat) (z : Z) :
  nth_error ind i = Some z ->
  nth_error (int_cells ind) i = Some (Num (inject_Z z)).
Proof.
  intros H. unfold int_cells. rewrite nth_error_map, H. reflexivity.
Qed.

Lemma imputes_imputed_by (stat : cell) (col : list cell) (ind : list Z)
    (out : list cell) :
  imputes stat col (int_cells ind) out -> imputed_by stat col ind out.
Proof.
  intros [Hlen H]. split; [exact Hlen|]. intros i x z Hx Hz.
  destruct (H i x _ Hx (int_cells_flags ind i z Hz)) as [H0 [H1 _]].
  split; intros ->; [apply H0 | apply H1]; reflexivity.
Qed.

(** X6.  The notebook's pipeline, for any column names: an indicator returned
    by one of the generators is stored with [df[name] = ...] and the
    imputation functions are run on the new table.  On a table with rows
    [round] has returned an integer [k], the indicator has exactly
    [max(0, k)] ones, the assignment succeeds, and each function returns
    the stored column with the statistic the library computes written into
    exactly the rows the generator flagged ([impute_mode] when
    [stats.mode] returns). *)
Theorem generated_indicator_imputes
    (R : RandomState) (P : Pandas) (S : Statistics)
    (fuel : nat) (df : DataFrame)
    (missing_column depends_on method : string)
    (p_missing : number) (random_state : Z) (g : rng R)
    (ind : list Z) (g' : rng R)
    (impute_column indicator_name : string) (col : list cell) :
  0 < shape0 df -> wf_df df ->
  find_column df impute_column = Some col ->
  impute_column <> indicator_name ->
  create_mcar_column R P fuel df missing_column p_missing random_state g
  = Ret (ind, g')
  \/ create_mar_column R P fuel df missing_column depends_on method p_missing
                       random_state g
     = Ret (ind, g')
  \/ create_nmar_column R P fuel df missing_column method p_missing
                        random_state g
     = Ret (ind, g') ->
  (exists k,
     py_round (requested p_missing df) = Ret k
     /\ indicator_of (shape0 df) (Z.max 0 k) ind)
  /\ exists df',
       set_column df indicator_name (int_cells ind) = Ret df'
       /\ (exists out,
              impute_mean S df' impute_column indicator_name = Ret out
              /\ imputed_by (np_mean S col) col ind out)
       /\ (exists out,
              impute_median S df' impute_column indicator_name = Ret out
              /\ imputed_by (np_median S col) col ind out)
       /\ (forall mode,
              stats_mode S col = Ret mode ->
              exists out,
                impute_mode S df' impute_column indicator_name = Ret out
                /\ imputed_by mode col ind out).
Proof.
  intros Hn Hwf Hc Hne Hgen.
  assert (Hind : exists k,
             py_round (requested p_missing df) = Ret k
             /\ indicator_of (shape0 df) (Z.max 0 k) ind).
  { destruct Hgen as [H|[H|H]].
    - exact (mcar_returned R P df p_missing random_state fuel _ g ind g' H).
    - destruct (mar_rounded R P df p_missing random_state fuel _ _ _ g ind g'
                  Hn H) as [k Hr].
      exists k. split; [exact Hr|].
      exact (proj2 (proj2 (mar_returned R P df p_missing random_state fuel
                             _ _ _ g ind g' H)) k Hr).
    - destruct (nmar_rounded R P df p_missing random_state fuel _ _ g ind g'
                  Hn H) as [k Hr].
      exists k. split; [exact Hr|].
      exact (proj2 (proj2 (nmar_returned R P df p_missing random_state fuel
                             _ _ g ind g' H)) k Hr). }
  split; [exact Hind|].
  destruct Hind as [k [_ [Hlen _]]].
  destruct (set_column_ok df indicator_name (int_cells ind) Hn Hwf)
    as [df' [Hset [Hshape [Hwf' [Hfind Hother]]]]].
  { unfold int_cells. rewrite length_map. exact Hlen. }
  exists df'. split; [exact Hset|].
  assert (Hc' : find_column df' impute_column = Some col).
  { rewrite Hother by exact Hne. exact Hc. }
  pose proof (find_column_length df _ _ Hwf Hc) as Hlc.
  assert (Himp : forall stat,
             imputed_by stat col ind
               (imputed_column stat col (int_cells ind) (shape0 df'))).
  { intros stat. apply imputes_imputed_by. rewrite Hshape, <- Hlc.
    apply imputed_column_imputes. }
  split; [|split].
  - eexists. split; [|apply Himp].
    apply (imputation_result (fun c => Ret (np_mean S c))); auto.
  - eexists. split; [|apply Himp].
    apply (imputation_result (fun c => Ret (np_median S c))); auto.
  - intros mode Hmode.
    exists (imputed_column mode col (int_cells ind) (shape0 df')).
    split; [|apply Himp].
    apply (imputation_result (stats_mode S)); auto.
Qed.

Lemma generated_indicator_imputes_witness :
  (exists k,
     py_round (requested (PyFloat (decimal 5 1)) negative_age) = Ret k
     /\ indicator_of 2 (Z.max 0 k) [1; 0]%Z)
  /\ exists df',
       set_column negative_age "age_missingness" (int_cells [1; 0]%Z) = Ret df'
       /\ (exists out,
              impute_mean exact_statistics df' "income" "age_missingness"
              = Ret out
              /\ imputed_by (Num (30 # 2)) [Num 10; Num 20] [1; 0]%Z out)
       /\ (exists out,
              impute_median exact_statistics df' "income" "age_missingness"
              = Ret out
              /\ imputed_by (Num (30 # 2)) [Num 10; Num 20] [1; 0]%Z out)
       /\ (forall mode,
              Ret (Num 10) = Ret mode ->
              exists out,
                impute_mode exact_statistics df' "income" "age_missingness"
                = Ret out
                /\ imputed_by mode [Num 10; Num 20] [1; 0]%Z out).
Proof.
  apply (generated_indicator_imputes cycle_rng exact_pandas exact_statistics
           10 negative_age "age" "age" "linear" (PyFloat (decimal 5 1)) 42 0
           [1; 0]%Z 43 "income" "age_missingness" [Num 10; Num 20]).
  - simpl. lia.
  - repeat constructor.
  - reflexivity.
  - discriminate.
  - left. reflexivity.
Defined.

Lemma fill_length (s : cell) (col ind : list cell) :
  List.length ind = List.length col ->
  List.length (fill s col ind) = List.length col.
Proof.
  revert ind. induction col as [|x col IH]; intros ind H; [reflexivity|].
  destruct ind as [|m ind]; [discriminate|]. simpl.
  rewrite IH by (simpl in H; lia). reflexivity.
Qed.

(** ** Regression imputation, as the code computes it *)

Lemma comprehension_seq_inv {B : Type} (f : nat -> outcome B) (n : nat) :
  forall (s : nat) (bs : list B),
    comprehension f (seq s n) = Ret bs ->
    List.length bs = n
    /\ forall i, i < n ->
         exists b, nth_error bs i = Some b /\ f (s + i) = Ret b.
Proof.
  induction n as [|n IH]; intros s bs H; simpl in H.
  - injection H as <-. split; [reflexivity | intros i Hi; lia].
  - destruct (f s) as [b0| |] eqn:E0; simpl in H; try discriminate.
    destruct (comprehension f (seq (S s) n)) as [bs'| |] eqn:E;
      simpl in H; try discriminate.
    injection H as <-. destruct (IH (S s) bs' E) as [Hlen Hnth].
    split; [simpl; rewrite Hlen; reflexivity|].
    intros [|i] Hi.
    + exists b0. rewrite Nat.add_0_r. split; [reflexivity | exact E0].
    + destruct (Hnth i ltac:(lia)) as [b [Hb Hf]].
      exists b. rewrite Nat.add_succ_r. split; [exact Hb | exact Hf].
Qed.

(** A call that returns went through every step: an estimator was
    selected, the feature columns and the target were found, the fit
    succeeded and the comprehension ran to its end. *)
Lemma regression_returned (sk : sklearn) (df : DataFrame)
    (impute_column : string) (X_columns : list string)
    (missingness_column regression : string) (out : list cell) :
  regression_imputation sk df impute_column X_columns missingness_column
                        regression
  = Ret out ->
  exists (est : Estimator) (X : list (list cell)) (y : list cell)
         (m : model est),
    select_model sk regression = Ret est
    /\ get_columns df X_columns = Ret X
    /\ get_column df impute_column = Ret y
    /\ fit est (rows_of (shape0 df) X) y = Ret m
    /\ comprehension
         (fun i =>
            (flag <- loc df i "age_missingness" ;;
             if cell_eq0 flag then loc df i "age"
             else (row <- loc_row df i ["children"; "partnered"; "income"] ;;
                   predict est m row))%py)
         (range (Z.of_nat (shape0 df)))
       = Ret out.
Proof.
  unfold regression_imputation. intros H.
  destruct (select_model sk regression) as [est| |]; simpl in H; try discriminate.
  destruct (get_columns df X_columns) as [X| |]; simpl in H; try discriminate.
  destruct (get_column df impute_column) as [y| |]; simpl in H; try discriminate.
  destruct (fit est (rows_of (shape0 df) X) y) as [m| |] eqn:Hfit;
    simpl in H; try discriminate.
  exists est, X, y, m. repeat split; try reflexivity; assumption.
Qed.

(** X11.  Whatever [impute_column], [X_columns] and [missingness_column] are,
    a column [regression_imputation] returns has one entry per row; the
    entry of a row whose ['age_missingness'] is 0 is that row's ['age'],
    and the entry of any other row is the fitted model's prediction from
    that row's ['children'], ['partnered'] and ['income']. *)
Theorem regression_result_rows :
  forall (sk : sklearn) (df : DataFrame) (impute_column : string)
         (X_columns : list string) (missingness_column regression : string)
         (out : list cell),
  regression_imputation sk df impute_column X_columns missingness_column
                        regression
  = Ret out ->
  List.length out = shape0 df
  /\ exists (est : Estimator) (X : list (list cell)) (y : list cell)
            (m : model est),
       select_model sk regression = Ret est
       /\ get_columns df X_columns = Ret X
       /\ get_column df impute_column = Ret y
       /\ fit est (rows_of (shape0 df) X) y = Ret m
       /\ forall i, i < shape0 df ->
            exists flag v,
              loc df i "age_missingness" = Ret flag
              /\ nth_error out i = Some v
              /\ (cell_eq0 flag = true -> loc df i "age" = Ret v)
              /\ (cell_eq0 flag = false ->
                  exists row,
                    loc_row df i ["children"; "partnered"; "income"] = Ret row
                    /\ predict est m row = Ret v).
Proof.
  intros sk df impute_column X_columns missingness_column regression out H.
  destruct (regression_returned _ _ _ _ _ _ _ H)
    as [est [X [y [m [Hsel [HX [Hy [Hfit Hcomp]]]]]]]].
  unfold range in Hcomp. rewrite Nat2Z.id in Hcomp.
  destruct (comprehension_seq_inv _ _ _ _ Hcomp) as [Hlen Hrows].
  split; [exact Hlen|].
  exists est, X, y, m.
  split; [exact Hsel | split; [exact HX | split; [exact Hy | split; [exact Hfit|]]]].
  intros i Hi. destruct (Hrows i Hi) as [v [Hv Hf]]. simpl in Hf.
  destruct (loc df i "age_missingness") as [flag| |]; simpl in Hf; try discriminate.
  exists flag, v. split; [reflexivity | split; [exact Hv | split]].
  - intros E. rewrite E in Hf. exact Hf.
  - intros E. rewrite E in Hf.
    destruct (loc_row df i ["children"; "partnered"; "income"]) as [row| |];
      simpl in Hf; try discriminate.
    exists row. split; [reflexivity | exact Hf].
Qed.

Lemma regression_result_rows_witness :
  List.length [Num 10; Num 20; Num (660 # 3)] = shape0 survey
  /\ exists (est : Estimator) (X : list (list cell)) (y : list cell)
            (m : model est),
       select_model mean_sklearn "linear" = Ret est
       /\ get_columns survey ["children"; "partnered"; "age"] = Ret X
       /\ get_column survey "income" = Ret y
       /\ fit est (rows_of (shape0 survey) X) y = Ret m
       /\ forall i, i < shape0 survey ->
            exists flag v,
              loc survey i "age_missingness" = Ret flag
              /\ nth_error [Num 10; Num 20; Num (660 # 3)] i = Some v
              /\ (cell_eq0 flag = true -> loc survey i "age" = Ret v)
              /\ (cell_eq0 flag = false ->
                  exists row,
                    loc_row survey i ["children"; "partnered"; "income"] = Ret row
                    /\ predict est m row = Ret v).
Proof.
  apply (regression_result_rows mean_sklearn survey "income"
           ["children"; "partnered"; "age"] "income_missingness" "linear").
  reflexivity.
Defined.

(** X12.  The function cannot be used on a table that lacks ['age_missingness']:
    with a selected estimator, existing feature and target columns and a
    successful fit, on a table with at least one row, the first row of the
    comprehension raises [KeyError]. *)
Theorem regression_needs_age_missingness :
  forall (sk : sklearn) (df : DataFrame) (impute_column : string)
         (X_columns : list string) (missingness_column regression : string)
         (est : Estimator) (X : list (list cell)) (y : list cell)
         (m : model est),
  0 < shape0 df ->
  select_model sk regression = Ret est ->
  get_columns df X_columns = Ret X ->
  find_column df impute_column = Some y ->
  fit est (rows_of (shape0 df) X) y = Ret m ->
  find_column df "age_missingness" = None ->
  regression_imputation sk df impute_column X_columns missingness_column
                        regression
  = Raise (KeyError "age_missingness").
Proof.
  intros sk df impute_column X_columns missingness_column regression
         est X y m Hn Hsel HX Hy Hfit Hnone.
  unfold regression_imputation, get_column.
  rewrite Hsel. cbn [bind]. rewrite HX. cbn [bind]. rewrite Hy. cbn [bind].
  rewrite Hfit. cbn [bind].
  unfold range. rewrite Nat2Z.id.
  destruct (shape0 df) as [|n]; [lia|].
  cbn [seq comprehension]. unfold loc at 1, get_column. rewrite Hnone.
  reflexivity.
Qed.

Lemma regression_needs_age_missingness_witness :
  regression_imputation mean_sklearn household "income"
                        ["children"; "partnered"] "income_missingness" "linear"
  = Raise (KeyError "age_missingness").
Proof.
  apply (regression_needs_age_missingness mean_sklearn household "income"
           ["children"; "partnered"] "income_missingness" "linear"
           mean_regressor
           [[Num 1; Num 2; Num 3]; [Num 1; Num 0; Num 1]]
           [Num 100; Num 260; Num 300] (2, 660 # 3)).
  - simpl. lia.
  - reflexivity.
  - reflexivity.
  - reflexivity.
  - reflexivity.
  - reflexivity.
Defined.

(** ** The table with holes (cell 10) *)

Lemma comprehension_app {A B : Type} (f : A -> outcome B) (l1 l2 : list A) :
  comprehension f (l1 ++ l2)
  = (bs1 <- comprehension f l1 ;;
     bs2 <- comprehension f l2 ;;
     Ret (bs1 ++ bs2))%py.
Proof.
  induction l1 as [|a l1 IH]; simpl.
  - destruct (comprehension f l2); reflexivity.
  - destruct (f a) as [b| |]; simpl; try reflexivity.
    rewrite IH. destruct (comprehension f l1) as [bs1| |]; simpl; try reflexivity.
    destruct (comprehension f l2); reflexivity.
Qed.

Lemma imputed_column_firstn (s : cell) (col : list cell) :
  forall (ind : list cell) (k : nat),
    List.length ind = List.length col -> k <= List.length col ->
    imputed_column s col ind k = firstn k (fill s col ind).
Proof.
  unfold imputed_column.
  induction col as [|x col IH]; intros ind k Hlen Hk.
  - simpl in Hk. replace k with 0 by lia. reflexivity.
  - destruct ind as [|m ind]; [discriminate|].
    injection Hlen as Hlen. destruct k as [|k]; [reflexivity|].
    cbn [seq map fill nth firstn]. f_equal.
    rewrite <- seq_shift, map_map. cbn [nth]. apply IH; [exact Hlen|].
    simpl in Hk. lia.
Qed.

Lemma masked_row (df : DataFrame) (column indicator : string)
    (col ind : list cell) (i : nat) :
  wf_df df ->
  find_column df column = Some col ->
  find_column df indicator = Some ind ->
  i < shape0 df ->
  (flag <- loc df i indicator ;;
   if cell_eq0 flag then loc df i column else Ret NaN)%py
  = Ret (if cell_eq0 (nth i ind NaN) then nth i col NaN else NaN).
Proof.
  intros Hwf Hc Hi Hlt.
  pose proof (find_column_length df _ _ Hwf Hc) as Hlc.
  pose proof (find_column_length df _ _ Hwf Hi) as Hli.
  rewrite (loc_nth df indicator ind i Hi) by lia. cbn [bind].
  destruct (cell_eq0 (nth i ind NaN)); [|reflexivity].
  apply loc_nth; [exact Hc | lia].
Qed.

(** On a table of at least 100 rows the comprehension returns the first
    100 rows, masked. *)
Lemma masked_column_full (df : DataFrame) (column indicator : string)
    (col ind : list cell) :
  wf_df df ->
  find_column df column = Some col ->
  find_column df indicator = Some ind ->
  100 <= shape0 df ->
  masked_column df column indicator = Ret (firstn 100 (fill NaN col ind)).
Proof.
  intros Hwf Hc Hi Hn.
  pose proof (find_column_length df _ _ Hwf Hc) as Hlc.
  pose proof (find_column_length df _ _ Hwf Hi) as Hli.
  unfold masked_column, range.
  rewrite <- (imputed_column_firstn NaN col ind 100) by lia.
  unfold imputed_column. apply comprehension_ret.
  intros i Hin. apply in_seq in Hin.
  apply (masked_row df column indicator col ind i Hwf Hc Hi). lia.
Qed.

(** On a shorter table it reaches a row label that does not exist. *)
Lemma masked_column_short (df : DataFrame) (column indicator : string)
    (col ind : list cell) :
  wf_df df ->
  find_column df column = Some col ->
  find_column df indicator = Some ind ->
  shape0 df < 100 ->
  masked_column df column indicator = Raise (KeyError "row label").
Proof.
  intros Hwf Hc Hi Hn.
  pose proof (find_column_length df _ _ Hwf Hi) as Hli.
  unfold masked_column, range.
  replace (Z.to_nat 100) with (shape0 df + S (99 - shape0 df)) by lia.
  rewrite seq_app, comprehension_app.
  rewrite (comprehension_ret _
             (fun i => if cell_eq0 (nth i ind NaN) then nth i col NaN else NaN)).
  - cbn [bind seq comprehension]. rewrite Nat.add_0_l.
    unfold loc at 1, get_column. rewrite Hi. cbn [bind].
    assert (E : nth_error ind (shape0 df) = None).
    { apply nth_error_None. lia. }
    rewrite E. reflexivity.
  - intros i Hin. apply in_seq in Hin.
    apply (masked_row df column indicator col ind i Hwf Hc Hi). lia.
Qed.

(** X15.  Cell 10 works on tables of exactly 100 rows.  With fewer rows it
    raises [KeyError] at the first row label that does not exist; with
    more rows the 100-entry list does not fit the index and the assignment
    raises [ValueError]; with 100 rows it returns a well-formed table of
    [children] and the three masked columns, each holding the stored value
    where its indicator is 0 and NaN elsewhere. *)
Theorem df_missing_hundred_rows :
  forall (df : DataFrame)
         (children age age_m partnered partnered_m income income_m : list cell),
  wf_df df ->
  find_column df "children" = Some children ->
  find_column df "age" = Some age ->
  find_column df "age_missingness" = Some age_m ->
  find_column df "partnered" = Some partnered ->
  find_column df "partnered_missingness" = Some partnered_m ->
  find_column df "income" = Some income ->
  find_column df "income_missingness" = Some income_m ->
  (shape0 df < 100 -> df_missing df = Raise (KeyError "row label"))
  /\ (100 < shape0 df ->
      df_missing df
      = Raise (ValueError "Length of values does not match length of index"))
  /\ (shape0 df = 100 ->
      exists d,
        df_missing df = Ret d
        /\ shape0 d = 100
        /\ wf_df d
        /\ find_column d "children" = Some children
        /\ find_column d "age" = Some (fill NaN age age_m)
        /\ find_column d "partnered" = Some (fill NaN partnered partnered_m)
        /\ find_column d "income" = Some (fill NaN income income_m)).
Proof.
  intros df children age age_m partnered partnered_m income income_m
         Hwf Hch Hage Hagem Hpar Hparm Hinc Hincm.
  pose proof (find_column_length df _ _ Hwf Hch) as Hlch.
  pose proof (find_column_length df _ _ Hwf Hage) as Hlage.
  pose proof (find_column_length df _ _ Hwf Hagem) as Hlagem.
  pose proof (find_column_length df _ _ Hwf Hpar) as Hlpar.
  pose proof (find_column_length df _ _ Hwf Hparm) as Hlparm.
  pose proof (find_column_length df _ _ Hwf Hinc) as Hlinc.
  pose proof (find_column_length df _ _ Hwf Hincm) as Hlincm.
  split; [|split].
  - intros Hn. unfold df_missing, get_column. rewrite Hch. cbn [bind].
    rewrite (masked_column_short df "age" "age_missingness" age age_m)
      by assumption.
    reflexivity.
  - intros Hn. unfold df_missing, get_column. rewrite Hch. cbn [bind].
    rewrite (masked_column_full df "age" "age_missingness" age age_m)
      by (assumption || lia).
    cbn [bind]. unfold set_column. cbn [shape0].
    destruct (Nat.eqb_spec (shape0 df) 0); [lia|].
    rewrite length_firstn, (fill_length NaN age age_m) by lia.
    destruct (Nat.eqb_spec (Nat.min 100 (List.length age)) (shape0 df)); [lia|].
    reflexivity.
  - intros Hn.
    assert (Hfull : forall col ind,
               List.length col = shape0 df -> List.length ind = shape0 df ->
               firstn 100 (fill NaN col ind) = fill NaN col ind
               /\ List.length (fill NaN col ind) = 100).
    { intros col ind Hc Hi.
      assert (Hl : List.length (fill NaN col ind) = 100).
      { rewrite fill_length by lia. lia. }
      split; [|exact Hl]. apply firstn_all2. lia. }
    destruct (Hfull age age_m Hlage Hlagem) as [Ea La].
    destruct (Hfull partnered partnered_m Hlpar Hlparm) as [Ep Lp].
    destruct (Hfull income income_m Hlinc Hlincm) as [Ei Li].
    set (d0 := mkDataFrame (shape0 df) [("children", children)]).
    assert (Hwf0 : wf_df d0).
    { unfold wf_df, d0. cbn [columns shape0]. repeat constructor. exact Hlch. }
    destruct (set_column_ok d0 "age" (fill NaN age age_m))
      as [d1 [Hs1 [Hn1 [Hwf1 [Hf1 Ho1]]]]];
      [unfold d0; cbn [shape0]; lia | exact Hwf0 | unfold d0; cbn [shape0]; lia |].
    destruct (set_column_ok d1 "partnered" (fill NaN partnered partnered_m))
      as [d2 [Hs2 [Hn2 [Hwf2 [Hf2 Ho2]]]]];
      [rewrite Hn1; unfold d0; cbn [shape0]; lia | exact Hwf1
       | rewrite Hn1; unfold d0; cbn [shape0]; lia |].
    destruct (set_column_ok d2 "income" (fill NaN income income_m))
      as [d3 [Hs3 [Hn3 [Hwf3 [Hf3 Ho3]]]]];
      [rewrite Hn2, Hn1; unfold d0; cbn [shape0]; lia | exact Hwf2
       | rewrite Hn2, Hn1; unfold d0; cbn [shape0]; lia |].
    exists d3. split; [|split; [|split; [|split; [|split; [|split]]]]].
    + unfold df_missing, get_column. rewrite Hch. cbn [bind].
      rewrite (masked_column_full df "age" "age_missingness" age age_m)
        by (assumption || lia).
      cbn [bind]. rewrite Ea. fold d0. rewrite Hs1. cbn [bind].
      rewrite (masked_column_full df "partnered" "partnered_missingness"
                 partnered partnered_m) by (assumption || lia).
      cbn [bind]. rewrite Ep, Hs2. cbn [bind].
      rewrite (masked_column_full df "income" "income_missingness"
                 income income_m) by (assumption || lia).
      cbn [bind]. rewrite Ei. exact Hs3.
    + rewrite Hn3, Hn2, Hn1. unfold d0. cbn [shape0]. exact Hn.
    + exact Hwf3.
    + rewrite Ho3, Ho2, Ho1 by discriminate.
      unfold find_column, d0. cbn [columns find fst snd String.eqb].
      reflexivity.
    + rewrite Ho3, Ho2 by discriminate. exact Hf1.
    + rewrite Ho3 by discriminate. exact Hf2.
    + exact Hf3.
Qed.

Lemma census_wf : wf_df census.
Proof.
  unfold wf_df, census. simpl columns.
  repeat constructor; simpl; rewrite length_map, length_seq; reflexivity.
Qed.

Lemma df_missing_hundred_rows_witness :
  exists d,
    df_missing census = Ret d
    /\ shape0 d = 100
    /\ wf_df d
    /\ nth_error (columns d) 1
       = Some ("age",
               map (fun i => if i mod 3 =? 0 then NaN
                             else Num (inject_Z (20 + Z.of_nat i)))
                   (seq 0 100)).
Proof.
  destruct (df_missing_hundred_rows census
              (map (fun i => Num (inject_Z (Z.of_nat (i mod 4)))) (seq 0 100))
              (map (fun i => Num (inject_Z (20 + Z.of_nat i))) (seq 0 100))
              (map (fun i => Num (if i mod 3 =? 0 then 1 else 0)) (seq 0 100))
              (map (fun i => Num (inject_Z (Z.of_nat (i mod 2)))) (seq 0 100))
              (map (fun i => Num (if i mod 5 =? 0 then 1 else 0)) (seq 0 100))
              (map (fun i => Num (inject_Z (15000 + 750 * Z.of_nat i))) (seq 0 100))
              (map (fun i => Num (if i mod 4 =? 0 then 1 else 0)) (seq 0 100))
              census_wf eq_refl eq_refl eq_refl eq_refl eq_refl eq_refl eq_refl)
    as [_ [_ Hrun]].
  destruct (Hrun eq_refl) as [d [Hd [Hn [Hwf _]]]].
  exists d. split; [exact Hd | split; [exact Hn | split; [exact Hwf|]]].
  vm_compute in Hd. injection Hd as <-. vm_compute. reflexivity.
Defined.

(** ** Incomes are made non-negative (cell 3) *)

Lemma nonnegative_income_nonnegative (income : list cell) :
  Forall nonnegative (nonnegative_income income).
Proof.
  unfold nonnegative_income. apply Forall_map, Forall_forall. intros v _.
  destruct v as [q|]; simpl; [|apply Qle_refl].
  destruct (Qle_bool 0 q) eqn:E; simpl; [|apply Qle_refl].
  apply Qle_bool_iff. exact E.
Qed.

Lemma nonnegative_checks (col : list cell) :
  Forall nonnegative col ->
  has_negative col = false
  /\ existsb is_nan col = false
  /\ nonnegative_income col = col
  /\ Forall (fun q => 0 <= q)%Q (map weight_of col).
Proof.
  unfold has_negative, nonnegative_income.
  induction 1 as [|v col Hv Hall [IH1 [IH2 [IH3 IH4]]]]; simpl.
  - repeat split; constructor.
  - destruct v as [q|]; [|destruct Hv]. simpl in Hv.
    rewrite IH1, IH2, IH3. simpl.
    assert (E : Qle_bool 0 q = true) by (apply Qle_bool_iff; exact Hv).
    rewrite E. unfold Qltb. 
    assert (E' : Qltb q 0 = false).
    { destruct (Qltb q 0) eqn:L; [|reflexivity].
      apply Qltb_lt in L. exfalso. exact (Qlt_not_le _ _ L Hv). }
    fold (Qltb q 0). rewrite E'.
    repeat split; try reflexivity. constructor; assumption.
Qed.

(** X16.  After cell 3 the income column (finite numbers and NaN) has as
    many entries as before, none negative and none NaN: a NaN compares
    false with 0 and is replaced by 0 like a negative entry.  Applying the
    clamp again changes nothing. *)
Theorem nonnegative_income_weights :
  forall income : list cell,
    List.length (nonnegative_income income) = List.length income
    /\ Forall nonnegative (nonnegative_income income)
    /\ has_negative (nonnegative_income income) = false
    /\ existsb is_nan (nonnegative_income income) = false
    /\ nonnegative_income (nonnegative_income income) = nonnegative_income income.
Proof.
  intros income.
  pose proof (nonnegative_income_nonnegative income) as Hnn.
  destruct (nonnegative_checks _ Hnn) as [Hneg [Hnan [Hidem _]]].
  split; [unfold nonnegative_income; apply length_map|].
  split; [exact Hnn | split; [exact Hneg | split; [exact Hnan | exact Hidem]]].
Qed.

(** ** The two weighted generators are one program *)

Section SameProgram.

Variable R : RandomState.

Lemma bindM_ext_on {A B : Type} (P : A -> Prop) (c : M R A)
    (k1 k2 : A -> M R B) (g : rng R) :
  (forall a g', c g = Ret (a, g') -> P a) ->
  (forall a g', P a -> k1 a g' = k2 a g') ->
  bindM R c k1 g = bindM R c k2 g.
Proof.
  intros Hc Hk. unfold bindM.
  destruct (c g) as [[a g']| |] eqn:E; try reflexivity.
  apply Hk. apply (Hc a g'). reflexivity.
Qed.

Lemma bound_indices {A B : Type} (c0 : M R A) (c : A -> M R B)
    (k : A -> B -> M R (list nat))
    (g : rng R) (o : option (list nat)) (g' : rng R) :
  bindM R c0
    (fun a => bindM R (c a)
                (fun b => bindM R (k a b) (fun l => ret R (Some l)))) g
  = Ret (o, g') ->
  exists l, o = Some l.
Proof.
  unfold bindM, ret. intros H.
  destruct (c0 g) as [[a g0]| |]; try discriminate.
  destruct (c a g0) as [[b g1]| |]; try discriminate.
  destruct (k a b g1) as [[l g2]| |]; try discriminate.
  injection H as <- _. exists l. reflexivity.
Qed.

End SameProgram.

(** X17.  With [method] 'linear' or 'quadratic', [create_mar_column] with
    [depends_on = c] and [create_nmar_column] with [missing_column = c] are
    the same computation: same outcome and same generator state, for every
    table, proportion, seed and earlier state.  [create_mar_column] never
    reads its own [missing_column]. *)
Theorem mar_nmar_coincide :
  forall (R : RandomState) (P : Pandas) (fuel : nat) (df : DataFrame)
         (missing_column c method : string) (p_missing : number)
         (random_state : Z) (g : rng R),
  method = "linear" \/ method = "quadratic" ->
  create_mar_column R P fuel df missing_column c method p_missing random_state g
  = create_nmar_column R P fuel df c method p_missing random_state g.
Proof.
  intros R P fuel df missing_column c method p_missing random_state g Hm.
  unfold create_mar_column, create_nmar_column.
  apply (bindM_ext_on R (fun _ => True)); [intros; exact I|].
  intros _ g1 _.
  apply (bindM_ext_on R (fun o => exists l, o = Some l)).
  - intros o g2 H. destruct Hm as [-> | ->]; cbn [String.eqb Ascii.eqb Bool.eqb] in H.
    + apply (bound_indices R _ _ _ _ _ _ H).
    + apply (bound_indices R _ _ _ _ _ _ H).
  - intros o g2 [l ->]. reflexivity.
Qed.

Lemma mar_nmar_coincide_witness :
  create_mar_column cycle_rng exact_pandas 10 hundred_rows "income" "age"
                    "quadratic" (PyFloat (decimal 3 2)) 42
                    (seed_state cycle_rng 7)
  = create_nmar_column cycle_rng exact_pandas 10 hundred_rows "age"
                       "quadratic" (PyFloat (decimal 3 2)) 42
                       (seed_state cycle_rng 7).
Proof.
  apply (mar_nmar_coincide cycle_rng exact_pandas 10 hundred_rows "income" "age" "quadratic"
           (PyFloat (decimal 3 2)) 42 (seed_state cycle_rng 7)).
  right. reflexivity.
Defined.

(** ** An unknown [method], whatever the proportion *)

(** X18.  With a [method] other than 'linear' and 'quadratic' and a seed NumPy
    accepts, the weighted generators raise [NameError] on every table that
    has a row, also when no row is requested ([p_missing] zero, negative or
    too small to round to 1); on a table without rows the last
    comprehension reads nothing and the empty column is returned. *)
Theorem unknown_method_any_proportion :
  forall (R : RandomState) (P : Pandas) (fuel : nat) (df : DataFrame)
         (missing_column depends_on method : string)
         (p_missing : number) (random_state : Z) (g : rng R),
  method <> "linear" -> method <> "quadratic" ->
  valid_seed random_state = true ->
  (0 < shape0 df ->
   create_mar_column R P fuel df missing_column depends_on method p_missing
                     random_state g
   = Raise (NameError "mar_indices")
   /\ create_nmar_column R P fuel df missing_column method p_missing
                         random_state g
      = Raise (NameError "nmar_indices"))
  /\ (shape0 df = 0 ->
      create_mar_column R P fuel df missing_column depends_on method p_missing
                        random_state g
      = Ret ([], seed_state R random_state)
      /\ create_nmar_column R P fuel df missing_column method p_missing
                            random_state g
         = Ret ([], seed_state R random_state)).
Proof.
  intros R P fuel df missing_column depends_on method p_missing random_state
         g Hl Hq Hs.
  apply String.eqb_neq in Hl. apply String.eqb_neq in Hq.
  unfold create_mar_column, create_nmar_column.
  rewrite !seeded by exact Hs. rewrite Hl, Hq.
  unfold bindM, ret, lift, range. rewrite Nat2Z.id.
  split; intros Hn.
  - destruct (shape0 df) as [|n]; [lia|]. split; reflexivity.
  - rewrite Hn. split; reflexivity.
Qed.

Lemma unknown_method_any_proportion_witness :
  create_mar_column cycle_rng exact_pandas 10 zero_age "income" "age" "cubic"
                    (PyFloat (decimal 1 2)) 42 0
  = Raise (NameError "mar_indices")
  /\ create_nmar_column cycle_rng exact_pandas 10 zero_age "income" "cubic"
                        (PyFloat (decimal 1 2)) 42 0
     = Raise (NameError "nmar_indices").
Proof.
  apply (unknown_method_any_proportion cycle_rng exact_pandas 10 zero_age
           "income" "age" "cubic" (PyFloat (decimal 1 2)) 42 0).
  - discriminate.
  - discriminate.
  - reflexivity.
  - simpl. lia.
Defined.

(** ** More rows requested than the table has *)

Lemma indicator_of_bound (n : nat) (k : Z) (out : list Z) :
  indicator_of n k out -> (k <= Z.of_nat n)%Z.
Proof.
  intros [Hlen [Hcount _]].
  pose proof (count_occ_bound Z.eq_dec 1%Z out). lia.
Qed.

(** X19.  When [round] returns for the double product [p_missing * n] an
    integer that exceeds the number of rows, no generator returns a column,
    whatever the random generator, the seed and the number of loop
    iterations allowed; [create_mcar_column], which has no other way to
    fail once the seed is accepted, keeps drawing for ever. *)
Theorem overrequest_never_returns :
  forall (R : RandomState) (P : Pandas) (fuel : nat) (df : DataFrame)
         (missing_column depends_on method : string)
         (p_missing : number) (random_state : Z) (g : rng R) (k : Z),
  py_round (requested p_missing df) = Ret k ->
  (Z.of_nat (shape0 df) < k)%Z ->
  returns (create_mcar_column R P fuel df missing_column p_missing
                              random_state g) = false
  /\ returns (create_mar_column R P fuel df missing_column depends_on method
                                p_missing random_state g) = false
  /\ returns (create_nmar_column R P fuel df missing_column method p_missing
                                 random_state g) = false
  /\ (valid_seed random_state = true ->
      create_mcar_column R P fuel df missing_column p_missing random_state g
      = Timeout).
Proof.
  intros R P fuel df missing_column depends_on method p_missing random_state g
         k Hr Hk.
  assert (Hno : forall out,
             ~ indicator_of (shape0 df) (Z.max 0 k) out).
  { intros out H. apply indicator_of_bound in H. lia. }
  split; [|split; [|split]].
  - destruct (create_mcar_column R P fuel df missing_column p_missing
                random_state g) as [[out g']| |] eqn:E; try reflexivity.
    exfalso. apply (Hno out).
    destruct (mcar_returned R P df p_missing random_state fuel missing_column
                g out g' E) as [k' [Hr' Hind]].
    rewrite Hr in Hr'. injection Hr' as <-. exact Hind.
  - destruct (create_mar_column R P fuel df missing_column depends_on method
                p_missing random_state g) as [[out g']| |] eqn:E;
      try reflexivity.
    exfalso. apply (Hno out).
    apply (mar_returned R P df p_missing random_state fuel missing_column
             depends_on method g out g' E). exact Hr.
  - destruct (create_nmar_column R P fuel df missing_column method p_missing
                random_state g) as [[out g']| |] eqn:E; try reflexivity.
    exfalso. apply (Hno out).
    apply (nmar_returned R P df p_missing random_state fuel missing_column
             method g out g' E). exact Hr.
  - intros Hs. apply (mcar_diverges R P df p_missing random_state k Hr);
      assumption.
Qed.

Lemma overrequest_never_returns_witness :
  returns (create_mcar_column cycle_rng exact_pandas 50 zero_age "age"
                              (PyFloat (decimal 15 1)) 42 0) = false
  /\ returns (create_mar_column cycle_rng exact_pandas 50 zero_age "age"
                                "income" "linear" (PyFloat (decimal 15 1))
                                42 0) = false
  /\ returns (create_nmar_column cycle_rng exact_pandas 50 zero_age "age"
                                 "linear" (PyFloat (decimal 15 1)) 42 0)
     = false
  /\ (valid_seed 42 = true ->
      create_mcar_column cycle_rng exact_pandas 50 zero_age "age"
                         (PyFloat (decimal 15 1)) 42 0
      = Timeout).
Proof.
  apply (overrequest_never_returns cycle_rng exact_pandas 50 zero_age "age"
           "income" "linear" (PyFloat (decimal 15 1)) 42 0 3%Z).
  - reflexivity.
  - reflexivity.
Defined.
